(** * The DASH demuxer's segment sequencing, refresh and gating logic
    (libavformat/dashdec.c), embedded as Rocq functions.

    Integers are modelled as [Z] with the width of the C type written out:
    every arithmetic result is brought back into the range of its type by
    [to_int64], [to_uint64], [to_int32] or [to_uint32].  Signed arithmetic
    wraps (two's complement), as the compilers FFmpeg is built with do. *)

From Stdlib Require Import ZArith Lia ZifyBool Bool String Ascii List.
From stdpp Require Import base option list gmap strings.
Import ListNotations.
Local Open Scope Z_scope.

(** ** Machine integers *)

Definition INT64_MAX : Z := 9223372036854775807.
Definition INT64_MIN : Z := -9223372036854775808.
Definition UINT64_MOD : Z := 18446744073709551616.
Definition UINT32_MOD : Z := 4294967296.

Definition to_uint64 (z : Z) : Z := z mod UINT64_MOD.
Definition to_int64 (z : Z) : Z := (z - INT64_MIN) mod UINT64_MOD + INT64_MIN.
Definition to_uint32 (z : Z) : Z := z mod UINT32_MOD.
Definition to_int32 (z : Z) : Z := (z + 2147483648) mod UINT32_MOD - 2147483648.

(** int64_t arithmetic. *)
Definition add64 (a b : Z) : Z := to_int64 (a + b).
Definition sub64 (a b : Z) : Z := to_int64 (a - b).
Definition mul64 (a b : Z) : Z := to_int64 (a * b).
(** C division truncates toward zero.  Division by zero is undefined in C;
    the model follows [Z.quot], whose quotient by zero is 0. *)
Definition div64 (a b : Z) : Z := to_int64 (Z.quot a b).

(** uint64_t arithmetic: a signed operand is converted to uint64_t first. *)
Definition uadd64 (a b : Z) : Z := to_uint64 (to_uint64 a + to_uint64 b).
Definition usub64 (a b : Z) : Z := to_uint64 (to_uint64 a - to_uint64 b).
Definition umul64 (a b : Z) : Z := to_uint64 (to_uint64 a * to_uint64 b).
Definition udiv64 (a b : Z) : Z := to_uint64 a / to_uint64 b.

(** Error codes and flags of libavutil/error.h, libavformat/avformat.h and
    libavcodec (headers outside the modelled file), with their values on
    Linux. *)
Definition AVERROR_INVALIDDATA : Z := -1094995529.
Definition AVERROR_INPUT_CHANGED : Z := -1668179713.
Definition AVERROR_EOF : Z := -541478725.
Definition AVERROR_EXIT : Z := -1414092869.
Definition AVERROR_ENOSYS : Z := -38.
Definition AVSEEK_FLAG_BACKWARD : Z := 1.
Definition AVSEEK_FLAG_BYTE : Z := 2.
Definition AVDISCARD_ALL : Z := 48.

(** ** Data model *)

Record fragment := {
  frag_url_offset : Z;
  frag_size : Z;
  frag_url : string
}.

(** One [S] element of a SegmentTimeline. *)
Record timeline := {
  tl_starttime : Z;
  tl_repeat : Z;
  tl_duration : Z
}.

Definition rep_ptr := positive.

Record DASHContext := {
  c_base_url : option string;
  c_videos : list rep_ptr;
  c_audios : list rep_ptr;
  c_subtitles : list rep_ptr;
  c_media_presentation_duration : Z;
  c_suggested_presentation_delay : Z;
  c_availability_start_time : Z;
  c_publish_time : Z;
  c_time_shift_buffer_depth : Z;
  c_min_buffer_time : Z;
  c_period_duration : Z;
  c_period_start : Z;
  c_use_timeline_segment_offset_correction : bool;
  c_fetch_completed_segments_only : bool;
  c_is_live : bool
}.

Definition set_c_base_url (v : option string) (c : DASHContext) : DASHContext :=
  {| c_base_url := v; c_videos := c_videos c; c_audios := c_audios c; c_subtitles := c_subtitles c;
     c_media_presentation_duration := c_media_presentation_duration c; c_suggested_presentation_delay :=
     c_suggested_presentation_delay c; c_availability_start_time := c_availability_start_time c;
     c_publish_time := c_publish_time c; c_time_shift_buffer_depth := c_time_shift_buffer_depth c;
     c_min_buffer_time := c_min_buffer_time c; c_period_duration := c_period_duration c; c_period_start :=
     c_period_start c; c_use_timeline_segment_offset_correction := c_use_timeline_segment_offset_correction
     c; c_fetch_completed_segments_only := c_fetch_completed_segments_only c; c_is_live := c_is_live c |}.

Definition set_c_videos (v : list rep_ptr) (c : DASHContext) : DASHContext :=
  {| c_base_url := c_base_url c; c_videos := v; c_audios := c_audios c; c_subtitles := c_subtitles c;
     c_media_presentation_duration := c_media_presentation_duration c; c_suggested_presentation_delay :=
     c_suggested_presentation_delay c; c_availability_start_time := c_availability_start_time c;
     c_publish_time := c_publish_time c; c_time_shift_buffer_depth := c_time_shift_buffer_depth c;
     c_min_buffer_time := c_min_buffer_time c; c_period_duration := c_period_duration c; c_period_start :=
     c_period_start c; c_use_timeline_segment_offset_correction := c_use_timeline_segment_offset_correction
     c; c_fetch_completed_segments_only := c_fetch_completed_segments_only c; c_is_live := c_is_live c |}.

Definition set_c_audios (v : list rep_ptr) (c : DASHContext) : DASHContext :=
  {| c_base_url := c_base_url c; c_videos := c_videos c; c_audios := v; c_subtitles := c_subtitles c;
     c_media_presentation_duration := c_media_presentation_duration c; c_suggested_presentation_delay :=
     c_suggested_presentation_delay c; c_availability_start_time := c_availability_start_time c;
     c_publish_time := c_publish_time c; c_time_shift_buffer_depth := c_time_shift_buffer_depth c;
     c_min_buffer_time := c_min_buffer_time c; c_period_duration := c_period_duration c; c_period_start :=
     c_period_start c; c_use_timeline_segment_offset_correction := c_use_timeline_segment_offset_correction
     c; c_fetch_completed_segments_only := c_fetch_completed_segments_only c; c_is_live := c_is_live c |}.

Definition set_c_subtitles (v : list rep_ptr) (c : DASHContext) : DASHContext :=
  {| c_base_url := c_base_url c; c_videos := c_videos c; c_audios := c_audios c; c_subtitles := v;
     c_media_presentation_duration := c_media_presentation_duration c; c_suggested_presentation_delay :=
     c_suggested_presentation_delay c; c_availability_start_time := c_availability_start_time c;
     c_publish_time := c_publish_time c; c_time_shift_buffer_depth := c_time_shift_buffer_depth c;
     c_min_buffer_time := c_min_buffer_time c; c_period_duration := c_period_duration c; c_period_start :=
     c_period_start c; c_use_timeline_segment_offset_correction := c_use_timeline_segment_offset_correction
     c; c_fetch_completed_segments_only := c_fetch_completed_segments_only c; c_is_live := c_is_live c |}.

Definition set_c_media_presentation_duration (v : Z) (c : DASHContext) : DASHContext :=
  {| c_base_url := c_base_url c; c_videos := c_videos c; c_audios := c_audios c; c_subtitles := c_subtitles
     c; c_media_presentation_duration := v; c_suggested_presentation_delay := c_suggested_presentation_delay
     c; c_availability_start_time := c_availability_start_time c; c_publish_time := c_publish_time c;
     c_time_shift_buffer_depth := c_time_shift_buffer_depth c; c_min_buffer_time := c_min_buffer_time c;
     c_period_duration := c_period_duration c; c_period_start := c_period_start c;
     c_use_timeline_segment_offset_correction := c_use_timeline_segment_offset_correction c;
     c_fetch_completed_segments_only := c_fetch_completed_segments_only c; c_is_live := c_is_live c |}.

Definition set_c_suggested_presentation_delay (v : Z) (c : DASHContext) : DASHContext :=
  {| c_base_url := c_base_url c; c_videos := c_videos c; c_audios := c_audios c; c_subtitles := c_subtitles
     c; c_media_presentation_duration := c_media_presentation_duration c; c_suggested_presentation_delay :=
     v; c_availability_start_time := c_availability_start_time c; c_publish_time := c_publish_time c;
     c_time_shift_buffer_depth := c_time_shift_buffer_depth c; c_min_buffer_time := c_min_buffer_time c;
     c_period_duration := c_period_duration c; c_period_start := c_period_start c;
     c_use_timeline_segment_offset_correction := c_use_timeline_segment_offset_correction c;
     c_fetch_completed_segments_only := c_fetch_completed_segments_only c; c_is_live := c_is_live c |}.

Definition set_c_availability_start_time (v : Z) (c : DASHContext) : DASHContext :=
  {| c_base_url := c_base_url c; c_videos := c_videos c; c_audios := c_audios c; c_subtitles := c_subtitles
     c; c_media_presentation_duration := c_media_presentation_duration c; c_suggested_presentation_delay :=
     c_suggested_presentation_delay c; c_availability_start_time := v; c_publish_time := c_publish_time c;
     c_time_shift_buffer_depth := c_time_shift_buffer_depth c; c_min_buffer_time := c_min_buffer_time c;
     c_period_duration := c_period_duration c; c_period_start := c_period_start c;
     c_use_timeline_segment_offset_correction := c_use_timeline_segment_offset_correction c;
     c_fetch_completed_segments_only := c_fetch_completed_segments_only c; c_is_live := c_is_live c |}.

Definition set_c_publish_time (v : Z) (c : DASHContext) : DASHContext :=
  {| c_base_url := c_base_url c; c_videos := c_videos c; c_audios := c_audios c; c_subtitles := c_subtitles
     c; c_media_presentation_duration := c_media_presentation_duration c; c_suggested_presentation_delay :=
     c_suggested_presentation_delay c; c_availability_start_time := c_availability_start_time c;
     c_publish_time := v; c_time_shift_buffer_depth := c_time_shift_buffer_depth c; c_min_buffer_time :=
     c_min_buffer_time c; c_period_duration := c_period_duration c; c_period_start := c_period_start c;
     c_use_timeline_segment_offset_correction := c_use_timeline_segment_offset_correction c;
     c_fetch_completed_segments_only := c_fetch_completed_segments_only c; c_is_live := c_is_live c |}.

Definition set_c_time_shift_buffer_depth (v : Z) (c : DASHContext) : DASHContext :=
  {| c_base_url := c_base_url c; c_videos := c_videos c; c_audios := c_audios c; c_subtitles := c_subtitles
     c; c_media_presentation_duration := c_media_presentation_duration c; c_suggested_presentation_delay :=
     c_suggested_presentation_delay c; c_availability_start_time := c_availability_start_time c;
     c_publish_time := c_publish_time c; c_time_shift_buffer_depth := v; c_min_buffer_time :=
     c_min_buffer_time c; c_period_duration := c_period_duration c; c_period_start := c_period_start c;
     c_use_timeline_segment_offset_correction := c_use_timeline_segment_offset_correction c;
     c_fetch_completed_segments_only := c_fetch_completed_segments_only c; c_is_live := c_is_live c |}.

Definition set_c_min_buffer_time (v : Z) (c : DASHContext) : DASHContext :=
  {| c_base_url := c_base_url c; c_videos := c_videos c; c_audios := c_audios c; c_subtitles := c_subtitles
     c; c_media_presentation_duration := c_media_presentation_duration c; c_suggested_presentation_delay :=
     c_suggested_presentation_delay c; c_availability_start_time := c_availability_start_time c;
     c_publish_time := c_publish_time c; c_time_shift_buffer_depth := c_time_shift_buffer_depth c;
     c_min_buffer_time := v; c_period_duration := c_period_duration c; c_period_start := c_period_start c;
     c_use_timeline_segment_offset_correction := c_use_timeline_segment_offset_correction c;
     c_fetch_completed_segments_only := c_fetch_completed_segments_only c; c_is_live := c_is_live c |}.

Definition set_c_period_duration (v : Z) (c : DASHContext) : DASHContext :=
  {| c_base_url := c_base_url c; c_videos := c_videos c; c_audios := c_audios c; c_subtitles := c_subtitles
     c; c_media_presentation_duration := c_media_presentation_duration c; c_suggested_presentation_delay :=
     c_suggested_presentation_delay c; c_availability_start_time := c_availability_start_time c;
     c_publish_time := c_publish_time c; c_time_shift_buffer_depth := c_time_shift_buffer_depth c;
     c_min_buffer_time := c_min_buffer_time c; c_period_duration := v; c_period_start := c_period_start c;
     c_use_timeline_segment_offset_correction := c_use_timeline_segment_offset_correction c;
     c_fetch_completed_segments_only := c_fetch_completed_segments_only c; c_is_live := c_is_live c |}.

Definition set_c_period_start (v : Z) (c : DASHContext) : DASHContext :=
  {| c_base_url := c_base_url c; c_videos := c_videos c; c_audios := c_audios c; c_subtitles := c_subtitles
     c; c_media_presentation_duration := c_media_presentation_duration c; c_suggested_presentation_delay :=
     c_suggested_presentation_delay c; c_availability_start_time := c_availability_start_time c;
     c_publish_time := c_publish_time c; c_time_shift_buffer_depth := c_time_shift_buffer_depth c;
     c_min_buffer_time := c_min_buffer_time c; c_period_duration := c_period_duration c; c_period_start :=
     v; c_use_timeline_segment_offset_correction := c_use_timeline_segment_offset_correction c;
     c_fetch_completed_segments_only := c_fetch_completed_segments_only c; c_is_live := c_is_live c |}.

Definition set_c_use_timeline_segment_offset_correction (v : bool) (c : DASHContext) : DASHContext :=
  {| c_base_url := c_base_url c; c_videos := c_videos c; c_audios := c_audios c; c_subtitles := c_subtitles
     c; c_media_presentation_duration := c_media_presentation_duration c; c_suggested_presentation_delay :=
     c_suggested_presentation_delay c; c_availability_start_time := c_availability_start_time c;
     c_publish_time := c_publish_time c; c_time_shift_buffer_depth := c_time_shift_buffer_depth c;
     c_min_buffer_time := c_min_buffer_time c; c_period_duration := c_period_duration c; c_period_start :=
     c_period_start c; c_use_timeline_segment_offset_correction := v; c_fetch_completed_segments_only :=
     c_fetch_completed_segments_only c; c_is_live := c_is_live c |}.

Definition set_c_fetch_completed_segments_only (v : bool) (c : DASHContext) : DASHContext :=
  {| c_base_url := c_base_url c; c_videos := c_videos c; c_audios := c_audios c; c_subtitles := c_subtitles
     c; c_media_presentation_duration := c_media_presentation_duration c; c_suggested_presentation_delay :=
     c_suggested_presentation_delay c; c_availability_start_time := c_availability_start_time c;
     c_publish_time := c_publish_time c; c_time_shift_buffer_depth := c_time_shift_buffer_depth c;
     c_min_buffer_time := c_min_buffer_time c; c_period_duration := c_period_duration c; c_period_start :=
     c_period_start c; c_use_timeline_segment_offset_correction := c_use_timeline_segment_offset_correction
     c; c_fetch_completed_segments_only := v; c_is_live := c_is_live c |}.

Definition set_c_is_live (v : bool) (c : DASHContext) : DASHContext :=
  {| c_base_url := c_base_url c; c_videos := c_videos c; c_audios := c_audios c; c_subtitles := c_subtitles
     c; c_media_presentation_duration := c_media_presentation_duration c; c_suggested_presentation_delay :=
     c_suggested_presentation_delay c; c_availability_start_time := c_availability_start_time c;
     c_publish_time := c_publish_time c; c_time_shift_buffer_depth := c_time_shift_buffer_depth c;
     c_min_buffer_time := c_min_buffer_time c; c_period_duration := c_period_duration c; c_period_start :=
     c_period_start c; c_use_timeline_segment_offset_correction := c_use_timeline_segment_offset_correction
     c; c_fetch_completed_segments_only := c_fetch_completed_segments_only c; c_is_live := v |}.

Record representation := {
  rep_id : option string;  (* char *id (None for NULL) *)
  id_length : Z;
  codecs : option string;
  scantype : option string;
  framerate : Z * Z;  (* AVRational as (num, den) *)
  width : Z;
  height : Z;
  ctx : bool;  (* inner container parser is open (ctx != NULL) *)
  input : bool;  (* fetcher handle is open (input != NULL) *)
  assoc_stream : option Z;  (* discard level of the associated stream, None for NULL *)
  fragments : list fragment;
  timelines : list timeline;
  first_seq_no : Z;
  last_seq_no : Z;
  start_number : Z;
  fragment_duration : Z;
  fragment_timescale : Z;
  presentation_timeoffset : Z;
  cur_seq_no : Z;
  cur_seg_offset : Z;
  cur_seg_size : Z;
  cur_seg : option fragment;
  period_media_presentation_duration : Z;
  period_start : Z;
  period_duration : Z;
  init_section : option fragment;
  init_sec_buf : list Z;  (* the cached bytes *)
  init_sec_buf_size : Z;
  init_sec_data_len : Z;
  init_sec_buf_read_offset : Z;
  init_loaded : bool;
  cur_timestamp : Z;
  is_restart_needed : bool
}.

Definition set_rep_id (v : option string) (r : representation) : representation :=
  {| rep_id := v; id_length := id_length r; codecs := codecs r; scantype := scantype r; framerate :=
     framerate r; width := width r; height := height r; ctx := ctx r; input := input r; assoc_stream :=
     assoc_stream r; fragments := fragments r; timelines := timelines r; first_seq_no := first_seq_no r;
     last_seq_no := last_seq_no r; start_number := start_number r; fragment_duration := fragment_duration r;
     fragment_timescale := fragment_timescale r; presentation_timeoffset := presentation_timeoffset r;
     cur_seq_no := cur_seq_no r; cur_seg_offset := cur_seg_offset r; cur_seg_size := cur_seg_size r; cur_seg
     := cur_seg r; period_media_presentation_duration := period_media_presentation_duration r; period_start
     := period_start r; period_duration := period_duration r; init_section := init_section r; init_sec_buf
     := init_sec_buf r; init_sec_buf_size := init_sec_buf_size r; init_sec_data_len := init_sec_data_len r;
     init_sec_buf_read_offset := init_sec_buf_read_offset r; init_loaded := init_loaded r; cur_timestamp :=
     cur_timestamp r; is_restart_needed := is_restart_needed r |}.

Definition set_id_length (v : Z) (r : representation) : representation :=
  {| rep_id := rep_id r; id_length := v; codecs := codecs r; scantype := scantype r; framerate := framerate
     r; width := width r; height := height r; ctx := ctx r; input := input r; assoc_stream := assoc_stream
     r; fragments := fragments r; timelines := timelines r; first_seq_no := first_seq_no r; last_seq_no :=
     last_seq_no r; start_number := start_number r; fragment_duration := fragment_duration r;
     fragment_timescale := fragment_timescale r; presentation_timeoffset := presentation_timeoffset r;
     cur_seq_no := cur_seq_no r; cur_seg_offset := cur_seg_offset r; cur_seg_size := cur_seg_size r; cur_seg
     := cur_seg r; period_media_presentation_duration := period_media_presentation_duration r; period_start
     := period_start r; period_duration := period_duration r; init_section := init_section r; init_sec_buf
     := init_sec_buf r; init_sec_buf_size := init_sec_buf_size r; init_sec_data_len := init_sec_data_len r;
     init_sec_buf_read_offset := init_sec_buf_read_offset r; init_loaded := init_loaded r; cur_timestamp :=
     cur_timestamp r; is_restart_needed := is_restart_needed r |}.

Definition set_codecs (v : option string) (r : representation) : representation :=
  {| rep_id := rep_id r; id_length := id_length r; codecs := v; scantype := scantype r; framerate :=
     framerate r; width := width r; height := height r; ctx := ctx r; input := input r; assoc_stream :=
     assoc_stream r; fragments := fragments r; timelines := timelines r; first_seq_no := first_seq_no r;
     last_seq_no := last_seq_no r; start_number := start_number r; fragment_duration := fragment_duration r;
     fragment_timescale := fragment_timescale r; presentation_timeoffset := presentation_timeoffset r;
     cur_seq_no := cur_seq_no r; cur_seg_offset := cur_seg_offset r; cur_seg_size := cur_seg_size r; cur_seg
     := cur_seg r; period_media_presentation_duration := period_media_presentation_duration r; period_start
     := period_start r; period_duration := period_duration r; init_section := init_section r; init_sec_buf
     := init_sec_buf r; init_sec_buf_size := init_sec_buf_size r; init_sec_data_len := init_sec_data_len r;
     init_sec_buf_read_offset := init_sec_buf_read_offset r; init_loaded := init_loaded r; cur_timestamp :=
     cur_timestamp r; is_restart_needed := is_restart_needed r |}.

Definition set_scantype (v : option string) (r : representation) : representation :=
  {| rep_id := rep_id r; id_length := id_length r; codecs := codecs r; scantype := v; framerate := framerate
     r; width := width r; height := height r; ctx := ctx r; input := input r; assoc_stream := assoc_stream
     r; fragments := fragments r; timelines := timelines r; first_seq_no := first_seq_no r; last_seq_no :=
     last_seq_no r; start_number := start_number r; fragment_duration := fragment_duration r;
     fragment_timescale := fragment_timescale r; presentation_timeoffset := presentation_timeoffset r;
     cur_seq_no := cur_seq_no r; cur_seg_offset := cur_seg_offset r; cur_seg_size := cur_seg_size r; cur_seg
     := cur_seg r; period_media_presentation_duration := period_media_presentation_duration r; period_start
     := period_start r; period_duration := period_duration r; init_section := init_section r; init_sec_buf
     := init_sec_buf r; init_sec_buf_size := init_sec_buf_size r; init_sec_data_len := init_sec_data_len r;
     init_sec_buf_read_offset := init_sec_buf_read_offset r; init_loaded := init_loaded r; cur_timestamp :=
     cur_timestamp r; is_restart_needed := is_restart_needed r |}.

Definition set_framerate (v : Z * Z) (r : representation) : representation :=
  {| rep_id := rep_id r; id_length := id_length r; codecs := codecs r; scantype := scantype r; framerate :=
     v; width := width r; height := height r; ctx := ctx r; input := input r; assoc_stream := assoc_stream
     r; fragments := fragments r; timelines := timelines r; first_seq_no := first_seq_no r; last_seq_no :=
     last_seq_no r; start_number := start_number r; fragment_duration := fragment_duration r;
     fragment_timescale := fragment_timescale r; presentation_timeoffset := presentation_timeoffset r;
     cur_seq_no := cur_seq_no r; cur_seg_offset := cur_seg_offset r; cur_seg_size := cur_seg_size r; cur_seg
     := cur_seg r; period_media_presentation_duration := period_media_presentation_duration r; period_start
     := period_start r; period_duration := period_duration r; init_section := init_section r; init_sec_buf
     := init_sec_buf r; init_sec_buf_size := init_sec_buf_size r; init_sec_data_len := init_sec_data_len r;
     init_sec_buf_read_offset := init_sec_buf_read_offset r; init_loaded := init_loaded r; cur_timestamp :=
     cur_timestamp r; is_restart_needed := is_restart_needed r |}.

Definition set_width (v : Z) (r : representation) : representation :=
  {| rep_id := rep_id r; id_length := id_length r; codecs := codecs r; scantype := scantype r; framerate :=
     framerate r; width := v; height := height r; ctx := ctx r; input := input r; assoc_stream :=
     assoc_stream r; fragments := fragments r; timelines := timelines r; first_seq_no := first_seq_no r;
     last_seq_no := last_seq_no r; start_number := start_number r; fragment_duration := fragment_duration r;
     fragment_timescale := fragment_timescale r; presentation_timeoffset := presentation_timeoffset r;
     cur_seq_no := cur_seq_no r; cur_seg_offset := cur_seg_offset r; cur_seg_size := cur_seg_size r; cur_seg
     := cur_seg r; period_media_presentation_duration := period_media_presentation_duration r; period_start
     := period_start r; period_duration := period_duration r; init_section := init_section r; init_sec_buf
     := init_sec_buf r; init_sec_buf_size := init_sec_buf_size r; init_sec_data_len := init_sec_data_len r;
     init_sec_buf_read_offset := init_sec_buf_read_offset r; init_loaded := init_loaded r; cur_timestamp :=
     cur_timestamp r; is_restart_needed := is_restart_needed r |}.

Definition set_height (v : Z) (r : representation) : representation :=
  {| rep_id := rep_id r; id_length := id_length r; codecs := codecs r; scantype := scantype r; framerate :=
     framerate r; width := width r; height := v; ctx := ctx r; input := input r; assoc_stream :=
     assoc_stream r; fragments := fragments r; timelines := timelines r; first_seq_no := first_seq_no r;
     last_seq_no := last_seq_no r; start_number := start_number r; fragment_duration := fragment_duration r;
     fragment_timescale := fragment_timescale r; presentation_timeoffset := presentation_timeoffset r;
     cur_seq_no := cur_seq_no r; cur_seg_offset := cur_seg_offset r; cur_seg_size := cur_seg_size r; cur_seg
     := cur_seg r; period_media_presentation_duration := period_media_presentation_duration r; period_start
     := period_start r; period_duration := period_duration r; init_section := init_section r; init_sec_buf
     := init_sec_buf r; init_sec_buf_size := init_sec_buf_size r; init_sec_data_len := init_sec_data_len r;
     init_sec_buf_read_offset := init_sec_buf_read_offset r; init_loaded := init_loaded r; cur_timestamp :=
     cur_timestamp r; is_restart_needed := is_restart_needed r |}.

Definition set_ctx (v : bool) (r : representation) : representation :=
  {| rep_id := rep_id r; id_length := id_length r; codecs := codecs r; scantype := scantype r; framerate :=
     framerate r; width := width r; height := height r; ctx := v; input := input r; assoc_stream :=
     assoc_stream r; fragments := fragments r; timelines := timelines r; first_seq_no := first_seq_no r;
     last_seq_no := last_seq_no r; start_number := start_number r; fragment_duration := fragment_duration r;
     fragment_timescale := fragment_timescale r; presentation_timeoffset := presentation_timeoffset r;
     cur_seq_no := cur_seq_no r; cur_seg_offset := cur_seg_offset r; cur_seg_size := cur_seg_size r; cur_seg
     := cur_seg r; period_media_presentation_duration := period_media_presentation_duration r; period_start
     := period_start r; period_duration := period_duration r; init_section := init_section r; init_sec_buf
     := init_sec_buf r; init_sec_buf_size := init_sec_buf_size r; init_sec_data_len := init_sec_data_len r;
     init_sec_buf_read_offset := init_sec_buf_read_offset r; init_loaded := init_loaded r; cur_timestamp :=
     cur_timestamp r; is_restart_needed := is_restart_needed r |}.

Definition set_input (v : bool) (r : representation) : representation :=
  {| rep_id := rep_id r; id_length := id_length r; codecs := codecs r; scantype := scantype r; framerate :=
     framerate r; width := width r; height := height r; ctx := ctx r; input := v; assoc_stream :=
     assoc_stream r; fragments := fragments r; timelines := timelines r; first_seq_no := first_seq_no r;
     last_seq_no := last_seq_no r; start_number := start_number r; fragment_duration := fragment_duration r;
     fragment_timescale := fragment_timescale r; presentation_timeoffset := presentation_timeoffset r;
     cur_seq_no := cur_seq_no r; cur_seg_offset := cur_seg_offset r; cur_seg_size := cur_seg_size r; cur_seg
     := cur_seg r; period_media_presentation_duration := period_media_presentation_duration r; period_start
     := period_start r; period_duration := period_duration r; init_section := init_section r; init_sec_buf
     := init_sec_buf r; init_sec_buf_size := init_sec_buf_size r; init_sec_data_len := init_sec_data_len r;
     init_sec_buf_read_offset := init_sec_buf_read_offset r; init_loaded := init_loaded r; cur_timestamp :=
     cur_timestamp r; is_restart_needed := is_restart_needed r |}.

Definition set_assoc_stream (v : option Z) (r : representation) : representation :=
  {| rep_id := rep_id r; id_length := id_length r; codecs := codecs r; scantype := scantype r; framerate :=
     framerate r; width := width r; height := height r; ctx := ctx r; input := input r; assoc_stream := v;
     fragments := fragments r; timelines := timelines r; first_seq_no := first_seq_no r; last_seq_no :=
     last_seq_no r; start_number := start_number r; fragment_duration := fragment_duration r;
     fragment_timescale := fragment_timescale r; presentation_timeoffset := presentation_timeoffset r;
     cur_seq_no := cur_seq_no r; cur_seg_offset := cur_seg_offset r; cur_seg_size := cur_seg_size r; cur_seg
     := cur_seg r; period_media_presentation_duration := period_media_presentation_duration r; period_start
     := period_start r; period_duration := period_duration r; init_section := init_section r; init_sec_buf
     := init_sec_buf r; init_sec_buf_size := init_sec_buf_size r; init_sec_data_len := init_sec_data_len r;
     init_sec_buf_read_offset := init_sec_buf_read_offset r; init_loaded := init_loaded r; cur_timestamp :=
     cur_timestamp r; is_restart_needed := is_restart_needed r |}.

Definition set_fragments (v : list fragment) (r : representation) : representation :=
  {| rep_id := rep_id r; id_length := id_length r; codecs := codecs r; scantype := scantype r; framerate :=
     framerate r; width := width r; height := height r; ctx := ctx r; input := input r; assoc_stream :=
     assoc_stream r; fragments := v; timelines := timelines r; first_seq_no := first_seq_no r; last_seq_no
     := last_seq_no r; start_number := start_number r; fragment_duration := fragment_duration r;
     fragment_timescale := fragment_timescale r; presentation_timeoffset := presentation_timeoffset r;
     cur_seq_no := cur_seq_no r; cur_seg_offset := cur_seg_offset r; cur_seg_size := cur_seg_size r; cur_seg
     := cur_seg r; period_media_presentation_duration := period_media_presentation_duration r; period_start
     := period_start r; period_duration := period_duration r; init_section := init_section r; init_sec_buf
     := init_sec_buf r; init_sec_buf_size := init_sec_buf_size r; init_sec_data_len := init_sec_data_len r;
     init_sec_buf_read_offset := init_sec_buf_read_offset r; init_loaded := init_loaded r; cur_timestamp :=
     cur_timestamp r; is_restart_needed := is_restart_needed r |}.

Definition set_timelines (v : list timeline) (r : representation) : representation :=
  {| rep_id := rep_id r; id_length := id_length r; codecs := codecs r; scantype := scantype r; framerate :=
     framerate r; width := width r; height := height r; ctx := ctx r; input := input r; assoc_stream :=
     assoc_stream r; fragments := fragments r; timelines := v; first_seq_no := first_seq_no r; last_seq_no
     := last_seq_no r; start_number := start_number r; fragment_duration := fragment_duration r;
     fragment_timescale := fragment_timescale r; presentation_timeoffset := presentation_timeoffset r;
     cur_seq_no := cur_seq_no r; cur_seg_offset := cur_seg_offset r; cur_seg_size := cur_seg_size r; cur_seg
     := cur_seg r; period_media_presentation_duration := period_media_presentation_duration r; period_start
     := period_start r; period_duration := period_duration r; init_section := init_section r; init_sec_buf
     := init_sec_buf r; init_sec_buf_size := init_sec_buf_size r; init_sec_data_len := init_sec_data_len r;
     init_sec_buf_read_offset := init_sec_buf_read_offset r; init_loaded := init_loaded r; cur_timestamp :=
     cur_timestamp r; is_restart_needed := is_restart_needed r |}.

Definition set_first_seq_no (v : Z) (r : representation) : representation :=
  {| rep_id := rep_id r; id_length := id_length r; codecs := codecs r; scantype := scantype r; framerate :=
     framerate r; width := width r; height := height r; ctx := ctx r; input := input r; assoc_stream :=
     assoc_stream r; fragments := fragments r; timelines := timelines r; first_seq_no := v; last_seq_no :=
     last_seq_no r; start_number := start_number r; fragment_duration := fragment_duration r;
     fragment_timescale := fragment_timescale r; presentation_timeoffset := presentation_timeoffset r;
     cur_seq_no := cur_seq_no r; cur_seg_offset := cur_seg_offset r; cur_seg_size := cur_seg_size r; cur_seg
     := cur_seg r; period_media_presentation_duration := period_media_presentation_duration r; period_start
     := period_start r; period_duration := period_duration r; init_section := init_section r; init_sec_buf
     := init_sec_buf r; init_sec_buf_size := init_sec_buf_size r; init_sec_data_len := init_sec_data_len r;
     init_sec_buf_read_offset := init_sec_buf_read_offset r; init_loaded := init_loaded r; cur_timestamp :=
     cur_timestamp r; is_restart_needed := is_restart_needed r |}.

Definition set_last_seq_no (v : Z) (r : representation) : representation :=
  {| rep_id := rep_id r; id_length := id_length r; codecs := codecs r; scantype := scantype r; framerate :=
     framerate r; width := width r; height := height r; ctx := ctx r; input := input r; assoc_stream :=
     assoc_stream r; fragments := fragments r; timelines := timelines r; first_seq_no := first_seq_no r;
     last_seq_no := v; start_number := start_number r; fragment_duration := fragment_duration r;
     fragment_timescale := fragment_timescale r; presentation_timeoffset := presentation_timeoffset r;
     cur_seq_no := cur_seq_no r; cur_seg_offset := cur_seg_offset r; cur_seg_size := cur_seg_size r; cur_seg
     := cur_seg r; period_media_presentation_duration := period_media_presentation_duration r; period_start
     := period_start r; period_duration := period_duration r; init_section := init_section r; init_sec_buf
     := init_sec_buf r; init_sec_buf_size := init_sec_buf_size r; init_sec_data_len := init_sec_data_len r;
     init_sec_buf_read_offset := init_sec_buf_read_offset r; init_loaded := init_loaded r; cur_timestamp :=
     cur_timestamp r; is_restart_needed := is_restart_needed r |}.

Definition set_start_number (v : Z) (r : representation) : representation :=
  {| rep_id := rep_id r; id_length := id_length r; codecs := codecs r; scantype := scantype r; framerate :=
     framerate r; width := width r; height := height r; ctx := ctx r; input := input r; assoc_stream :=
     assoc_stream r; fragments := fragments r; timelines := timelines r; first_seq_no := first_seq_no r;
     last_seq_no := last_seq_no r; start_number := v; fragment_duration := fragment_duration r;
     fragment_timescale := fragment_timescale r; presentation_timeoffset := presentation_timeoffset r;
     cur_seq_no := cur_seq_no r; cur_seg_offset := cur_seg_offset r; cur_seg_size := cur_seg_size r; cur_seg
     := cur_seg r; period_media_presentation_duration := period_media_presentation_duration r; period_start
     := period_start r; period_duration := period_duration r; init_section := init_section r; init_sec_buf
     := init_sec_buf r; init_sec_buf_size := init_sec_buf_size r; init_sec_data_len := init_sec_data_len r;
     init_sec_buf_read_offset := init_sec_buf_read_offset r; init_loaded := init_loaded r; cur_timestamp :=
     cur_timestamp r; is_restart_needed := is_restart_needed r |}.

Definition set_fragment_duration (v : Z) (r : representation) : representation :=
  {| rep_id := rep_id r; id_length := id_length r; codecs := codecs r; scantype := scantype r; framerate :=
     framerate r; width := width r; height := height r; ctx := ctx r; input := input r; assoc_stream :=
     assoc_stream r; fragments := fragments r; timelines := timelines r; first_seq_no := first_seq_no r;
     last_seq_no := last_seq_no r; start_number := start_number r; fragment_duration := v;
     fragment_timescale := fragment_timescale r; presentation_timeoffset := presentation_timeoffset r;
     cur_seq_no := cur_seq_no r; cur_seg_offset := cur_seg_offset r; cur_seg_size := cur_seg_size r; cur_seg
     := cur_seg r; period_media_presentation_duration := period_media_presentation_duration r; period_start
     := period_start r; period_duration := period_duration r; init_section := init_section r; init_sec_buf
     := init_sec_buf r; init_sec_buf_size := init_sec_buf_size r; init_sec_data_len := init_sec_data_len r;
     init_sec_buf_read_offset := init_sec_buf_read_offset r; init_loaded := init_loaded r; cur_timestamp :=
     cur_timestamp r; is_restart_needed := is_restart_needed r |}.

Definition set_fragment_timescale (v : Z) (r : representation) : representation :=
  {| rep_id := rep_id r; id_length := id_length r; codecs := codecs r; scantype := scantype r; framerate :=
     framerate r; width := width r; height := height r; ctx := ctx r; input := input r; assoc_stream :=
     assoc_stream r; fragments := fragments r; timelines := timelines r; first_seq_no := first_seq_no r;
     last_seq_no := last_seq_no r; start_number := start_number r; fragment_duration := fragment_duration r;
     fragment_timescale := v; presentation_timeoffset := presentation_timeoffset r; cur_seq_no := cur_seq_no
     r; cur_seg_offset := cur_seg_offset r; cur_seg_size := cur_seg_size r; cur_seg := cur_seg r;
     period_media_presentation_duration := period_media_presentation_duration r; period_start :=
     period_start r; period_duration := period_duration r; init_section := init_section r; init_sec_buf :=
     init_sec_buf r; init_sec_buf_size := init_sec_buf_size r; init_sec_data_len := init_sec_data_len r;
     init_sec_buf_read_offset := init_sec_buf_read_offset r; init_loaded := init_loaded r; cur_timestamp :=
     cur_timestamp r; is_restart_needed := is_restart_needed r |}.

Definition set_presentation_timeoffset (v : Z) (r : representation) : representation :=
  {| rep_id := rep_id r; id_length := id_length r; codecs := codecs r; scantype := scantype r; framerate :=
     framerate r; width := width r; height := height r; ctx := ctx r; input := input r; assoc_stream :=
     assoc_stream r; fragments := fragments r; timelines := timelines r; first_seq_no := first_seq_no r;
     last_seq_no := last_seq_no r; start_number := start_number r; fragment_duration := fragment_duration r;
     fragment_timescale := fragment_timescale r; presentation_timeoffset := v; cur_seq_no := cur_seq_no r;
     cur_seg_offset := cur_seg_offset r; cur_seg_size := cur_seg_size r; cur_seg := cur_seg r;
     period_media_presentation_duration := period_media_presentation_duration r; period_start :=
     period_start r; period_duration := period_duration r; init_section := init_section r; init_sec_buf :=
     init_sec_buf r; init_sec_buf_size := init_sec_buf_size r; init_sec_data_len := init_sec_data_len r;
     init_sec_buf_read_offset := init_sec_buf_read_offset r; init_loaded := init_loaded r; cur_timestamp :=
     cur_timestamp r; is_restart_needed := is_restart_needed r |}.

Definition set_cur_seq_no (v : Z) (r : representation) : representation :=
  {| rep_id := rep_id r; id_length := id_length r; codecs := codecs r; scantype := scantype r; framerate :=
     framerate r; width := width r; height := height r; ctx := ctx r; input := input r; assoc_stream :=
     assoc_stream r; fragments := fragments r; timelines := timelines r; first_seq_no := first_seq_no r;
     last_seq_no := last_seq_no r; start_number := start_number r; fragment_duration := fragment_duration r;
     fragment_timescale := fragment_timescale r; presentation_timeoffset := presentation_timeoffset r;
     cur_seq_no := v; cur_seg_offset := cur_seg_offset r; cur_seg_size := cur_seg_size r; cur_seg := cur_seg
     r; period_media_presentation_duration := period_media_presentation_duration r; period_start :=
     period_start r; period_duration := period_duration r; init_section := init_section r; init_sec_buf :=
     init_sec_buf r; init_sec_buf_size := init_sec_buf_size r; init_sec_data_len := init_sec_data_len r;
     init_sec_buf_read_offset := init_sec_buf_read_offset r; init_loaded := init_loaded r; cur_timestamp :=
     cur_timestamp r; is_restart_needed := is_restart_needed r |}.

Definition set_cur_seg_offset (v : Z) (r : representation) : representation :=
  {| rep_id := rep_id r; id_length := id_length r; codecs := codecs r; scantype := scantype r; framerate :=
     framerate r; width := width r; height := height r; ctx := ctx r; input := input r; assoc_stream :=
     assoc_stream r; fragments := fragments r; timelines := timelines r; first_seq_no := first_seq_no r;
     last_seq_no := last_seq_no r; start_number := start_number r; fragment_duration := fragment_duration r;
     fragment_timescale := fragment_timescale r; presentation_timeoffset := presentation_timeoffset r;
     cur_seq_no := cur_seq_no r; cur_seg_offset := v; cur_seg_size := cur_seg_size r; cur_seg := cur_seg r;
     period_media_presentation_duration := period_media_presentation_duration r; period_start :=
     period_start r; period_duration := period_duration r; init_section := init_section r; init_sec_buf :=
     init_sec_buf r; init_sec_buf_size := init_sec_buf_size r; init_sec_data_len := init_sec_data_len r;
     init_sec_buf_read_offset := init_sec_buf_read_offset r; init_loaded := init_loaded r; cur_timestamp :=
     cur_timestamp r; is_restart_needed := is_restart_needed r |}.

Definition set_cur_seg_size (v : Z) (r : representation) : representation :=
  {| rep_id := rep_id r; id_length := id_length r; codecs := codecs r; scantype := scantype r; framerate :=
     framerate r; width := width r; height := height r; ctx := ctx r; input := input r; assoc_stream :=
     assoc_stream r; fragments := fragments r; timelines := timelines r; first_seq_no := first_seq_no r;
     last_seq_no := last_seq_no r; start_number := start_number r; fragment_duration := fragment_duration r;
     fragment_timescale := fragment_timescale r; presentation_timeoffset := presentation_timeoffset r;
     cur_seq_no := cur_seq_no r; cur_seg_offset := cur_seg_offset r; cur_seg_size := v; cur_seg := cur_seg
     r; period_media_presentation_duration := period_media_presentation_duration r; period_start :=
     period_start r; period_duration := period_duration r; init_section := init_section r; init_sec_buf :=
     init_sec_buf r; init_sec_buf_size := init_sec_buf_size r; init_sec_data_len := init_sec_data_len r;
     init_sec_buf_read_offset := init_sec_buf_read_offset r; init_loaded := init_loaded r; cur_timestamp :=
     cur_timestamp r; is_restart_needed := is_restart_needed r |}.

Definition set_cur_seg (v : option fragment) (r : representation) : representation :=
  {| rep_id := rep_id r; id_length := id_length r; codecs := codecs r; scantype := scantype r; framerate :=
     framerate r; width := width r; height := height r; ctx := ctx r; input := input r; assoc_stream :=
     assoc_stream r; fragments := fragments r; timelines := timelines r; first_seq_no := first_seq_no r;
     last_seq_no := last_seq_no r; start_number := start_number r; fragment_duration := fragment_duration r;
     fragment_timescale := fragment_timescale r; presentation_timeoffset := presentation_timeoffset r;
     cur_seq_no := cur_seq_no r; cur_seg_offset := cur_seg_offset r; cur_seg_size := cur_seg_size r; cur_seg
     := v; period_media_presentation_duration := period_media_presentation_duration r; period_start :=
     period_start r; period_duration := period_duration r; init_section := init_section r; init_sec_buf :=
     init_sec_buf r; init_sec_buf_size := init_sec_buf_size r; init_sec_data_len := init_sec_data_len r;
     init_sec_buf_read_offset := init_sec_buf_read_offset r; init_loaded := init_loaded r; cur_timestamp :=
     cur_timestamp r; is_restart_needed := is_restart_needed r |}.

Definition set_period_media_presentation_duration (v : Z) (r : representation) : representation :=
  {| rep_id := rep_id r; id_length := id_length r; codecs := codecs r; scantype := scantype r; framerate :=
     framerate r; width := width r; height := height r; ctx := ctx r; input := input r; assoc_stream :=
     assoc_stream r; fragments := fragments r; timelines := timelines r; first_seq_no := first_seq_no r;
     last_seq_no := last_seq_no r; start_number := start_number r; fragment_duration := fragment_duration r;
     fragment_timescale := fragment_timescale r; presentation_timeoffset := presentation_timeoffset r;
     cur_seq_no := cur_seq_no r; cur_seg_offset := cur_seg_offset r; cur_seg_size := cur_seg_size r; cur_seg
     := cur_seg r; period_media_presentation_duration := v; period_start := period_start r; period_duration
     := period_duration r; init_section := init_section r; init_sec_buf := init_sec_buf r; init_sec_buf_size
     := init_sec_buf_size r; init_sec_data_len := init_sec_data_len r; init_sec_buf_read_offset :=
     init_sec_buf_read_offset r; init_loaded := init_loaded r; cur_timestamp := cur_timestamp r;
     is_restart_needed := is_restart_needed r |}.

Definition set_period_start (v : Z) (r : representation) : representation :=
  {| rep_id := rep_id r; id_length := id_length r; codecs := codecs r; scantype := scantype r; framerate :=
     framerate r; width := width r; height := height r; ctx := ctx r; input := input r; assoc_stream :=
     assoc_stream r; fragments := fragments r; timelines := timelines r; first_seq_no := first_seq_no r;
     last_seq_no := last_seq_no r; start_number := start_number r; fragment_duration := fragment_duration r;
     fragment_timescale := fragment_timescale r; presentation_timeoffset := presentation_timeoffset r;
     cur_seq_no := cur_seq_no r; cur_seg_offset := cur_seg_offset r; cur_seg_size := cur_seg_size r; cur_seg
     := cur_seg r; period_media_presentation_duration := period_media_presentation_duration r; period_start
     := v; period_duration := period_duration r; init_section := init_section r; init_sec_buf :=
     init_sec_buf r; init_sec_buf_size := init_sec_buf_size r; init_sec_data_len := init_sec_data_len r;
     init_sec_buf_read_offset := init_sec_buf_read_offset r; init_loaded := init_loaded r; cur_timestamp :=
     cur_timestamp r; is_restart_needed := is_restart_needed r |}.

Definition set_period_duration (v : Z) (r : representation) : representation :=
  {| rep_id := rep_id r; id_length := id_length r; codecs := codecs r; scantype := scantype r; framerate :=
     framerate r; width := width r; height := height r; ctx := ctx r; input := input r; assoc_stream :=
     assoc_stream r; fragments := fragments r; timelines := timelines r; first_seq_no := first_seq_no r;
     last_seq_no := last_seq_no r; start_number := start_number r; fragment_duration := fragment_duration r;
     fragment_timescale := fragment_timescale r; presentation_timeoffset := presentation_timeoffset r;
     cur_seq_no := cur_seq_no r; cur_seg_offset := cur_seg_offset r; cur_seg_size := cur_seg_size r; cur_seg
     := cur_seg r; period_media_presentation_duration := period_media_presentation_duration r; period_start
     := period_start r; period_duration := v; init_section := init_section r; init_sec_buf := init_sec_buf
     r; init_sec_buf_size := init_sec_buf_size r; init_sec_data_len := init_sec_data_len r;
     init_sec_buf_read_offset := init_sec_buf_read_offset r; init_loaded := init_loaded r; cur_timestamp :=
     cur_timestamp r; is_restart_needed := is_restart_needed r |}.

Definition set_init_section (v : option fragment) (r : representation) : representation :=
  {| rep_id := rep_id r; id_length := id_length r; codecs := codecs r; scantype := scantype r; framerate :=
     framerate r; width := width r; height := height r; ctx := ctx r; input := input r; assoc_stream :=
     assoc_stream r; fragments := fragments r; timelines := timelines r; first_seq_no := first_seq_no r;
     last_seq_no := last_seq_no r; start_number := start_number r; fragment_duration := fragment_duration r;
     fragment_timescale := fragment_timescale r; presentation_timeoffset := presentation_timeoffset r;
     cur_seq_no := cur_seq_no r; cur_seg_offset := cur_seg_offset r; cur_seg_size := cur_seg_size r; cur_seg
     := cur_seg r; period_media_presentation_duration := period_media_presentation_duration r; period_start
     := period_start r; period_duration := period_duration r; init_section := v; init_sec_buf :=
     init_sec_buf r; init_sec_buf_size := init_sec_buf_size r; init_sec_data_len := init_sec_data_len r;
     init_sec_buf_read_offset := init_sec_buf_read_offset r; init_loaded := init_loaded r; cur_timestamp :=
     cur_timestamp r; is_restart_needed := is_restart_needed r |}.

Definition set_init_sec_buf (v : list Z) (r : representation) : representation :=
  {| rep_id := rep_id r; id_length := id_length r; codecs := codecs r; scantype := scantype r; framerate :=
     framerate r; width := width r; height := height r; ctx := ctx r; input := input r; assoc_stream :=
     assoc_stream r; fragments := fragments r; timelines := timelines r; first_seq_no := first_seq_no r;
     last_seq_no := last_seq_no r; start_number := start_number r; fragment_duration := fragment_duration r;
     fragment_timescale := fragment_timescale r; presentation_timeoffset := presentation_timeoffset r;
     cur_seq_no := cur_seq_no r; cur_seg_offset := cur_seg_offset r; cur_seg_size := cur_seg_size r; cur_seg
     := cur_seg r; period_media_presentation_duration := period_media_presentation_duration r; period_start
     := period_start r; period_duration := period_duration r; init_section := init_section r; init_sec_buf
     := v; init_sec_buf_size := init_sec_buf_size r; init_sec_data_len := init_sec_data_len r;
     init_sec_buf_read_offset := init_sec_buf_read_offset r; init_loaded := init_loaded r; cur_timestamp :=
     cur_timestamp r; is_restart_needed := is_restart_needed r |}.

Definition set_init_sec_buf_size (v : Z) (r : representation) : representation :=
  {| rep_id := rep_id r; id_length := id_length r; codecs := codecs r; scantype := scantype r; framerate :=
     framerate r; width := width r; height := height r; ctx := ctx r; input := input r; assoc_stream :=
     assoc_stream r; fragments := fragments r; timelines := timelines r; first_seq_no := first_seq_no r;
     last_seq_no := last_seq_no r; start_number := start_number r; fragment_duration := fragment_duration r;
     fragment_timescale := fragment_timescale r; presentation_timeoffset := presentation_timeoffset r;
     cur_seq_no := cur_seq_no r; cur_seg_offset := cur_seg_offset r; cur_seg_size := cur_seg_size r; cur_seg
     := cur_seg r; period_media_presentation_duration := period_media_presentation_duration r; period_start
     := period_start r; period_duration := period_duration r; init_section := init_section r; init_sec_buf
     := init_sec_buf r; init_sec_buf_size := v; init_sec_data_len := init_sec_data_len r;
     init_sec_buf_read_offset := init_sec_buf_read_offset r; init_loaded := init_loaded r; cur_timestamp :=
     cur_timestamp r; is_restart_needed := is_restart_needed r |}.

Definition set_init_sec_data_len (v : Z) (r : representation) : representation :=
  {| rep_id := rep_id r; id_length := id_length r; codecs := codecs r; scantype := scantype r; framerate :=
     framerate r; width := width r; height := height r; ctx := ctx r; input := input r; assoc_stream :=
     assoc_stream r; fragments := fragments r; timelines := timelines r; first_seq_no := first_seq_no r;
     last_seq_no := last_seq_no r; start_number := start_number r; fragment_duration := fragment_duration r;
     fragment_timescale := fragment_timescale r; presentation_timeoffset := presentation_timeoffset r;
     cur_seq_no := cur_seq_no r; cur_seg_offset := cur_seg_offset r; cur_seg_size := cur_seg_size r; cur_seg
     := cur_seg r; period_media_presentation_duration := period_media_presentation_duration r; period_start
     := period_start r; period_duration := period_duration r; init_section := init_section r; init_sec_buf
     := init_sec_buf r; init_sec_buf_size := init_sec_buf_size r; init_sec_data_len := v;
     init_sec_buf_read_offset := init_sec_buf_read_offset r; init_loaded := init_loaded r; cur_timestamp :=
     cur_timestamp r; is_restart_needed := is_restart_needed r |}.

Definition set_init_sec_buf_read_offset (v : Z) (r : representation) : representation :=
  {| rep_id := rep_id r; id_length := id_length r; codecs := codecs r; scantype := scantype r; framerate :=
     framerate r; width := width r; height := height r; ctx := ctx r; input := input r; assoc_stream :=
     assoc_stream r; fragments := fragments r; timelines := timelines r; first_seq_no := first_seq_no r;
     last_seq_no := last_seq_no r; start_number := start_number r; fragment_duration := fragment_duration r;
     fragment_timescale := fragment_timescale r; presentation_timeoffset := presentation_timeoffset r;
     cur_seq_no := cur_seq_no r; cur_seg_offset := cur_seg_offset r; cur_seg_size := cur_seg_size r; cur_seg
     := cur_seg r; period_media_presentation_duration := period_media_presentation_duration r; period_start
     := period_start r; period_duration := period_duration r; init_section := init_section r; init_sec_buf
     := init_sec_buf r; init_sec_buf_size := init_sec_buf_size r; init_sec_data_len := init_sec_data_len r;
     init_sec_buf_read_offset := v; init_loaded := init_loaded r; cur_timestamp := cur_timestamp r;
     is_restart_needed := is_restart_needed r |}.

Definition set_init_loaded (v : bool) (r : representation) : representation :=
  {| rep_id := rep_id r; id_length := id_length r; codecs := codecs r; scantype := scantype r; framerate :=
     framerate r; width := width r; height := height r; ctx := ctx r; input := input r; assoc_stream :=
     assoc_stream r; fragments := fragments r; timelines := timelines r; first_seq_no := first_seq_no r;
     last_seq_no := last_seq_no r; start_number := start_number r; fragment_duration := fragment_duration r;
     fragment_timescale := fragment_timescale r; presentation_timeoffset := presentation_timeoffset r;
     cur_seq_no := cur_seq_no r; cur_seg_offset := cur_seg_offset r; cur_seg_size := cur_seg_size r; cur_seg
     := cur_seg r; period_media_presentation_duration := period_media_presentation_duration r; period_start
     := period_start r; period_duration := period_duration r; init_section := init_section r; init_sec_buf
     := init_sec_buf r; init_sec_buf_size := init_sec_buf_size r; init_sec_data_len := init_sec_data_len r;
     init_sec_buf_read_offset := init_sec_buf_read_offset r; init_loaded := v; cur_timestamp :=
     cur_timestamp r; is_restart_needed := is_restart_needed r |}.

Definition set_cur_timestamp (v : Z) (r : representation) : representation :=
  {| rep_id := rep_id r; id_length := id_length r; codecs := codecs r; scantype := scantype r; framerate :=
     framerate r; width := width r; height := height r; ctx := ctx r; input := input r; assoc_stream :=
     assoc_stream r; fragments := fragments r; timelines := timelines r; first_seq_no := first_seq_no r;
     last_seq_no := last_seq_no r; start_number := start_number r; fragment_duration := fragment_duration r;
     fragment_timescale := fragment_timescale r; presentation_timeoffset := presentation_timeoffset r;
     cur_seq_no := cur_seq_no r; cur_seg_offset := cur_seg_offset r; cur_seg_size := cur_seg_size r; cur_seg
     := cur_seg r; period_media_presentation_duration := period_media_presentation_duration r; period_start
     := period_start r; period_duration := period_duration r; init_section := init_section r; init_sec_buf
     := init_sec_buf r; init_sec_buf_size := init_sec_buf_size r; init_sec_data_len := init_sec_data_len r;
     init_sec_buf_read_offset := init_sec_buf_read_offset r; init_loaded := init_loaded r; cur_timestamp :=
     v; is_restart_needed := is_restart_needed r |}.

Definition set_is_restart_needed (v : bool) (r : representation) : representation :=
  {| rep_id := rep_id r; id_length := id_length r; codecs := codecs r; scantype := scantype r; framerate :=
     framerate r; width := width r; height := height r; ctx := ctx r; input := input r; assoc_stream :=
     assoc_stream r; fragments := fragments r; timelines := timelines r; first_seq_no := first_seq_no r;
     last_seq_no := last_seq_no r; start_number := start_number r; fragment_duration := fragment_duration r;
     fragment_timescale := fragment_timescale r; presentation_timeoffset := presentation_timeoffset r;
     cur_seq_no := cur_seq_no r; cur_seg_offset := cur_seg_offset r; cur_seg_size := cur_seg_size r; cur_seg
     := cur_seg r; period_media_presentation_duration := period_media_presentation_duration r; period_start
     := period_start r; period_duration := period_duration r; init_section := init_section r; init_sec_buf
     := init_sec_buf r; init_sec_buf_size := init_sec_buf_size r; init_sec_data_len := init_sec_data_len r;
     init_sec_buf_read_offset := init_sec_buf_read_offset r; init_loaded := init_loaded r; cur_timestamp :=
     cur_timestamp r; is_restart_needed := v |}.

(** The store of representations: [struct representation *] is an address
    in it, so the old and the refreshed lists can share or lose objects
    exactly as the C pointers do. *)
Abbreviation store := (gmap rep_ptr representation).

Definition n_fragments (pls : representation) : Z := Z.of_nat (length (fragments pls)).
Definition n_timelines (pls : representation) : Z := Z.of_nat (length (timelines pls)).

(** ** Sequencer: timeline walks *)

(** How a loop iteration is left: through [goto finish], or by falling out
    of the inner [for] with the running [start_time] and [num]. *)
Inductive loop_exit :=
| Goto_finish (start_time num : Z)
| Fallthrough (start_time num : Z).

(** The inner loop [for (j = 0; j < repeat; j++)] of
    get_segment_start_time_based_on_timeline, [n] iterations left. *)
Fixpoint get_segment_start_time_repeat (n : nat) (d cur_seq_no start_time num : Z) : loop_exit :=
  match n with
  | O => Fallthrough start_time num
  | S n' =>
      let num := add64 num 1 in
      if num =? cur_seq_no then Goto_finish start_time num
      else get_segment_start_time_repeat n' d cur_seq_no (add64 start_time d) num
  end.

(** The outer loop over [pls->timelines], from the entry at the head. *)
Fixpoint get_segment_start_time_walk (tls : list timeline) (cur_seq_no start_time num : Z) : Z :=
  match tls with
  | [] => start_time
  | t :: tls' =>
      let start_time := if 0 <? tl_starttime t then tl_starttime t else start_time in
      if num =? cur_seq_no then start_time
      else
        let start_time := add64 start_time (tl_duration t) in
        if tl_repeat t =? -1 then mul64 (tl_duration t) cur_seq_no
        else
          match get_segment_start_time_repeat (Z.to_nat (tl_repeat t)) (tl_duration t)
                  cur_seq_no start_time num with
          | Goto_finish st _ => st
          | Fallthrough st num => get_segment_start_time_walk tls' cur_seq_no st (add64 num 1)
          end
  end.

Definition get_segment_start_time_based_on_timeline
    (c : DASHContext) (pls : representation) (cur_seq_no : Z) : Z :=
  if n_timelines pls =? 0 then 0
  else
    let cur_seq_no :=
      if c_use_timeline_segment_offset_correction c && (first_seq_no pls <=? cur_seq_no)
      then sub64 cur_seq_no (first_seq_no pls) else cur_seq_no in
    get_segment_start_time_walk (timelines pls) cur_seq_no 0 0.

(** The inner loop of calc_next_seg_no_from_timelines. *)
Fixpoint calc_next_seg_no_repeat (n : nat) (d cur_time start_time num : Z) : loop_exit :=
  match n with
  | O => Fallthrough start_time num
  | S n' =>
      let num := add64 num 1 in
      if cur_time <? start_time then Goto_finish start_time num
      else calc_next_seg_no_repeat n' d cur_time (add64 start_time d) num
  end.

(** The outer loop: [Some num] when it leaves through [finish], [None] when
    it runs to the end (the C function then returns -1). *)
Fixpoint calc_next_seg_no_walk (tls : list timeline) (cur_time start_time num : Z) : option Z :=
  match tls with
  | [] => None
  | t :: tls' =>
      let start_time := if 0 <? tl_starttime t then tl_starttime t else start_time in
      if cur_time <? start_time then Some num
      else
        let start_time := add64 start_time (tl_duration t) in
        match calc_next_seg_no_repeat (Z.to_nat (tl_repeat t)) (tl_duration t)
                cur_time start_time num with
        | Goto_finish _ num => Some num
        | Fallthrough st num => calc_next_seg_no_walk tls' cur_time st (add64 num 1)
        end
  end.

Definition calc_next_seg_no_from_timelines
    (c : DASHContext) (pls : representation) (cur_time : Z) : Z :=
  match calc_next_seg_no_walk (timelines pls) cur_time 0 0 with
  | None => -1
  | Some num =>
      if c_use_timeline_segment_offset_correction c then add64 num (first_seq_no pls) else num
  end.

(** ** Sequencer: live and maximal sequence numbers

    [now] is the reading of get_current_time_in_sec(). *)

Fixpoint calc_max_seg_no_timelines (c : DASHContext) (pls : representation)
    (tls : list timeline) (num : Z) : Z :=
  match tls with
  | [] => num
  | t :: tls' =>
      if tl_repeat t =? -1 then
        let length_of_each_segment := to_int32 (div64 (tl_duration t) (fragment_timescale pls)) in
        calc_max_seg_no_timelines c pls tls'
          (to_int64 (udiv64 (c_period_duration c) length_of_each_segment))
      else calc_max_seg_no_timelines c pls tls' (add64 num (tl_repeat t))
  end.

Definition calc_max_seg_no (now : Z) (pls : representation) (c : DASHContext) : Z :=
  if negb (n_fragments pls =? 0) then
    sub64 (add64 (first_seq_no pls) (n_fragments pls)) 1
  else if negb (n_timelines pls =? 0) then
    calc_max_seg_no_timelines c pls (timelines pls)
      (sub64 (add64 (first_seq_no pls) (n_timelines pls)) 1)
  else if c_is_live c && negb (fragment_duration pls =? 0) then
    let num :=
      to_int64 (uadd64 (first_seq_no pls)
        (udiv64 (umul64 (usub64 now (c_availability_start_time c)) (fragment_timescale pls))
                (fragment_duration pls))) in
    if (first_seq_no pls <? num) && c_fetch_completed_segments_only c then sub64 num 1 else num
  else if negb (fragment_duration pls =? 0) then
    to_int64 (uadd64 (first_seq_no pls)
      (udiv64 (umul64 (c_media_presentation_duration c) (fragment_timescale pls))
              (fragment_duration pls)))
  else 0.

Definition calc_min_seg_no (now : Z) (c : DASHContext) (pls : representation) : Z :=
  if c_is_live c && negb (fragment_duration pls =? 0) then
    let num :=
      to_int64 (uadd64 (first_seq_no pls)
        (udiv64 (umul64 (usub64 (usub64 now (c_availability_start_time c))
                                (c_time_shift_buffer_depth c))
                        (fragment_timescale pls))
                (fragment_duration pls))) in
    if (first_seq_no pls <? num) && (c_time_shift_buffer_depth c =? 0)
       && c_fetch_completed_segments_only c
    then sub64 num 1 else num
  else first_seq_no pls.

(** The value calc_cur_seg_no computes for a live template+duration
    representation before the completed-segments adjustment: the
    assignment to [num] in each of its branches. *)
Definition calc_cur_seg_no_template (now : Z) (c : DASHContext) (pls : representation) : Z :=
  let first := first_seq_no pls in
  let ts := fragment_timescale pls in
  let fd := fragment_duration pls in
  if negb (presentation_timeoffset pls =? 0) then
    to_int64 (usub64
      (uadd64 first
        (udiv64 (usub64 (umul64 (usub64 now (c_availability_start_time c)) ts)
                        (presentation_timeoffset pls)) fd))
      (c_min_buffer_time c))
  else if (0 <? c_publish_time c) && (c_availability_start_time c =? 0) then
    if negb (c_min_buffer_time c =? 0) then
      to_int64 (usub64
        (uadd64 first
          (udiv64 (umul64 (usub64 (uadd64 (c_publish_time c) fd)
                                  (c_suggested_presentation_delay c)) ts) fd))
        (c_min_buffer_time c))
    else
      to_int64 (uadd64 first
        (udiv64 (umul64 (usub64 (uadd64 (usub64 (c_publish_time c) (c_time_shift_buffer_depth c)) fd)
                                (c_suggested_presentation_delay c)) ts) fd))
  else
    to_int64 (uadd64 first
      (udiv64 (umul64 (usub64 (usub64 now (c_availability_start_time c))
                              (c_suggested_presentation_delay c)) ts) fd)).

Definition calc_cur_seg_no (now : Z) (c : DASHContext) (pls : representation) : Z :=
  if c_is_live c then
    if negb (n_fragments pls =? 0) then first_seq_no pls
    else if negb (n_timelines pls =? 0) then
      let start_time_offset :=
        sub64 (get_segment_start_time_based_on_timeline c pls 4294967295)
              (mul64 60 (fragment_timescale pls)) in
      let num := calc_next_seg_no_from_timelines c pls start_time_offset in
      if num =? -1 then first_seq_no pls
      else if negb (c_use_timeline_segment_offset_correction c)
           then add64 num (first_seq_no pls) else num
    else if negb (fragment_duration pls =? 0) then
      let num := calc_cur_seg_no_template now c pls in
      if negb (presentation_timeoffset pls =? 0) then num
      else if (0 <? c_publish_time c) && (c_availability_start_time c =? 0) then
        if (first_seq_no pls <? num)
           && ((c_time_shift_buffer_depth c =? 0) && (c_suggested_presentation_delay c =? 0))
           && c_fetch_completed_segments_only c
        then sub64 num 1 else num
      else
        if (first_seq_no pls <? num) && (c_suggested_presentation_delay c =? 0)
           && c_fetch_completed_segments_only c
        then sub64 num 1 else num
    else 0
  else first_seq_no pls.

Definition get_curr_timepoint (c : DASHContext) (pls : representation) : Z :=
  if c_is_live c then
    if negb (n_timelines pls =? 0) then
      if period_start pls =? 0 then 0
      else to_uint32 (uadd64 (period_start pls)
             (div64 (get_segment_start_time_based_on_timeline c pls (cur_seq_no pls))
                    (fragment_timescale pls)))
    else if negb (fragment_duration pls =? 0) then
      to_uint32 (div64 (mul64 (first_seq_no pls) (fragment_duration pls)) (fragment_timescale pls))
    else 0
  else 0.

(** A representation as av_mallocz leaves it: every field zero or NULL. *)
Definition empty_representation : representation :=
  {| rep_id := None; id_length := 0; codecs := None; scantype := None; framerate := (0, 0);
     width := 0; height := 0; ctx := false; input := false; assoc_stream := None;
     fragments := []; timelines := []; first_seq_no := 0; last_seq_no := 0; start_number := 0;
     fragment_duration := 0; fragment_timescale := 0; presentation_timeoffset := 0;
     cur_seq_no := 0; cur_seg_offset := 0; cur_seg_size := 0; cur_seg := None;
     period_media_presentation_duration := 0; period_start := 0; period_duration := 0;
     init_section := None; init_sec_buf := []; init_sec_buf_size := 0; init_sec_data_len := 0;
     init_sec_buf_read_offset := 0; init_loaded := false; cur_timestamp := 0;
     is_restart_needed := false |}.

(** A context with every attribute zero and no representation; the two
    options are given. *)
Definition empty_context (use_correction fetch_completed : bool) : DASHContext :=
  {| c_base_url := None; c_videos := []; c_audios := []; c_subtitles := [];
     c_media_presentation_duration := 0; c_suggested_presentation_delay := 0;
     c_availability_start_time := 0; c_publish_time := 0; c_time_shift_buffer_depth := 0;
     c_min_buffer_time := 0; c_period_duration := 0; c_period_start := 0;
     c_use_timeline_segment_offset_correction := use_correction;
     c_fetch_completed_segments_only := fetch_completed; c_is_live := false |}.

Definition S_entry (t d r : Z) : timeline :=
  {| tl_starttime := t; tl_repeat := r; tl_duration := d |}.

(** ** The specification's reference walk (section 4.3)

    Written from the specification's words, to be compared with
    [get_segment_start_time_based_on_timeline]: the walk keeps a running
    [start_time], a counter [num] starting at 0 and, once the target is
    matched, the returned value.  Arithmetic is that of the data model's
    int64 fields. *)
Record walk_state := {
  ws_start_time : Z;
  ws_num : Z;
  ws_returned : option Z
}.

(** "for each of entry.repeat additional repetitions, increment num, return
    start_time if matched, else add entry.duration" *)
Definition reference_repetition (d target : Z) (s : walk_state) : walk_state :=
  match ws_returned s with
  | Some _ => s
  | None =>
      let num := add64 (ws_num s) 1 in
      if num =? target
      then {| ws_start_time := ws_start_time s; ws_num := num;
              ws_returned := Some (ws_start_time s) |}
      else {| ws_start_time := add64 (ws_start_time s) d; ws_num := num; ws_returned := None |}
  end.

(** Steps 1 to 4 for one entry, with the closed form of a fill-period
    entry ([repeat = -1]) reached before the target is matched. *)
Definition reference_entry (target : Z) (s : walk_state) (e : timeline) : walk_state :=
  match ws_returned s with
  | Some _ => s
  | None =>
      let st := if 0 <? tl_starttime e then tl_starttime e else ws_start_time s in
      if ws_num s =? target
      then {| ws_start_time := st; ws_num := ws_num s; ws_returned := Some st |}
      else if tl_repeat e =? -1
      then {| ws_start_time := st; ws_num := ws_num s;
              ws_returned := Some (mul64 (tl_duration e) target) |}
      else
        let s3 :=
          Nat.iter (Z.to_nat (tl_repeat e)) (reference_repetition (tl_duration e) target)
            {| ws_start_time := add64 st (tl_duration e); ws_num := ws_num s;
               ws_returned := None |} in
        match ws_returned s3 with
        | Some _ => s3
        | None => {| ws_start_time := ws_start_time s3; ws_num := add64 (ws_num s3) 1;
                     ws_returned := None |}
        end
  end.

Definition reference_walk (entries : list timeline) (target : Z) : walk_state :=
  fold_left (reference_entry target) entries
    {| ws_start_time := 0; ws_num := 0; ws_returned := None |}.

(** What the walk yields: the returned value, or, where the specification
    is silent because the entries end before the target is matched, the
    running start time. *)
Definition walk_value (s : walk_state) : Z :=
  match ws_returned s with
  | Some v => v
  | None => ws_start_time s
  end.

(** The timeline of the specification's discontinuity scenario:
    S{t=0,d=2,r=1}, S{t=10,d=2,r=0}, three segments numbered from 0. *)
Definition discontinuity_rep : representation :=
  set_last_seq_no 2
    (set_fragment_timescale 1
       (set_timelines [S_entry 0 2 1; S_entry 10 2 0] empty_representation)).

Definition live_context (use_correction fetch_completed : bool) : DASHContext :=
  set_c_is_live true (empty_context use_correction fetch_completed).

(** A live timeline with one 100-tick segment, numbered from 7. *)
Definition single_segment_rep : representation :=
  set_first_seq_no 7
    (set_last_seq_no 7
       (set_fragment_timescale 1 (set_timelines [S_entry 0 100 0] empty_representation))).

(** A live template+duration representation: segments of 2 ticks at
    timescale 1, numbered from 1. *)
Definition template_rep : representation :=
  set_first_seq_no 1 (set_fragment_duration 2 (set_fragment_timescale 1 empty_representation)).

(** A live context and a representation in the middle of segment 5 of 9,
    with the fetcher open and no init section pending. *)
Definition streaming_rep (restart_needed : bool) : representation :=
  set_is_restart_needed restart_needed
    (set_cur_seg (Some {| frag_url_offset := 0; frag_size := -1; frag_url := "seg-5.m4s" |})
       (set_input true (set_ctx true
          (set_cur_seq_no 5 (set_last_seq_no 9 empty_representation))))).

(** ** Notions used to state the timeline properties *)

(** The running start time at every position calc_next_seg_no_from_timelines
    tests, in walk order: the start of each entry's first segment and of each
    of its repetitions. *)
Fixpoint entry_positions (n : nat) (d start_time : Z) : list Z :=
  match n with
  | O => []
  | S n' => start_time :: entry_positions n' d (add64 start_time d)
  end.

Fixpoint timeline_positions (tls : list timeline) (start_time : Z) : list Z :=
  match tls with
  | [] => []
  | t :: tls' =>
      let start_time := if 0 <? tl_starttime t then tl_starttime t else start_time in
      let n := S (Z.to_nat (tl_repeat t)) in
      entry_positions n (tl_duration t) start_time
        ++ timeline_positions tls' (Nat.iter n (fun s => add64 s (tl_duration t)) start_time)
  end.

(** Number of segments a timeline without fill-period entries describes. *)
Fixpoint seg_count (tls : list timeline) : Z :=
  match tls with
  | [] => 0
  | t :: tls' => tl_repeat t + 1 + seg_count tls'
  end.

(** Start time of an entry's first segment, and the time at which the
    entry ends, for the running time [st] reached before it. *)
Definition entry_start (st : Z) (t : timeline) : Z :=
  if 0 <? tl_starttime t then tl_starttime t else st.

Definition entry_end (st : Z) (t : timeline) : Z :=
  entry_start st t + tl_duration t * (tl_repeat t + 1).

(** A timeline as the DASH standard requires it (the comment on
    [struct timeline]): positive durations, explicit repeat counts, a start
    time that is absent or not before the end of the previous entry, and an
    end that fits int64_t. *)
Fixpoint timeline_wf (tls : list timeline) (st : Z) : Prop :=
  match tls with
  | [] => st <= INT64_MAX
  | t :: tls' =>
      0 < tl_duration t /\ 0 <= tl_repeat t /\ st <= entry_start st t /\
      timeline_wf tls' (entry_end st t)
  end.

(** A timeline-style representation whose numbering the two walks agree
    on: no fragment list, a well-formed timeline, sequence numbers that fit
    int64_t, and either the offset correction on or a timeline numbered
    from 0. *)
Definition timeline_rep_ok (c : DASHContext) (pls : representation) : Prop :=
  fragments pls = [] /\ timelines pls <> [] /\ timeline_wf (timelines pls) 0 /\
  0 <= first_seq_no pls /\ first_seq_no pls + seg_count (timelines pls) <= INT64_MAX /\
  (c_use_timeline_segment_offset_correction c = true \/ first_seq_no pls = 0).

(** ** Period selection in parse_manifest

    The XML binding is outside the model: the Period elements arrive as the
    list of their [start] and [duration] attributes, already converted by
    get_duration_insec (absent attributes are 0), in document order.  A node
    is named by its position in that list. *)

Record period := {
  period_start_sec : Z;     (* uint32_t *)
  period_duration_sec : Z   (* uint32_t *)
}.

(** The locals of parse_manifest that the walk over the Periods updates. *)
Record period_choice := {
  matching_period_node : option nat;
  default_period_node : option nat;
  min_period_diff : Z
}.

(** The two assignments and the conditional one made when a Period is
    selected, as default or as match. *)
Definition select_period (p : period) (c : DASHContext) : DASHContext :=
  let c := set_c_period_duration (period_duration_sec p) c in
  let c := set_c_period_start (period_start_sec p) c in
  if 0 <? c_period_start c
  then set_c_media_presentation_duration (c_period_duration c) c
  else c.

(** The body of the [while (node)] loop for one Period element. *)
Definition parse_manifest_period (curr_timepoint : Z) (node : nat) (p : period)
    (st : DASHContext * period_choice) : DASHContext * period_choice :=
  let '(c, pc) := st in
  let '(c, pc) :=
    match matching_period_node pc with
    | None =>
        if c_period_start c <=? period_start_sec p
        then (select_period p c,
              {| matching_period_node := matching_period_node pc;
                 default_period_node := Some node;
                 min_period_diff := min_period_diff pc |})
        else (c, pc)
    | Some _ => (c, pc)
    end in
  let diff_val := sub64 curr_timepoint (period_start_sec p) in
  if (0 <=? diff_val) && (diff_val <=? min_period_diff pc)
  then (select_period p c,
        {| matching_period_node := Some node;
           default_period_node := default_period_node pc;
           min_period_diff := diff_val |})
  else (c, pc).

Fixpoint parse_manifest_periods (curr_timepoint : Z) (node : nat) (periods : list period)
    (st : DASHContext * period_choice) : DASHContext * period_choice :=
  match periods with
  | [] => st
  | p :: rest =>
      parse_manifest_periods curr_timepoint (S node) rest
        (parse_manifest_period curr_timepoint node p st)
  end.

(** The walk over the Periods and the test that follows it: the return
    value ([AVERROR_INVALIDDATA] when no Period is suitable, else 0), the
    context, and the node whose AdaptationSets are then parsed. *)
Definition parse_manifest_select_period (c : DASHContext) (periods : list period)
    (curr_timepoint : Z) : Z * DASHContext * option nat :=
  let '(c, pc) :=
    parse_manifest_periods curr_timepoint 0 periods
      (c, {| matching_period_node := None; default_period_node := None;
             min_period_diff := INT64_MAX |}) in
  match matching_period_node pc, default_period_node pc with
  | None, None => (AVERROR_INVALIDDATA, c, None)
  | Some m, _ => (0, c, Some m)
  | None, Some d => (0, c, Some d)
  end.

(** Invariants of the walk over the Periods, used to state and prove the
    selection rule. *)

Definition uint32_range (z : Z) : Prop := 0 <= z < UINT32_MOD.

(** What the walk knows about a match after the Periods in [seen]. *)
Definition match_invariant (cp : Z) (seen : list period) (pc : period_choice) : Prop :=
  match matching_period_node pc with
  | None => min_period_diff pc = INT64_MAX /\
            forall q, q ∈ seen -> cp < period_start_sec q
  | Some i =>
      exists p, seen !! i = Some p /\ period_start_sec p <= cp /\
        min_period_diff pc = cp - period_start_sec p /\
        (forall q, q ∈ seen -> period_start_sec q <= cp ->
           cp - period_start_sec p <= cp - period_start_sec q) /\
        (forall j q, (i < j)%nat -> seen !! j = Some q -> period_start_sec q <= cp ->
           cp - period_start_sec p < cp - period_start_sec q)
  end.

(** What the walk knows about the default after the Periods in [seen], as
    long as none of them matched; [prev] is the period start the context
    remembered before the walk. *)
Definition default_invariant (prev : Z) (seen : list period)
    (st : DASHContext * period_choice) : Prop :=
  matching_period_node (snd st) = None /\ min_period_diff (snd st) = INT64_MAX /\
  match default_period_node (snd st) with
  | None => c_period_start (fst st) = prev /\
            forall q, q ∈ seen -> period_start_sec q < prev
  | Some i =>
      exists p, seen !! i = Some p /\ c_period_start (fst st) = period_start_sec p /\
        prev <= period_start_sec p /\
        (forall q, q ∈ seen -> period_start_sec q <= period_start_sec p) /\
        (forall j q, (i < j)%nat -> seen !! j = Some q ->
           period_start_sec q < period_start_sec p)
  end.

(** ** ISO-8601 durations: get_duration_insec

    The C library's sscanf is outside the model.  The call
    [sscanf(ptr, "%lf%c%n", &value, &type, &size)] is a parameter: it yields
    [Some (value, type, size)] when both conversions succeed (the call
    returns 2) and [None] otherwise; [double_to_uint32] is the conversion
    [(uint32_t)value]. *)

Definition uadd32 (a b : Z) : Z := to_uint32 (a + b).
Definition umul32 (a b : Z) : Z := to_uint32 (a * b).

(** [ptr += size] *)
Fixpoint string_skip (n : nat) (s : string) : string :=
  match n, s with
  | O, _ => s
  | S n', String _ rest => string_skip n' rest
  | S _, EmptyString => EmptyString
  end.

(** The locals [days], [hours], [mins], [secs]. *)
Record duration_fields := {
  df_days : Z;
  df_hours : Z;
  df_mins : Z;
  df_secs : Z
}.

Definition duration_zero : duration_fields :=
  {| df_days := 0; df_hours := 0; df_mins := 0; df_secs := 0 |}.

(** The [switch (type)]. *)
Definition duration_assign (type : ascii) (v : Z) (f : duration_fields) : duration_fields :=
  if Ascii.eqb type "D" then
    {| df_days := v; df_hours := df_hours f; df_mins := df_mins f; df_secs := df_secs f |}
  else if Ascii.eqb type "H" then
    {| df_days := df_days f; df_hours := v; df_mins := df_mins f; df_secs := df_secs f |}
  else if Ascii.eqb type "M" then
    {| df_days := df_days f; df_hours := df_hours f; df_mins := v; df_secs := df_secs f |}
  else if Ascii.eqb type "S" then
    {| df_days := df_days f; df_hours := df_hours f; df_mins := df_mins f; df_secs := v |}
  else f.

(** The value returned after the loop, in uint32_t arithmetic. *)
Definition duration_seconds (f : duration_fields) : Z :=
  uadd32 (umul32 (uadd32 (umul32 (uadd32 (umul32 (df_days f) 24) (df_hours f)) 60)
                         (df_mins f)) 60)
         (df_secs f).

Section Duration.

Variable double : Type.
Variable sscanf_lf_c_n : string -> option (double * ascii * nat).
Variable double_to_uint32 : double -> Z.

(** The while loop over the characters at [ptr]; [None] only when the fuel
    runs out. *)
Fixpoint get_duration_insec_loop (fuel : nat) (ptr : string) (f : duration_fields)
    : option Z :=
  match fuel with
  | O => None
  | S fuel' =>
      match ptr with
      | EmptyString => Some (duration_seconds f)
      | String ch rest =>
          if Ascii.eqb ch "P" || Ascii.eqb ch "T"
          then get_duration_insec_loop fuel' rest f
          else
            match sscanf_lf_c_n ptr with
            | None => Some 0
            | Some (value, type, size) =>
                get_duration_insec_loop fuel' (string_skip size ptr)
                  (duration_assign type (double_to_uint32 value) f)
            end
      end
  end.

(** Every iteration consumes at least one character, so one more unit of
    fuel than the string has characters is enough. *)
Definition get_duration_insec (duration : string) : option Z :=
  get_duration_insec_loop (S (String.length duration)) duration duration_zero.

(** The positions the loop passes through: from [ptr] with the fields [f]
    it arrives at [ptr'] with the fields [f']. *)
Inductive duration_reaches : string -> duration_fields -> string -> duration_fields -> Prop :=
| reaches_here ptr f : duration_reaches ptr f ptr f
| reaches_skip ch rest f ptr' f' :
    Ascii.eqb ch "P" || Ascii.eqb ch "T" = true ->
    duration_reaches rest f ptr' f' ->
    duration_reaches (String ch rest) f ptr' f'
| reaches_scan ch rest f value type size ptr' f' :
    Ascii.eqb ch "P" || Ascii.eqb ch "T" = false ->
    sscanf_lf_c_n (String ch rest) = Some (value, type, size) ->
    duration_reaches (string_skip size (String ch rest))
      (duration_assign type (double_to_uint32 value) f) ptr' f' ->
    duration_reaches (String ch rest) f ptr' f'.

(** The text [txt] followed by the unit character [u] is read as the number
    [v], whatever follows: what sscanf does for numeric text. *)
Definition scans_as (txt : string) (u : ascii) (v : double) : Prop :=
  (exists ch rest, txt = String ch rest /\ Ascii.eqb ch "P" || Ascii.eqb ch "T" = false) /\
  forall rest, sscanf_lf_c_n (txt ++ String u rest)
               = Some (v, u, S (String.length txt)).

(** sscanf reports at least one character consumed when it succeeds. *)
Definition scanner_progress : Prop :=
  forall s v t n, sscanf_lf_c_n s = Some (v, t, n) -> (1 <= n)%nat.

(** An optional field [n] followed by its unit, as text and as value. *)
Definition field_text (o : option (string * double)) (u : ascii) : string :=
  match o with
  | Some (txt, _) => txt ++ String u EmptyString
  | None => EmptyString
  end.

Definition field_value (o : option (string * double)) : Z :=
  match o with
  | Some (_, v) => double_to_uint32 v
  | None => 0
  end.

Definition field_scans (o : option (string * double)) (u : ascii) : Prop :=
  match o with
  | Some (txt, v) => scans_as txt u v
  | None => True
  end.

End Duration.

(** A scanner for unsigned decimal integers followed by a character: the
    part of sscanf's behaviour the examples need. *)
Definition is_digit (ch : ascii) : bool :=
  (48 <=? nat_of_ascii ch)%nat && (nat_of_ascii ch <=? 57)%nat.

Fixpoint scan_digits (s : string) (acc : Z) (n : nat) : Z * nat * string :=
  match s with
  | String ch rest =>
      if is_digit ch
      then scan_digits rest (acc * 10 + (Z.of_nat (nat_of_ascii ch) - 48)) (S n)
      else (acc, n, s)
  | EmptyString => (acc, n, s)
  end.

Definition decimal_sscanf (s : string) : option (Z * ascii * nat) :=
  let '(v, n, rest) := scan_digits s 0 0 in
  match n, rest with
  | S _, String ch _ => Some (v, ch, S n)
  | _, _ => None
  end.

(** ** The representation byte stream: read_data

    The fetcher and the functions that reach it are parameters over an
    abstract [world] threaded through every call: get_current_fragment
    (which may refresh the manifest, so it returns the context and the
    representation as well), update_init_section and open_input (which
    return the representation with the fields and the current fragment's
    size as they set them), avio_read and the interrupt callback.  The bytes copied into [buf] are not modelled,
    only their count; the save and restore of the mpegts parser hook around
    the body touches nothing modelled here. *)

Definition usub32 (a b : Z) : Z := to_uint32 (a - b).

(** FFMIN(a, b) for [a] of type uint32_t and [b] of type int: the
    comparison and the result are unsigned. *)
Definition ffmin_uint32_int (a b : Z) : Z :=
  if to_uint32 b <? a then to_uint32 b else a.

(** How the block under the [restart:] label is left. *)
Inductive restart_exit :=
| Restart_end (ret : Z)
| Restart_opened.

Section ReadData.

Variable world : Type.
Variable get_current_fragment :
  world -> DASHContext -> representation ->
  world * DASHContext * representation * Z * option fragment.
Variable update_init_section :
  world -> DASHContext -> representation -> world * representation * Z.
Variable open_input :
  world -> DASHContext -> representation -> fragment -> world * representation * Z.
Variable avio_read : world -> representation -> Z -> world * Z.
Variable ff_check_interrupt : world -> world * bool.

Definition read_from_url (w : world) (pls : representation) (seg : fragment) (buf_size : Z)
    : world * representation * Z :=
  let buf_size :=
    if 0 <=? frag_size seg
    then to_int32 (Z.min buf_size (sub64 (cur_seg_size pls) (cur_seg_offset pls)))
    else buf_size in
  let '(w, ret) := avio_read w pls buf_size in
  (w, if 0 <? ret then set_cur_seg_offset (add64 (cur_seg_offset pls) ret) pls else pls, ret).

(** The block under [restart:], entered again by each [goto restart];
    [None] when the fuel runs out. *)
Fixpoint read_data_restart (fuel : nat) (w : world) (c : DASHContext) (v : representation)
    : option (world * DASHContext * representation * restart_exit) :=
  match fuel with
  | O => None
  | S fuel' =>
      if input v then Some (w, c, v, Restart_opened)
      else
        let v := set_cur_seg None v in
        let '(w, c, v, ret, new_seg) := get_current_fragment w c v in
        if negb (ret =? 0) then Some (w, c, v, Restart_end ret)
        else
          match new_seg with
          | None => Some (w, c, v, Restart_end AVERROR_EOF)
          | Some seg =>
              let v := set_cur_seg (Some seg) v in
              let '(w, v, ret) := update_init_section w c v in
              if ret <? 0 then
                let '(w, interrupted) := ff_check_interrupt w in
                if interrupted then Some (w, c, v, Restart_end AVERROR_EXIT)
                else read_data_restart fuel' w c v
              else
                let '(w, v, ret) := open_input w c v seg in
                if ret <? 0 then
                  let '(w, interrupted) := ff_check_interrupt w in
                  if interrupted then Some (w, c, v, Restart_end AVERROR_EXIT)
                  else
                    let v := if negb (c_is_live c)
                             then set_cur_seq_no (add64 (cur_seq_no v) 1) v else v in
                    read_data_restart fuel' w c v
                else Some (w, c, v, Restart_opened)
          end
  end.

(** read_data from the init-section test to [end:]. *)
Definition read_data_body (w : world) (c : DASHContext) (v : representation) (buf_size : Z)
    : world * DASHContext * representation * Z :=
  if init_sec_buf_read_offset v <? init_sec_data_len v then
    let copy_size :=
      to_int32 (ffmin_uint32_int
                  (usub32 (init_sec_data_len v) (init_sec_buf_read_offset v)) buf_size) in
    (w, c,
     set_init_sec_buf_read_offset (to_uint32 (init_sec_buf_read_offset v + copy_size)) v,
     copy_size)
  else
    let located :=
      match cur_seg v with
      | Some seg => inl (w, c, v, seg)
      | None =>
          let '(w, c, v, ret, new_seg) := get_current_fragment w c v in
          if negb (ret =? 0) then inr (w, c, v, ret)
          else
            match new_seg with
            | None => inr (w, c, v, AVERROR_EOF)
            | Some seg => inl (w, c, set_cur_seg (Some seg) v, seg)
            end
      end in
    match located with
    | inr out => out
    | inl (w, c, v, seg) =>
        let '(w, v, ret) := read_from_url w v seg buf_size in
        if 0 <? ret then (w, c, v, ret)
        else if c_is_live c || (cur_seq_no v <? last_seq_no v) then
          let v := if negb (is_restart_needed v)
                   then set_cur_seq_no (add64 (cur_seq_no v) 1) v else v in
          (w, c, set_is_restart_needed true v, ret)
        else (w, c, v, ret)
    end.

Definition read_data (fuel : nat) (w : world) (c : DASHContext) (v : representation)
    (buf_size : Z) : option (world * DASHContext * representation * Z) :=
  match read_data_restart fuel w c v with
  | None => None
  | Some (w, c, v, Restart_end ret) => Some (w, c, v, ret)
  | Some (w, c, v, Restart_opened) => Some (read_data_body w c v buf_size)
  end.

End ReadData.

(** Oracles of a fetcher that is at the end of its data. *)
Definition eof_get_current_fragment (w : unit) (c : DASHContext) (v : representation)
    : unit * DASHContext * representation * Z * option fragment := (w, c, v, 0, None).
Definition eof_update_init_section (w : unit) (c : DASHContext) (v : representation)
    : unit * representation * Z := (w, v, 0).
Definition eof_open_input (w : unit) (c : DASHContext) (v : representation) (seg : fragment)
    : unit * representation * Z := (w, v, 0).
Definition eof_avio_read (w : unit) (v : representation) (buf_size : Z) : unit * Z := (w, 0).
Definition eof_check_interrupt (w : unit) : unit * bool := (w, false).

(** ** The demuxer orchestrator: discard gating and seeking

    The inner container parser is a parameter: reopen_demux_for_component
    (which probes the stream through read_data and may therefore move the
    representation on) and the flush and frame-level seek of the inner
    parser, each returning its result code and the representation as it
    leaves it.  av_rescale_rnd is libavutil's.  The representations are
    reached through the store, as the C code reaches them through
    pointers; a pointer outside the store does not occur (the lists hold
    what parse_manifest allocated) and is skipped. *)

Definition AV_ROUND_DOWN : Z := 2.
Definition AV_ROUND_UP : Z := 3.

(** [!pls->assoc_stream || pls->assoc_stream->discard < AVDISCARD_ALL] *)
Definition needed (pls : representation) : bool :=
  match assoc_stream pls with
  | None => true
  | Some discard => discard <? AVDISCARD_ALL
  end.

(** The catch-up loop: [pls->cur_seq_no = FFMAX(pls->cur_seq_no,
    p[j]->cur_seq_no)] for every [j], on the store, so that [p[j]] may be
    [pls] itself. *)
Fixpoint catch_up (h : store) (pls : rep_ptr) (p : list rep_ptr) : store :=
  match p with
  | [] => h
  | pj :: p' =>
      let h :=
        match h !! pls, h !! pj with
        | Some r, Some rj =>
            <[pls := set_cur_seq_no (Z.max (cur_seq_no r) (cur_seq_no rj)) r]> h
        | _, _ => h
        end in
      catch_up h pls p'
  end.

(** The timeline branch of dash_seek: the walk to the first segment whose
    end, in milliseconds, lies beyond the seek position. *)
Fixpoint dash_seek_repeat (n : nat) (d timescale seek_pos_msec duration num : Z) : loop_exit :=
  match n with
  | O => Fallthrough duration num
  | S n' =>
      let duration := add64 duration d in
      let num := add64 num 1 in
      if seek_pos_msec <? div64 (mul64 duration 1000) timescale
      then Goto_finish duration num
      else dash_seek_repeat n' d timescale seek_pos_msec duration num
  end.

Fixpoint dash_seek_timelines (tls : list timeline) (timescale seek_pos_msec duration num : Z)
    : Z :=
  match tls with
  | [] => num
  | t :: tls' =>
      let duration := if 0 <? tl_starttime t then tl_starttime t else duration in
      let duration := add64 duration (tl_duration t) in
      if seek_pos_msec <? div64 (mul64 duration 1000) timescale then num
      else
        match dash_seek_repeat (Z.to_nat (tl_repeat t)) (tl_duration t) timescale
                seek_pos_msec duration num with
        | Goto_finish _ num => num
        | Fallthrough duration num =>
            dash_seek_timelines tls' timescale seek_pos_msec duration (add64 num 1)
        end
  end.

Section Orchestrator.

Variable world : Type.
Variable reopen_demux_for_component : world -> representation -> world * representation * Z.
(** ff_read_frame_flush followed by av_seek_frame on the inner parser. *)
Variable av_seek_frame : world -> representation -> Z -> Z -> world * representation * Z.
Variable av_rescale_rnd : Z -> Z -> Z -> Z -> Z.

(** The body of the loop of recheck_discard_flags for [p[i]]. *)
Definition recheck_discard_flags_one (p : list rep_ptr) (st : world * store) (pi : rep_ptr)
    : world * store :=
  let '(w, h) := st in
  match h !! pi with
  | None => (w, h)
  | Some pls =>
      if needed pls && negb (ctx pls) then
        let h := <[pi := set_init_sec_buf_read_offset 0 (set_cur_seg_offset 0 pls)]> h in
        let h := catch_up h pi p in
        match h !! pi with
        | None => (w, h)
        | Some pls =>
            let '(w, pls, _) := reopen_demux_for_component w pls in
            (w, <[pi := pls]> h)
        end
      else if negb (needed pls) && ctx pls then
        (w, <[pi := set_input false (set_ctx false pls)]> h)
      else (w, h)
  end.

Definition recheck_discard_flags (w : world) (h : store) (p : list rep_ptr) : world * store :=
  fold_left (recheck_discard_flags_one p) p (w, h).

(** The three calls that open dash_read_packet. *)
Definition dash_read_packet_recheck (w : world) (c : DASHContext) (h : store)
    : world * store :=
  let '(w, h) := recheck_discard_flags w h (c_videos c) in
  let '(w, h) := recheck_discard_flags w h (c_audios c) in
  recheck_discard_flags w h (c_subtitles c).

Definition dash_seek (w : world) (pls : representation) (seek_pos_msec flags : Z)
    (dry_run : bool) : world * representation * Z :=
  if n_fragments pls =? 1 then
    let pls := set_cur_seg_offset 0 (set_cur_timestamp 0 pls) in
    if dry_run then (w, pls, 0)
    else av_seek_frame w pls (mul64 seek_pos_msec 1000) flags
  else
    let pls := set_input false pls in
    let pls :=
      if (0 <? n_timelines pls) && (0 <? fragment_timescale pls) then
        let num := dash_seek_timelines (timelines pls) (fragment_timescale pls)
                     seek_pos_msec 0 (first_seq_no pls) in
        set_cur_seq_no (if last_seq_no pls <? num then last_seq_no pls else num) pls
      else if 0 <? fragment_duration pls then
        set_cur_seq_no
          (add64 (first_seq_no pls)
             (div64 (div64 (mul64 seek_pos_msec (fragment_timescale pls))
                           (fragment_duration pls)) 1000)) pls
      else set_cur_seq_no (first_seq_no pls) pls in
    let pls := set_init_sec_buf_read_offset 0 (set_cur_seg_offset 0 (set_cur_timestamp 0 pls)) in
    if dry_run then (w, pls, 0) else reopen_demux_for_component w pls.

(** One of the three loops of dash_read_seek; [ret] is carried from one
    representation to the next and stops the seeking once it is not 0. *)
Fixpoint dash_read_seek_list (w : world) (h : store) (p : list rep_ptr)
    (seek_pos_msec flags ret : Z) : world * store * Z :=
  match p with
  | [] => (w, h, ret)
  | pi :: p' =>
      if ret =? 0 then
        match h !! pi with
        | None => dash_read_seek_list w h p' seek_pos_msec flags ret
        | Some pls =>
            let '(w, pls, ret) := dash_seek w pls seek_pos_msec flags (negb (ctx pls)) in
            dash_read_seek_list w (<[pi := pls]> h) p' seek_pos_msec flags ret
        end
      else dash_read_seek_list w h p' seek_pos_msec flags ret
  end.

(** [time_base_den] is the denominator of the time base of the stream the
    seek is asked on. *)
Definition dash_read_seek (w : world) (c : DASHContext) (h : store)
    (time_base_den timestamp flags : Z) : world * store * Z :=
  let seek_pos_msec :=
    av_rescale_rnd timestamp 1000 time_base_den
      (if negb (Z.land flags AVSEEK_FLAG_BACKWARD =? 0) then AV_ROUND_DOWN else AV_ROUND_UP) in
  if negb (Z.land flags AVSEEK_FLAG_BYTE =? 0) || c_is_live c then (w, h, AVERROR_ENOSYS)
  else
    let '(w, h, ret) := dash_read_seek_list w h (c_videos c) seek_pos_msec flags 0 in
    let '(w, h, ret) := dash_read_seek_list w h (c_audios c) seek_pos_msec flags ret in
    dash_read_seek_list w h (c_subtitles c) seek_pos_msec flags ret.

End Orchestrator.

(** An inner parser that opens at once and seeks without moving the
    representation; rescaling of a timestamp already in milliseconds. *)
Definition instant_reopen (w : unit) (pls : representation) : unit * representation * Z :=
  (w, set_ctx true pls, 0).
Definition instant_seek_frame (w : unit) (pls : representation) (ts flags : Z)
    : unit * representation * Z := (w, pls, 0).
Definition rescale_msec (a b c rnd : Z) : Z := a.

(** A store with one disabled video representation at segment 5, wanted
    again by the consumer, and one active audio representation at segment
    10; the context that lists them. *)
Definition gating_store : store :=
  <[1%positive := set_cur_seq_no 5 empty_representation]>
    (<[2%positive := set_ctx true (set_cur_seq_no 10 empty_representation)]> ∅).

Definition gating_context : DASHContext :=
  set_c_videos [1%positive] (set_c_audios [2%positive] (empty_context true true)).

(** A store with one template+duration representation (2-tick segments at
    timescale 1, numbered from 1), not yet opened. *)
Definition seek_store : store := <[1%positive := template_rep]> ∅.

Definition seek_context : DASHContext := set_c_videos [1%positive] (empty_context true true).


(** Two video representations: one disabled at segment 5 and wanted again
    by the consumer, one open at segment 10. *)
Definition catch_up_store : store :=
  <[1%positive := set_cur_seq_no 5 empty_representation]>
    (<[2%positive := set_ctx true (set_cur_seq_no 10 empty_representation)]> ∅).

(** A VOD presentation with two template+duration representations: a video
    whose parser is closed and an audio whose parser is open. *)
Definition seek_pair_store : store :=
  <[1%positive := template_rep]> (<[2%positive := set_ctx true template_rep]> ∅).

Definition seek_pair_context : DASHContext :=
  set_c_videos [1%positive] (set_c_audios [2%positive] (empty_context true true)).

(** A VOD presentation whose two representations are both discarded: a
    template+duration video and a timeline audio, parsers closed. *)
Definition closed_pair_store : store :=
  <[1%positive := template_rep]> (<[2%positive := discontinuity_rep]> ∅).

Definition closed_pair_context : DASHContext :=
  set_c_videos [1%positive] (set_c_audios [2%positive] (empty_context true true)).

(** Two template+duration representations with open parsers, video and
    audio. *)
Definition open_pair_store : store :=
  <[1%positive := set_ctx true template_rep]> (<[2%positive := set_ctx true template_rep]> ∅).

(** A VOD presentation with one single-fragment video whose parser is open,
    and an inner parser that reports seeking as not supported. *)
Definition single_fragment_store : store :=
  <[1%positive :=
      set_ctx true
        (set_fragments [{| frag_url_offset := 0; frag_size := -1; frag_url := "media.mp4" |}]
           empty_representation)]> ∅.

Definition single_fragment_context : DASHContext :=
  set_c_videos [1%positive] (empty_context true true).

Definition enosys_seek_frame (w : unit) (pls : representation) (ts flags : Z)
    : unit * representation * Z := (w, pls, AVERROR_ENOSYS).

(** A stream that cannot be reopened. *)
Definition reopen_unreachable (w : unit) (pls : representation) : unit * representation * Z :=
  (w, pls, -5).
(** ** The refresh controller: refresh_manifest

    parse_manifest as a whole (fetching and reading the XML) is a parameter:
    called on the context with its lists cleared, it returns the context as
    the parse leaves it (base_url, the new lists, the period and the MPD
    attributes), the store with the representations it allocated, and its
    result code.  av_cmp_q is libavutil's comparison of rationals.  [now] is
    the clock reading calc_max_seg_no uses. *)

(** [(src_len != dest_len) || strncmp(src, dest, src_len)] for two C
    strings: they differ. *)
Definition strings_differ (a b : string) : bool := negb (String.eqb a b).

Definition both_differ (a b : option string) : bool :=
  match a, b with
  | Some x, Some y => strings_differ x y
  | _, _ => false
  end.

(** [!!a != !!b] *)
Definition presence_differs (a b : option string) : bool :=
  negb (Bool.eqb (bool_decide (is_Some a)) (bool_decide (is_Some b))).

(** [!strncmp(a, b, n)]: the first [n] characters agree. *)
Definition strncmp_eq (a b : string) (n : Z) : bool :=
  String.eqb (substring 0 (Z.to_nat n) a) (substring 0 (Z.to_nat n) b).

(** The test of the inner [for (j ...)] loop of refresh_manifest. *)
Definition same_id (new cur : representation) : bool :=
  match rep_id new, rep_id cur with
  | Some a, Some b => (id_length new =? id_length cur) && strncmp_eq a b (id_length cur)
  | _, _ => false
  end.

(** The inner loop: the first representation of the new list with the
    driven representation's id. *)
Fixpoint find_representation (h : store) (reps : list rep_ptr) (cur : representation)
    : option rep_ptr :=
  match reps with
  | [] => None
  | q :: reps' =>
      match h !! q with
      | Some rq => if same_id rq cur then Some q else find_representation h reps' cur
      | None => find_representation h reps' cur
      end
  end.

Definition move_init_section (rep_src rep_dest : representation)
    : representation * representation :=
  let rep_dest := set_init_loaded false rep_dest in
  let rep_dest := set_init_sec_buf (init_sec_buf rep_src) rep_dest in
  let rep_dest := set_init_sec_buf_read_offset 0 rep_dest in
  let rep_dest := set_init_sec_buf_size (init_sec_buf_size rep_src) rep_dest in
  let rep_dest := set_init_sec_data_len (init_sec_data_len rep_src) rep_dest in
  let rep_dest := set_init_section (init_section rep_src) rep_dest in
  (set_init_section None rep_src, rep_dest).

Definition set_representation_period (c : DASHContext) (rep : representation)
    : representation :=
  set_period_media_presentation_duration (c_media_presentation_duration c)
    (set_period_duration (c_period_duration c) (set_period_start (c_period_start c) rep)).

Definition move_audio_params (rep_src rep_dest : representation)
    : Z * representation * representation :=
  if both_differ (codecs rep_src) (codecs rep_dest) then
    (AVERROR_INPUT_CHANGED, set_codecs None rep_src, set_codecs (codecs rep_src) rep_dest)
  else if presence_differs (codecs rep_src) (codecs rep_dest) then
    (AVERROR_INPUT_CHANGED, rep_src, rep_dest)
  else (0, rep_src, rep_dest).

Section Refresh.

Variable world : Type.
Variable parse_manifest :
  world -> DASHContext -> store -> Z -> world * DASHContext * store * Z.
Variable av_cmp_q : Z * Z -> Z * Z -> Z.
Variable now : Z.

Definition move_timelines (rep_src rep_dest : representation) (c : DASHContext)
    : representation * representation :=
  let rep_dest := set_timelines (timelines rep_src) rep_dest in
  let rep_dest := set_first_seq_no (first_seq_no rep_src) rep_dest in
  let rep_dest := set_last_seq_no (calc_max_seg_no now rep_dest c) rep_dest in
  let rep_dest := set_cur_seq_no (cur_seq_no rep_src) rep_dest in
  let rep_dest := set_cur_timestamp (cur_timestamp rep_src) rep_dest in
  (set_timelines [] rep_src, rep_dest).

(** free_fragment_list empties the destination's list before the two start
    numbers are compared, so [rep_dest->n_fragments] is 0 there. *)
Definition move_segments (rep_src rep_dest : representation) (c : DASHContext)
    : representation * representation :=
  let rep_dest := set_fragments [] rep_dest in
  let rep_dest :=
    if add64 (start_number rep_dest) (n_fragments rep_dest) <? start_number rep_src
    then set_cur_seq_no 0 rep_dest
    else set_cur_seq_no
           (add64 (cur_seq_no rep_dest) (sub64 (start_number rep_src) (start_number rep_dest)))
           rep_dest in
  let rep_dest := set_fragments (fragments rep_src) rep_dest in
  let rep_dest := set_last_seq_no (calc_max_seg_no now rep_dest c) rep_dest in
  let rep_dest := set_cur_timestamp (cur_timestamp rep_src) rep_dest in
  (set_fragments [] rep_src, rep_dest).

Definition move_video_params (rep_src rep_dest : representation)
    : Z * representation * representation :=
  if negb (width rep_src =? width rep_dest) || negb (height rep_src =? height rep_dest) then
    (AVERROR_INPUT_CHANGED, rep_src,
     set_height (height rep_src) (set_width (width rep_src) rep_dest))
  else if negb (av_cmp_q (framerate rep_src) (framerate rep_dest) =? 0) then
    (AVERROR_INPUT_CHANGED, rep_src, set_framerate (framerate rep_src) rep_dest)
  else if both_differ (codecs rep_src) (codecs rep_dest) then
    (AVERROR_INPUT_CHANGED, set_codecs None rep_src, set_codecs (codecs rep_src) rep_dest)
  else if both_differ (scantype rep_src) (scantype rep_dest) then
    (AVERROR_INPUT_CHANGED, set_scantype None rep_src,
     set_scantype (scantype rep_src) rep_dest)
  else if presence_differs (codecs rep_src) (codecs rep_dest) then
    (AVERROR_INPUT_CHANGED, rep_src, rep_dest)
  else if presence_differs (scantype rep_src) (scantype rep_dest) then
    (AVERROR_INPUT_CHANGED, rep_src, rep_dest)
  else (0, rep_src, rep_dest).

(** The splice of the matching new representation [ccur] into the driven
    one [cur], after the compatibility check: the timeline part, the
    fragment-list part and the period binding.  [narrow] is the conversion
    to the type of [newSeqNo]: int64_t for video, int for audio. *)
Definition splice_representation (narrow : Z -> Z) (c : DASHContext)
    (ccur cur : representation) : representation * representation :=
  let '(ccur, cur) :=
    if negb (n_timelines cur =? 0) then
      if period_start cur <? c_period_start c then
        let ccur := set_cur_seq_no (first_seq_no ccur) ccur in
        let '(ccur, cur) := move_timelines ccur cur c in
        move_init_section ccur cur
      else
        let currentTime :=
          div64 (get_segment_start_time_based_on_timeline c cur (cur_seq_no cur))
                (fragment_timescale cur) in
        let newSeqNo :=
          narrow (calc_next_seg_no_from_timelines c ccur
                    (sub64 (mul64 currentTime (fragment_timescale ccur)) 1)) in
        if 0 <=? newSeqNo
        then move_timelines (set_cur_seq_no newSeqNo ccur) cur c
        else (ccur, cur)
    else (ccur, cur) in
  let '(ccur, cur) :=
    if negb (n_fragments cur =? 0) then
      let '(ccur, cur) := move_segments ccur cur c in
      if period_start cur <? c_period_start c then
        let '(ccur, cur) := move_init_section ccur cur in
        (ccur, set_cur_seq_no (start_number ccur) cur)
      else (ccur, cur)
    else (ccur, cur) in
  (ccur, set_representation_period c cur).

(** How one of the two loops over the old lists is left. *)
Inductive refresh_exit :=
| Refresh_return (ret : Z)   (* [return] from inside the loop *)
| Refresh_finish (ret : Z)   (* [goto finish] *)
| Refresh_done.              (* the loop ran to its end *)

(** The loop over the old list [old] of one kind; [new] is the list of
    that kind the parse produced, [params] the compatibility check. *)
Fixpoint refresh_list
    (params : representation -> representation -> Z * representation * representation)
    (narrow : Z -> Z) (c : DASHContext) (new : list rep_ptr) (target_rep : rep_ptr)
    (old : list rep_ptr) (h : store) : store * refresh_exit :=
  match old with
  | [] => (h, Refresh_done)
  | cur_ptr :: old' =>
      if negb (bool_decide (cur_ptr = target_rep))
      then refresh_list params narrow c new target_rep old' h
      else
        match h !! cur_ptr with
        | None => refresh_list params narrow c new target_rep old' h
        | Some cur =>
            match find_representation h new cur with
            | None => (h, Refresh_return AVERROR_INVALIDDATA)
            | Some ccur_ptr =>
                match h !! ccur_ptr with
                | None => (h, Refresh_return AVERROR_INVALIDDATA)
                | Some ccur =>
                    let '(ret, ccur, cur) := params ccur cur in
                    if negb (ret =? 0)
                    then (<[cur_ptr := cur]> (<[ccur_ptr := ccur]> h), Refresh_finish ret)
                    else
                      let '(ccur, cur) := splice_representation narrow c ccur cur in
                      refresh_list params narrow c new target_rep old'
                        (<[cur_ptr := cur]> (<[ccur_ptr := ccur]> h))
                end
            end
        end
  end.

(** free_video_list and its siblings: every representation of the list is
    freed. *)
Definition free_list (reps : list rep_ptr) (h : store) : store :=
  fold_left (fun h q => delete q h) reps h.

(** The block under [finish:], given the snapshot taken on entry. *)
Definition refresh_manifest_finish (base_url : option string)
    (videos audios subtitles : list rep_ptr) (c : DASHContext) (h : store)
    : DASHContext * store :=
  let c := match c_base_url c with
           | Some _ => c
           | None => set_c_base_url base_url c
           end in
  let h := free_list (c_subtitles c) h in
  let h := free_list (c_audios c) h in
  let h := free_list (c_videos c) h in
  (set_c_videos videos (set_c_audios audios (set_c_subtitles subtitles c)), h).

Definition refresh_manifest (w : world) (c : DASHContext) (h : store) (target_rep : rep_ptr)
    : world * DASHContext * store * Z :=
  let videos := c_videos c in
  let audios := c_audios c in
  let subtitles := c_subtitles c in
  let base_url := c_base_url c in
  let curr_timepoint :=
    match h !! target_rep with
    | Some pls => get_curr_timepoint c pls
    | None => 0
    end in
  let c := set_c_subtitles [] (set_c_audios [] (set_c_videos [] (set_c_base_url None c))) in
  let '(w, c, h, ret) := parse_manifest w c h curr_timepoint in
  let finish (c : DASHContext) (h : store) (ret : Z) :=
    let '(c, h) := refresh_manifest_finish base_url videos audios subtitles c h in
    (w, c, h, ret) in
  if negb (ret =? 0) then finish c h ret
  else
    match refresh_list move_video_params (fun z => z) c (c_videos c) target_rep videos h with
    | (h, Refresh_return ret) => (w, c, h, ret)
    | (h, Refresh_finish ret) => finish c h ret
    | (h, Refresh_done) =>
        match refresh_list move_audio_params to_int32 c (c_audios c) target_rep audios h with
        | (h, Refresh_return ret) => (w, c, h, ret)
        | (h, Refresh_finish ret) => finish c h ret
        | (h, Refresh_done) => finish c h 0
        end
    end.

End Refresh.

(** Rationals compared by their components, for the examples. *)
Definition cmp_q_components (a b : Z * Z) : Z :=
  if (fst a =? fst b) && (snd a =? snd b) then 0 else 1.

(** A live presentation driving one video representation with id "v1". *)
Definition refresh_store : store :=
  <[1%positive := set_rep_id (Some "v1"%string) (set_id_length 2 discontinuity_rep)]> ∅.

Definition refresh_context : DASHContext :=
  set_c_base_url (Some "http://a/live.mpd"%string)
    (set_c_videos [1%positive] (live_context true true)).

(** Three outcomes of a refresh parse: the manifest cannot be opened (the
    context is left as cleared); the manifest, now served from another
    location, is too large (base_url is already set when the parse fails);
    the parse succeeds with a single video representation whose id is
    "v2". *)
Definition parse_unreachable (w : unit) (c : DASHContext) (h : store) (curr_timepoint : Z)
    : unit * DASHContext * store * Z := (w, c, h, -5).

Definition parse_too_large (w : unit) (c : DASHContext) (h : store) (curr_timepoint : Z)
    : unit * DASHContext * store * Z :=
  (w, set_c_base_url (Some "http://b/live.mpd"%string) c, h, AVERROR_INVALIDDATA).

Definition parse_other_id (w : unit) (c : DASHContext) (h : store) (curr_timepoint : Z)
    : unit * DASHContext * store * Z :=
  (w,
   set_c_videos [2%positive] (set_c_base_url (Some "http://a/live.mpd"%string) c),
   <[2%positive := set_rep_id (Some "v2"%string) (set_id_length 2 discontinuity_rep)]> h,
   0).

(** ** dash_read_packet: the representation to read from

    The three loops that pick, among the representations with an open
    parser, the one with the smallest cur_seq_no and, among equals, the
    smallest cur_timestamp. *)

(** The locals [cur], [mseg] and [mints]. *)
Record packet_choice := {
  choice_cur : option rep_ptr;
  choice_mseg : Z;
  choice_mints : Z
}.

(** The body of each of the three loops. *)
Definition dash_read_packet_consider (h : store) (st : packet_choice) (p : rep_ptr)
    : packet_choice :=
  match h !! p with
  | None => st
  | Some rep =>
      if negb (ctx rep) then st
      else if negb (bool_decide (is_Some (choice_cur st)))
              || (cur_seq_no rep <? choice_mseg st)
              || ((cur_seq_no rep =? choice_mseg st) && (cur_timestamp rep <? choice_mints st))
      then {| choice_cur := Some p; choice_mseg := cur_seq_no rep;
              choice_mints := cur_timestamp rep |}
      else st
  end.

(** The representation dash_read_packet reads from; [None] when it
    returns AVERROR_INVALIDDATA because no representation is open. *)
Definition dash_read_packet_select (c : DASHContext) (h : store) : option rep_ptr :=
  let st := {| choice_cur := None; choice_mseg := 0; choice_mints := 0 |} in
  let st := fold_left (dash_read_packet_consider h) (c_videos c) st in
  let st := fold_left (dash_read_packet_consider h) (c_audios c) st in
  let st := fold_left (dash_read_packet_consider h) (c_subtitles c) st in
  choice_cur st.

(** The order of the selection: sequence number first, then timestamp. *)
Definition packet_key_le (a b : representation) : Prop :=
  cur_seq_no a < cur_seq_no b \/
  (cur_seq_no a = cur_seq_no b /\ cur_timestamp a <= cur_timestamp b).

(** The node parse_manifest goes on with: the match when there is one,
    else the default. *)
Definition chosen_period_node (pc : period_choice) : option nat :=
  match matching_period_node pc with
  | Some m => Some m
  | None => default_period_node pc
  end.

(** The context agrees with the chosen Period; it is the context [c0] the
    walk started from as long as no Period was chosen. *)
Definition period_fields_invariant (c0 : DASHContext) (seen : list period)
    (st : DASHContext * period_choice) : Prop :=
  match chosen_period_node (snd st) with
  | None => fst st = c0
  | Some i =>
      exists p, seen !! i = Some p /\
        c_period_start (fst st) = period_start_sec p /\
        c_period_duration (fst st) = period_duration_sec p /\
        (0 < period_start_sec p ->
         c_media_presentation_duration (fst st) = period_duration_sec p)
  end.

(** ** Examples for the byte stream *)

(** A fetcher that delivers every byte it is asked for. *)
Definition full_avio_read (w : unit) (v : representation) (buf_size : Z) : unit * Z :=
  (w, buf_size).

(** A representation reading a byte range of 100 bytes, 90 of them
    delivered. *)
Definition ranged_rep : representation :=
  set_cur_seg_offset 90
    (set_cur_seg_size 100
       (set_cur_seg (Some {| frag_url_offset := 0; frag_size := 100; frag_url := "media.mp4" |})
          (set_input true (set_ctx true empty_representation)))).

(** The bytes the init-section push of read_data copies to the caller's
    buffer, [memcpy(buf, v->init_sec_buf, copy_size)]: the source address is
    the start of the cached section, whatever the read offset. *)
Definition read_data_init_copy (v : representation) (buf_size : Z) : list Z :=
  let copy_size :=
    to_int32 (ffmin_uint32_int
                (usub32 (init_sec_data_len v) (init_sec_buf_read_offset v)) buf_size) in
  take (Z.to_nat copy_size) (init_sec_buf v).

(** A representation with an init section of 10 bytes, 4 of them pushed. *)
Definition init_pending_rep : representation :=
  set_init_sec_buf_read_offset 4
    (set_init_sec_data_len 10
       (set_init_sec_buf [10; 11; 12; 13; 14; 15; 16; 17; 18; 19] (streaming_rep false))).

(** A refresh parse that succeeds with a single video representation whose
    id is "v1", the id of the representation [refresh_context] drives. *)
Definition parse_same_id (w : unit) (c : DASHContext) (h : store) (curr_timepoint : Z)
    : unit * DASHContext * store * Z :=
  (w,
   set_c_videos [2%positive] (set_c_base_url (Some "http://a/live.mpd"%string) c),
   <[2%positive := set_rep_id (Some "v1"%string) (set_id_length 2 discontinuity_rep)]> h,
   0).

(** ** Notions used to state where a seek lands *)

(** The time at which a timeline ends, for the running time [st] reached
    before it. *)
Fixpoint timeline_end (tls : list timeline) (st : Z) : Z :=
  match tls with
  | [] => st
  | t :: tls' => timeline_end tls' (entry_end st t)
  end.

(** The time at which segment [k] of a timeline ends, counting from 0. *)
Fixpoint segment_end (tls : list timeline) (st k : Z) : Z :=
  match tls with
  | [] => st
  | t :: tls' =>
      if k <=? tl_repeat t then entry_start st t + (k + 1) * tl_duration t
      else segment_end tls' (entry_end st t) (k - tl_repeat t - 1)
  end.

(** A time in ticks of [timescale], in milliseconds. *)
Definition msec_of (timescale ticks : Z) : Z := ticks * 1000 / timescale.

(** ** The next fragment: get_current_fragment

    The interrupt callback and refresh_manifest (here on the driven
    representation alone, returning it and the context as the refresh
    leaves them) are parameters, as is the expansion of the URL template
    for a segment number and start time.  The clock is read off the world:
    two readings with no call in between agree.  Allocation is taken to
    succeed.  The two [while] loops refresh as long as the manifest has
    nothing new, so they take fuel. *)

(** What get_current_fragment hands back: its result code and [*new_seg],
    with the world, context and representation as it leaves them; or the
    read of [pls->fragments] at a negative index, which the code does not
    guard against. *)
Inductive fragment_result (world : Type) :=
| Fragment_return (w : world) (c : DASHContext) (pls : representation)
    (ret : Z) (new_seg : option fragment)
| Fragment_out_of_bounds.

Arguments Fragment_return {world} w c pls ret new_seg.
Arguments Fragment_out_of_bounds {world}.

(** [pls->timelines || pls->fragments] *)
Definition has_lists (pls : representation) : bool :=
  negb (n_timelines pls =? 0) || negb (n_fragments pls =? 0).

Section GetCurrentFragment.

Variable world : Type.
Variable ff_check_interrupt : world -> world * bool.
Variable refresh_manifest :
  world -> DASHContext -> representation -> world * DASHContext * representation * Z.
Variable get_current_time_in_sec : world -> Z.
Variable template_url : representation -> Z -> Z -> string.

(** How the first [while] loop is left: by a [return], or past its end. *)
Inductive list_loop_exit :=
| List_return (r : fragment_result world)
| List_after (w : world) (c : DASHContext) (pls : representation).

(** [while (!ff_check_interrupt(...) && pls->n_fragments > 0)] *)
Fixpoint get_current_fragment_list (fuel : nat) (w : world) (c : DASHContext)
    (pls : representation) : option list_loop_exit :=
  match fuel with
  | O => None
  | S fuel' =>
      let '(w, interrupted) := ff_check_interrupt w in
      if interrupted || negb (0 <? n_fragments pls) then Some (List_after w c pls)
      else if cur_seq_no pls <? n_fragments pls then
        if cur_seq_no pls <? 0 then Some (List_return Fragment_out_of_bounds)
        else
          match fragments pls !! Z.to_nat (cur_seq_no pls) with
          | Some seg_ptr => Some (List_return (Fragment_return w c pls 0 (Some seg_ptr)))
          | None => Some (List_return Fragment_out_of_bounds)
          end
      else if c_is_live c then
        let '(w, c, pls, err) := refresh_manifest w c pls in
        if negb (err =? 0) then Some (List_return (Fragment_return w c pls err None))
        else get_current_fragment_list fuel' w c pls
      else Some (List_after w c pls)
  end.

(** [while (!ff_check_interrupt(...) && (pls->cur_seq_no > max_seq_no))];
    the result code is that of a failed refresh, else 0. *)
Fixpoint get_current_fragment_wait (fuel : nat) (w : world) (c : DASHContext)
    (pls : representation) (max_seq_no : Z)
    : option (world * DASHContext * representation * Z) :=
  match fuel with
  | O => None
  | S fuel' =>
      let '(w, interrupted) := ff_check_interrupt w in
      if interrupted || negb (max_seq_no <? cur_seq_no pls) then Some (w, c, pls, 0)
      else
        let '(w, c, pls, err) := refresh_manifest w c pls in
        if negb (err =? 0) then Some (w, c, pls, err)
        else get_current_fragment_wait fuel' w c pls
               (calc_max_seg_no (get_current_time_in_sec w) pls c)
  end.

(** The fragment made from the URL template: its size is not known. *)
Definition template_fragment (c : DASHContext) (pls : representation) : fragment :=
  {| frag_url_offset := 0;
     frag_size := -1;
     frag_url := template_url pls (cur_seq_no pls)
                   (get_segment_start_time_based_on_timeline c pls (cur_seq_no pls)) |}.

Definition get_current_fragment (fuel : nat) (w : world) (c : DASHContext)
    (pls : representation) : option (fragment_result world) :=
  match get_current_fragment_list fuel w c pls with
  | None => None
  | Some (List_return r) => Some r
  | Some (List_after w c pls) =>
      if c_is_live c then
        let min_seq_no := calc_min_seg_no (get_current_time_in_sec w) c pls in
        let max_seq_no := calc_max_seg_no (get_current_time_in_sec w) pls c in
        let '(w, c, pls, err) :=
          if has_lists pls then refresh_manifest w c pls else (w, c, pls, 0) in
        if negb (err =? 0) then Some (Fragment_return w c pls err None)
        else
          let waited :=
            if cur_seq_no pls <=? min_seq_no then
              Some (w, c,
                    set_cur_seq_no (calc_cur_seg_no (get_current_time_in_sec w) c pls) pls, 0)
            else if (max_seq_no <? cur_seq_no pls) && has_lists pls then
              get_current_fragment_wait fuel w c pls max_seq_no
            else Some (w, c, pls, 0) in
          match waited with
          | None => None
          | Some (w, c, pls, err) =>
              if negb (err =? 0) then Some (Fragment_return w c pls err None)
              else Some (Fragment_return w c pls 0 (Some (template_fragment c pls)))
          end
      else if cur_seq_no pls <=? last_seq_no pls then
        Some (Fragment_return w c pls 0 (Some (template_fragment c pls)))
      else Some (Fragment_return w c pls 0 None)
  end.

(** The call as read_data makes it, for the runs that return within the
    fuel and stay within [pls->fragments]; on the others it stands for an
    aborted read. *)
Definition get_current_fragment_run (fuel : nat) (w : world) (c : DASHContext)
    (pls : representation) : world * DASHContext * representation * Z * option fragment :=
  match get_current_fragment fuel w c pls with
  | Some (Fragment_return w c pls ret new_seg) => (w, c, pls, ret, new_seg)
  | _ => (w, c, pls, AVERROR_EXIT, None)
  end.

End GetCurrentFragment.

(** A refresh that finds nothing new, a clock that stands still and a template without
    identifiers. *)
Definition idle_refresh (w : unit) (c : DASHContext) (pls : representation)
    : unit * DASHContext * representation * Z := (w, c, pls, 0).
Definition epoch_clock (w : unit) : Z := 0.
Definition constant_url (pls : representation) (number time : Z) : string := "segment.m4s".

(** A VOD template representation past its last segment, with the fetcher
    closed. *)
Definition finished_rep : representation :=
  set_cur_seq_no 10 (set_last_seq_no 9 template_rep).

(** ** Opening a fragment and loading the init section

    The probe of the resource size (ffurl_open_whitelist, ffurl_seek with
    AVSEEK_SIZE, ffurl_close), open_url, avio_size and av_fast_malloc are
    parameters: the probe returns the size ffurl_seek reports, or nothing
    when the URL cannot be opened; open_url returns whether the fetcher
    handle is open afterwards and its result code; av_fast_malloc returns
    the new buffer size for the old one and the size asked for.  The
    fragment is reached through a pointer in the C code; here open_input
    returns it with the size it wrote, and the caller stores it back.  The
    bytes of the init section are not modelled, only their count. *)

Definition max_init_section_size : Z := 1024 * 1024.

Section OpenInput.

Variable world : Type.
Variable ffurl_probe_size : world -> DASHContext -> fragment -> world * option Z.
Variable open_url : world -> DASHContext -> representation -> fragment -> world * bool * Z.
Variable avio_size : world -> representation -> world * Z.
Variable av_fast_malloc : Z -> Z -> Z.
Variable avio_read : world -> representation -> Z -> world * Z.

Definition open_input (w : world) (c : DASHContext) (pls : representation) (seg : fragment)
    : world * representation * fragment * Z :=
  let '(w, probed) := ffurl_probe_size w c seg in
  let size := match probed with Some size => size | None => -1 end in
  let '(w, opened, ret) := open_url w c pls seg in
  (w,
   set_cur_seg_size size (set_cur_seg_offset 0 (set_input opened pls)),
   {| frag_url_offset := frag_url_offset seg; frag_size := size; frag_url := frag_url seg |},
   ret).

Definition update_init_section (w : world) (c : DASHContext) (pls : representation)
    : world * representation * Z :=
  match init_section pls with
  | None => (w, pls, 0)
  | Some sec =>
      if init_loaded pls then (w, pls, 0)
      else
        let '(w, pls, sec, ret) := open_input w c pls sec in
        let pls := set_init_section (Some sec) pls in
        if ret <? 0 then (w, pls, ret)
        else
          let '(w, sec_size) :=
            if 0 <=? frag_size sec then (w, frag_size sec)
            else
              let '(w, urlsize) := avio_size w pls in
              if 0 <=? urlsize then (w, urlsize) else (w, max_init_section_size) in
          let sec_size := Z.min sec_size max_init_section_size in
          let pls :=
            set_init_sec_buf_size (av_fast_malloc (init_sec_buf_size pls) sec_size) pls in
          let '(w, pls, ret) :=
            read_from_url world avio_read w pls sec (to_int32 (init_sec_buf_size pls)) in
          let pls := set_input false pls in
          if ret <? 0 then (w, pls, ret)
          else
            (w,
             set_init_loaded true
               (set_init_sec_buf_read_offset 0 (set_init_sec_data_len (to_uint32 ret) pls)),
             0)
  end.

End OpenInput.

(** A server that holds an init section of 700 bytes, and an allocator that
    returns what it is asked for. *)
Definition probe_700 (w : unit) (c : DASHContext) (seg : fragment) : unit * option Z :=
  (w, Some 700).
Definition open_always (w : unit) (c : DASHContext) (pls : representation) (seg : fragment)
    : unit * bool * Z := (w, true, 0).
Definition size_unknown (w : unit) (pls : representation) : unit * Z := (w, -1).
Definition exact_malloc (old_size min_size : Z) : Z :=
  if min_size <=? old_size then old_size else min_size.

(** A representation with an init section that is not loaded yet. *)
Definition init_rep : representation :=
  set_init_section (Some {| frag_url_offset := 0; frag_size := -1; frag_url := "init.mp4" |})
    template_rep.

(** ** Small helpers: aligned and dash_probe

    av_stristr, libavutil's case-insensitive substring search, is a
    parameter of dash_probe: [av_stristr s1 s2] tells whether it finds
    [s2] in [s1]. *)

(** [((val + 0x3F) >> 6) << 6] on int. *)
Definition aligned (val : Z) : Z :=
  to_int32 (Z.shiftl (Z.shiftr (to_int32 (val + 63)) 6) 6).

Definition AVPROBE_SCORE_MAX : Z := 100.

Section Probe.

Variable av_stristr : string -> string -> bool.

Definition dash_probe (buf : string) : Z :=
  if negb (av_stristr buf "<MPD") then 0
  else if av_stristr buf "dash:profile:isoff-on-demand:2011"
          || av_stristr buf "dash:profile:isoff-live:2011"
          || av_stristr buf "dash:profile:isoff-live:2012"
          || av_stristr buf "dash:profile:isoff-main:2011"
          || av_stristr buf "3GPP:PSS:profile:DASH1"
  then AVPROBE_SCORE_MAX
  else if av_stristr buf "dash:profile" then AVPROBE_SCORE_MAX
  else 0.

End Probe.

(** A substring search, for the examples: [starts_with s pfx] tells whether
    [s] begins with [pfx], [find_substring s needle] whether [needle] occurs
    in [s]. *)
Fixpoint starts_with (s pfx : string) : bool :=
  match pfx with
  | EmptyString => true
  | String c pfx' =>
      match s with
      | EmptyString => false
      | String d s' => Ascii.eqb c d && starts_with s' pfx'
      end
  end.

Fixpoint find_substring (s needle : string) : bool :=
  starts_with s needle ||
  match s with
  | EmptyString => false
  | String _ s' => find_substring s' needle
  end.

(** ** read_data on the modelled fetch functions

    open_input as read_data calls it, on [v->cur_seg]: the fragment it
    wrote the size to is the representation's current one. *)

Section ReadDataFetch.

Variable world : Type.
Variable ffurl_probe_size : world -> DASHContext -> fragment -> world * option Z.
Variable open_url : world -> DASHContext -> representation -> fragment -> world * bool * Z.

Definition open_input_cur_seg (w : world) (c : DASHContext) (v : representation)
    (seg : fragment) : world * representation * Z :=
  let '(w, v, seg, ret) := open_input world ffurl_probe_size open_url w c v seg in
  (w, set_cur_seg (Some seg) v, ret).

End ReadDataFetch.

(** A server on which nothing can be opened. *)
Definition probe_nothing (w : unit) (c : DASHContext) (seg : fragment) : unit * option Z :=
  (w, None).
Definition open_never (w : unit) (c : DASHContext) (pls : representation) (seg : fragment)
    : unit * bool * Z := (w, false, -5).

(** A VOD template representation at segment 8 of 9, with the fetcher
    closed. *)
Definition ending_rep : representation :=
  set_cur_seq_no 8 (set_last_seq_no 9 template_rep).

(** ** dash_read_packet: the read loop

    av_read_frame on the inner parser is a parameter: it returns its result
    code and the packet's pts rescaled to the 90 kHz clock, with the
    representation as the reads it made through read_data left it. *)

Section ReadPacket.

Variable world : Type.
Variable ff_check_interrupt : world -> world * bool.
Variable av_read_frame : world -> representation -> world * representation * Z * Z.
Variable reopen_demux_for_component : world -> representation -> world * representation * Z.

(** [while (!ff_check_interrupt(c->interrupt_callback) && !ret)] on the
    selected representation; the last component tells whether a packet is
    handed to the caller.  [None] when the fuel runs out. *)
Fixpoint dash_read_packet_loop (fuel : nat) (w : world) (cur : representation) (ret : Z)
    : option (world * representation * Z * bool) :=
  match fuel with
  | O => None
  | S fuel' =>
      let '(w, interrupted) := ff_check_interrupt w in
      if interrupted || negb (ret =? 0) then Some (w, cur, ret, false)
      else
        let '(w, cur, ret, timestamp) := av_read_frame w cur in
        if 0 <=? ret then Some (w, set_cur_timestamp timestamp cur, 0, true)
        else if is_restart_needed cur then
          let cur :=
            set_input false (set_init_sec_buf_read_offset 0 (set_cur_seg_offset 0 cur)) in
          let '(w, cur, ret) := reopen_demux_for_component w cur in
          dash_read_packet_loop fuel' w (set_is_restart_needed false cur) ret
        else dash_read_packet_loop fuel' w cur ret
  end.

End ReadPacket.

(** An inner parser that has a packet ready, and a caller that interrupts. *)
Definition ready_read_frame (w : unit) (cur : representation)
    : unit * representation * Z * Z := (w, cur, 0, 90000).
Definition interrupting_check (w : unit) : unit * bool := (w, true).

(** An inner parser that has run out of data at the end of a segment, and
    a stream that cannot be reopened. *)
Definition exhausted_read_frame (w : unit) (cur : representation)
    : unit * representation * Z * Z := (w, set_is_restart_needed true cur, AVERROR_EOF, 0).
Definition reopen_fails (w : unit) (pls : representation) : unit * representation * Z :=
  (w, pls, AVERROR_EOF).

(** [lia] after unfolding the bounds of the integer types. *)
Ltac int_lia := unfold INT64_MIN, INT64_MAX, UINT64_MOD, UINT32_MOD in *; lia.
Ltac int_nia := unfold INT64_MIN, INT64_MAX, UINT64_MOD, UINT32_MOD in *; nia.

(** * Theorems *)

(** ** Machine integers *)

Lemma to_int64_range z : INT64_MIN <= to_int64 z <= INT64_MAX.
Proof.
  unfold to_int64, INT64_MIN, INT64_MAX, UINT64_MOD.
  pose proof (Z.mod_pos_bound (z - -9223372036854775808) 18446744073709551616 eq_refl). lia.
Qed.

Lemma to_int64_id z : INT64_MIN <= z <= INT64_MAX -> to_int64 z = z.
Proof.
  unfold to_int64, INT64_MIN, INT64_MAX, UINT64_MOD. intros H.
  rewrite Z.mod_small; lia.
Qed.

Lemma to_uint64_id z : 0 <= z < UINT64_MOD -> to_uint64 z = z.
Proof. unfold to_uint64. intros H. apply Z.mod_small; lia. Qed.

Lemma add64_id a b : INT64_MIN <= a + b <= INT64_MAX -> add64 a b = a + b.
Proof. apply to_int64_id. Qed.

Lemma sub64_id a b : INT64_MIN <= a - b <= INT64_MAX -> sub64 a b = a - b.
Proof. apply to_int64_id. Qed.

Lemma mul64_id a b : INT64_MIN <= a * b <= INT64_MAX -> mul64 a b = a * b.
Proof. apply to_int64_id. Qed.

(** ** The reference walk and get_segment_start_time_based_on_timeline *)

Lemma reference_repetition_returned d target s v :
  ws_returned s = Some v -> reference_repetition d target s = s.
Proof. unfold reference_repetition. now intros ->. Qed.

Lemma reference_repetitions_returned n d target s v :
  ws_returned s = Some v -> Nat.iter n (reference_repetition d target) s = s.
Proof.
  intros H. induction n as [|n IH]; simpl; [reflexivity|].
  rewrite IH. eapply reference_repetition_returned; eassumption.
Qed.

Lemma reference_entries_returned target entries s v :
  ws_returned s = Some v -> fold_left (reference_entry target) entries s = s.
Proof.
  intros H. induction entries as [|e entries IH]; simpl; [reflexivity|].
  replace (reference_entry target s e) with s; [exact IH|].
  unfold reference_entry. now rewrite H.
Qed.

(** The inner loop of the C function and the iterated repetition step agree. *)
Lemma get_segment_start_time_repeat_reference n d target st num :
  Nat.iter n (reference_repetition d target)
    {| ws_start_time := st; ws_num := num; ws_returned := None |} =
  match get_segment_start_time_repeat n d target st num with
  | Goto_finish st' num' =>
      {| ws_start_time := st'; ws_num := num'; ws_returned := Some st' |}
  | Fallthrough st' num' =>
      {| ws_start_time := st'; ws_num := num'; ws_returned := None |}
  end.
Proof.
  revert st num. induction n as [|n IH]; intros st num; [reflexivity|].
  rewrite Nat.iter_succ_r. cbn [get_segment_start_time_repeat].
  unfold reference_repetition at 2. cbn [ws_returned ws_num ws_start_time].
  destruct (add64 num 1 =? target) eqn:E.
  - erewrite reference_repetitions_returned; reflexivity.
  - apply IH.
Qed.

Lemma get_segment_start_time_walk_reference entries target st num :
  walk_value (fold_left (reference_entry target) entries
                {| ws_start_time := st; ws_num := num; ws_returned := None |}) =
  get_segment_start_time_walk entries target st num.
Proof.
  revert st num. induction entries as [|e entries IH]; intros st num; [reflexivity|].
  cbn [fold_left get_segment_start_time_walk].
  unfold reference_entry at 2. cbn [ws_returned ws_num ws_start_time].
  destruct (num =? target) eqn:Enum.
  { erewrite reference_entries_returned; reflexivity. }
  destruct (tl_repeat e =? -1) eqn:Erep.
  { erewrite reference_entries_returned; reflexivity. }
  rewrite get_segment_start_time_repeat_reference.
  destruct (get_segment_start_time_repeat _ _ _ _ _) as [st' num'|st' num'];
    cbn [ws_returned ws_num ws_start_time].
  - erewrite reference_entries_returned; reflexivity.
  - apply IH.
Qed.

(** C1.  get_segment_start_time_based_on_timeline computes the reference walk
    of the specification: entries are scanned in order with a running start
    time and a counter starting at 0, a positive entry start time overrides
    the running one, the running start time is returned when the counter
    reaches the target (each repetition adds the entry's duration), and a
    fill-period entry ([repeat = -1]) met before the match yields
    [duration * target].  The target walked is the sequence number after the
    offset correction the function applies.  On the discontinuity timeline
    S{t=0,d=2,r=1}, S{t=10,d=2,r=0} the targets 0, 1, 2 give 0, 2, 10, with
    the correction on or off. *)
Theorem get_segment_start_time_is_reference_walk :
  (forall (c : DASHContext) (pls : representation) (target : Z),
     get_segment_start_time_based_on_timeline c pls target =
     walk_value (reference_walk (timelines pls)
       (if c_use_timeline_segment_offset_correction c && (first_seq_no pls <=? target)
        then sub64 target (first_seq_no pls) else target))) /\
  (forall use_correction fetch : bool,
     let c := empty_context use_correction fetch in
     get_segment_start_time_based_on_timeline c discontinuity_rep 0 = 0 /\
     get_segment_start_time_based_on_timeline c discontinuity_rep 1 = 2 /\
     get_segment_start_time_based_on_timeline c discontinuity_rep 2 = 10).
Proof.
  split.
  - intros c pls target. unfold get_segment_start_time_based_on_timeline, reference_walk.
    rewrite get_segment_start_time_walk_reference.
    unfold n_timelines. destruct (timelines pls) as [|e entries]; reflexivity.
  - intros [] fetch; repeat split; vm_compute; reflexivity.
Qed.

(** ** Round trip between sequence numbers and start times *)

Lemma timeline_wf_bound tls st : timeline_wf tls st -> st <= INT64_MAX.
Proof.
  revert st. induction tls as [|t tls IH]; intros st; cbn [timeline_wf]; [tauto|].
  intros (Hd & Hr & Hst & Hwf). apply IH in Hwf. unfold entry_end in Hwf. nia.
Qed.

Lemma seg_count_nonneg tls st : timeline_wf tls st -> 0 <= seg_count tls.
Proof.
  revert st. induction tls as [|t tls IH]; intros st; cbn [timeline_wf seg_count]; [lia|].
  intros (Hd & Hr & Hst & Hwf). apply IH in Hwf. lia.
Qed.

Lemma get_segment_start_time_repeat_spec n d target st num :
  INT64_MIN <= st -> st + Z.of_nat n * d <= INT64_MAX -> 0 < d ->
  INT64_MIN <= num -> num + Z.of_nat n <= INT64_MAX ->
  get_segment_start_time_repeat n d target st num =
  if (num <? target) && (target <=? num + Z.of_nat n)
  then Goto_finish (st + (target - num - 1) * d) target
  else Fallthrough (st + Z.of_nat n * d) (num + Z.of_nat n).
Proof.
  revert st num. induction n as [|n IH]; intros st num Hst Hend Hd Hnum Hnend.
  - cbn [get_segment_start_time_repeat]. change (Z.of_nat 0) with 0.
    destruct (num <? target) eqn:E1, (target <=? num + 0) eqn:E2; cbn [andb];
      try (f_equal; int_lia); int_lia.
  - cbn [get_segment_start_time_repeat]. rewrite Nat2Z.inj_succ in *.
    rewrite (add64_id num 1) by int_lia.
    destruct (num + 1 =? target) eqn:E.
    + apply Z.eqb_eq in E. subst target.
      replace (num <? num + 1) with true by lia.
      replace (num + 1 <=? num + Z.succ (Z.of_nat n)) with true by lia.
      cbn [andb]. f_equal. ring.
    + apply Z.eqb_neq in E.
      rewrite (add64_id st d) by int_nia.
      rewrite IH by int_nia.
      destruct (num + 1 <? target) eqn:E1, (target <=? num + 1 + Z.of_nat n) eqn:E2;
        destruct (num <? target) eqn:E3, (target <=? num + Z.succ (Z.of_nat n)) eqn:E4;
        cbn [andb]; try int_lia. all: f_equal. all: try int_lia. 
Qed.

Lemma calc_next_seg_no_repeat_fallthrough n d q st num :
  INT64_MIN <= st -> st + Z.of_nat n * d <= INT64_MAX -> 0 < d ->
  INT64_MIN <= num -> num + Z.of_nat n <= INT64_MAX ->
  st + Z.of_nat n * d <= q + d ->
  calc_next_seg_no_repeat n d q st num = Fallthrough (st + Z.of_nat n * d) (num + Z.of_nat n).
Proof.
  revert st num. induction n as [|n IH]; intros st num Hst Hend Hd Hnum Hnend Hq.
  - cbn [calc_next_seg_no_repeat]. change (Z.of_nat 0) with 0. f_equal; lia.
  - cbn [calc_next_seg_no_repeat]. rewrite Nat2Z.inj_succ in *.
    rewrite (add64_id num 1) by int_lia.
    replace (q <? st) with false by nia.
    rewrite (add64_id st d) by int_nia.
    rewrite IH by int_nia. f_equal; lia.
Qed.

Lemma calc_next_seg_no_repeat_finish n d q st num m :
  INT64_MIN <= st -> st + Z.of_nat n * d <= INT64_MAX -> 0 < d ->
  INT64_MIN <= num -> num + Z.of_nat n <= INT64_MAX ->
  0 <= m < Z.of_nat n -> st + m * d - d <= q < st + m * d ->
  exists st', calc_next_seg_no_repeat n d q st num = Goto_finish st' (num + m + 1).
Proof.
  revert st num m. induction n as [|n IH]; intros st num m Hst Hend Hd Hnum Hnend Hm Hq.
  - lia.
  - cbn [calc_next_seg_no_repeat]. rewrite Nat2Z.inj_succ in *.
    rewrite (add64_id num 1) by int_lia.
    destruct (q <? st) eqn:E.
    + assert (m = 0) by nia. subst m. eexists. f_equal. lia.
    + assert (1 <= m) by nia.
      rewrite (add64_id st d) by int_nia.
      destruct (IH (st + d) (num + 1) (m - 1)) as [st' Hst']; try int_nia.
      exists st'. rewrite Hst'. f_equal. lia.
Qed.
Lemma calc_next_seg_no_walk_before tls q st num :
  timeline_wf tls st -> q < st ->
  calc_next_seg_no_walk tls q st num = if 0 <? seg_count tls then Some num else None.
Proof.
  destruct tls as [|e tls]; [reflexivity|].
  cbn [timeline_wf seg_count calc_next_seg_no_walk].
  intros (Hd & Hr & Hst & Hwf) Hq.
  change (if 0 <? tl_starttime e then tl_starttime e else st) with (entry_start st e).
  pose proof (seg_count_nonneg _ _ Hwf).
  replace (q <? entry_start st e) with true by lia.
  replace (0 <? tl_repeat e + 1 + seg_count tls) with true by lia. reflexivity.
Qed.

Lemma timeline_round_trip tls : forall st num target,
  timeline_wf tls st -> INT64_MIN <= st -> INT64_MIN <= num ->
  num + seg_count tls <= INT64_MAX -> num <= target < num + seg_count tls ->
  let t := get_segment_start_time_walk tls target st num in
  st <= t <= INT64_MAX /\
  calc_next_seg_no_walk tls (t - 1) st num = Some target /\
  calc_next_seg_no_walk tls t st num =
    if target + 1 <? num + seg_count tls then Some (target + 1) else None.
Proof.
  induction tls as [|e tls IH]; intros st num target Hwf Hst Hnum Hcnt Htgt.
  { cbn [seg_count] in Htgt. lia. }
  cbn [timeline_wf seg_count] in *.
  destruct Hwf as (Hd & Hr & Hes & Hwf).
  pose proof (timeline_wf_bound _ _ Hwf) as Hend.
  pose proof (seg_count_nonneg _ _ Hwf) as Hsc.
  cbn [get_segment_start_time_walk calc_next_seg_no_walk].
  change (if 0 <? tl_starttime e then tl_starttime e else st) with (entry_start st e).
  unfold entry_end in *.
  set (s0 := entry_start st e) in *.
  set (d := tl_duration e) in *. set (r := tl_repeat e) in *.
  assert (Hn : Z.of_nat (Z.to_nat r) = r) by lia.
  assert (Hs0d : add64 s0 d = s0 + d) by (apply add64_id; int_nia).
  rewrite Hs0d.
  replace (r =? -1) with false by lia.
  rewrite get_segment_start_time_repeat_spec by (rewrite ?Hn; int_nia).
  rewrite Hn.
  destruct (num =? target) eqn:E0.
  { (* the target is the entry's first segment *)
    apply Z.eqb_eq in E0. subst target. cbn zeta.
    split; [int_nia|]. split.
    - replace (s0 - 1 <? s0) with true by lia. reflexivity.
    - replace (s0 <? s0) with false by lia.
      destruct (Z.eq_dec r 0) as [Hr0|Hr0].
      + rewrite calc_next_seg_no_repeat_fallthrough by (rewrite ?Hn; int_nia).
        rewrite Hn, Hr0. rewrite (add64_id (num + 0) 1) by int_lia.
        rewrite calc_next_seg_no_walk_before; [|replace (s0 + d + 0 * d) with (s0 + d * (r + 1)) by nia; exact Hwf|nia].
        destruct (0 <? seg_count tls) eqn:E1, (num + 1 <? num + (0 + 1 + seg_count tls)) eqn:E2;
          try lia; f_equal; lia.
      + destruct (calc_next_seg_no_repeat_finish (Z.to_nat r) d s0 (s0 + d) num 0)
          as [st' Hst']; try (rewrite ?Hn; int_nia).
        rewrite Hst'. replace (num + 1 <? num + (r + 1 + seg_count tls)) with true by lia.
        f_equal. lia. }
  apply Z.eqb_neq in E0.
  destruct ((num <? target) && (target <=? num + r)) eqn:E1.
  { (* the target is one of the entry's repetitions *)
    cbn zeta. assert (num < target <= num + r) as Hin by lia.
    split; [int_nia|]. split.
    - replace (s0 + d + (target - num - 1) * d - 1 <? s0) with false by nia.
      destruct (calc_next_seg_no_repeat_finish (Z.to_nat r) d
                  (s0 + d + (target - num - 1) * d - 1) (s0 + d) num (target - num - 1))
        as [st' Hst']; try (rewrite ?Hn; int_nia).
      rewrite Hst'. f_equal. lia.
    - replace (s0 + d + (target - num - 1) * d <? s0) with false by nia.
      destruct (Z.eq_dec target (num + r)) as [Hlast|Hlast].
      + rewrite calc_next_seg_no_repeat_fallthrough by (rewrite ?Hn; int_nia).
        rewrite Hn. rewrite (add64_id (num + r) 1) by int_lia.
        rewrite calc_next_seg_no_walk_before;
          [|replace (s0 + d + r * d) with (s0 + d * (r + 1)) by nia; exact Hwf|nia].
        destruct (0 <? seg_count tls) eqn:E2, (target + 1 <? num + (r + 1 + seg_count tls)) eqn:E3;
          try lia; f_equal; lia.
      + destruct (calc_next_seg_no_repeat_finish (Z.to_nat r) d
                    (s0 + d + (target - num - 1) * d) (s0 + d) num (target - num))
          as [st' Hst']; try (rewrite ?Hn; int_nia).
        rewrite Hst'.
        replace (target + 1 <? num + (r + 1 + seg_count tls)) with true by lia.
        f_equal. lia. }
  (* the target lies in a later entry *)
  assert (num + r < target) as Hlater by lia.
  rewrite (add64_id (num + r) 1) by int_lia.
  replace (s0 + d + r * d) with (s0 + d * (r + 1)) by nia.
  destruct (IH (s0 + d * (r + 1)) (num + r + 1) target) as (H1 & H2 & H3);
    try assumption; try int_nia.
  set (t := get_segment_start_time_walk tls target (s0 + d * (r + 1)) (num + r + 1)) in *.
  cbn zeta. split; [int_nia|]. split.
  - replace (t - 1 <? s0) with false by nia.
    rewrite calc_next_seg_no_repeat_fallthrough by (rewrite ?Hn; int_nia).
    rewrite Hn. rewrite (add64_id (num + r) 1) by int_lia.
    replace (s0 + d + r * d) with (s0 + d * (r + 1)) by nia. exact H2.
  - replace (t <? s0) with false by nia.
    rewrite calc_next_seg_no_repeat_fallthrough by (rewrite ?Hn; int_nia).
    rewrite Hn. rewrite (add64_id (num + r) 1) by int_lia.
    replace (s0 + d + r * d) with (s0 + d * (r + 1)) by nia. rewrite H3.
    replace (num + r + 1 + seg_count tls) with (num + (r + 1 + seg_count tls)) by lia.
    reflexivity.
Qed.
Lemma timelines_length_le_seg_count tls : forall st,
  timeline_wf tls st -> Z.of_nat (length tls) <= seg_count tls.
Proof.
  induction tls as [|u tls IH]; intros st Hwf.
  - cbn. lia.
  - cbn [timeline_wf seg_count length] in *. destruct Hwf as (Hd & Hr & Hst & Hwf).
    apply IH in Hwf. lia.
Qed.

Lemma calc_max_seg_no_timelines_wf c pls tls : forall st num,
  timeline_wf tls st -> INT64_MIN <= num ->
  num + seg_count tls - Z.of_nat (length tls) <= INT64_MAX ->
  calc_max_seg_no_timelines c pls tls num = num + seg_count tls - Z.of_nat (length tls).
Proof.
  induction tls as [|t tls IH]; intros st num Hwf Hnum Hmax.
  - cbn. lia.
  - cbn [timeline_wf seg_count calc_max_seg_no_timelines length] in *.
    destruct Hwf as (Hd & Hr & Hst & Hwf).
    replace (tl_repeat t =? -1) with false by lia.
    rewrite Nat2Z.inj_succ in *.
    pose proof (seg_count_nonneg _ _ Hwf).
    pose proof (timelines_length_le_seg_count _ _ Hwf).
    rewrite (add64_id num (tl_repeat t)) by int_lia.
    rewrite (IH (entry_end st t)); try assumption; int_lia.
Qed.

(** C2 (amended).  For a well-formed timeline-style representation and every
    valid sequence number N (from first_seq_no to the last one, which
    calc_max_seg_no computes), with the offset correction on, or with it off
    and the timeline numbered from 0: calc_next_seg_no_from_timelines asked
    for the start time of N returns the next number N + 1, and -1 when N is
    the last; asked one tick earlier, as refresh_manifest does, it returns N. *)
Theorem calc_next_seg_no_after_start_time
    (now : Z) (c : DASHContext) (pls : representation) (N : Z) :
  fragments pls = [] -> timelines pls <> [] -> timeline_wf (timelines pls) 0 ->
  0 <= first_seq_no pls -> first_seq_no pls + seg_count (timelines pls) <= INT64_MAX ->
  c_use_timeline_segment_offset_correction c = true \/ first_seq_no pls = 0 ->
  first_seq_no pls <= N <= calc_max_seg_no now pls c ->
  let t := get_segment_start_time_based_on_timeline c pls N in
  calc_next_seg_no_from_timelines c pls (sub64 t 1) = N /\
  calc_next_seg_no_from_timelines c pls t =
    (if N <? calc_max_seg_no now pls c then N + 1 else -1).
Proof.
  intros Hfr Htl Hwf Hfirst Hmax Hopt HN.
  assert (Hlast : calc_max_seg_no now pls c = first_seq_no pls + seg_count (timelines pls) - 1).
  { unfold calc_max_seg_no, n_fragments, n_timelines. rewrite Hfr.
    change (Z.of_nat (length (@nil fragment))) with 0. cbn [Z.eqb negb].
    destruct (timelines pls) as [|e tls] eqn:Etl; [congruence|].
    replace (Z.of_nat (length (e :: tls)) =? 0) with false by (cbn [length]; lia).
    cbn [negb].
    pose proof (timelines_length_le_seg_count _ _ Hwf).
    pose proof (seg_count_nonneg _ _ Hwf).
    rewrite (add64_id (first_seq_no pls) (Z.of_nat (length (e :: tls)))) by int_lia.
    rewrite (sub64_id (first_seq_no pls + Z.of_nat (length (e :: tls))) 1) by int_lia.
    rewrite (calc_max_seg_no_timelines_wf c pls _ 0) by (assumption || int_lia). lia. }
  rewrite Hlast in *.
  assert (Htarget :
    (if c_use_timeline_segment_offset_correction c && (first_seq_no pls <=? N)
     then sub64 N (first_seq_no pls) else N) = N - first_seq_no pls).
  { destruct Hopt as [Hon|H0].
    - rewrite Hon. replace (first_seq_no pls <=? N) with true by lia. cbn [andb].
      apply sub64_id. int_lia.
    - rewrite H0. destruct (_ && _); [apply sub64_id; int_lia|lia]. }
  destruct (timeline_round_trip (timelines pls) 0 0 (N - first_seq_no pls))
    as ((Ht0 & Ht1) & Hback & Hnext); try assumption; try int_lia.
  cbn zeta. unfold get_segment_start_time_based_on_timeline, calc_next_seg_no_from_timelines.
  unfold n_timelines.
  replace (Z.of_nat (length (timelines pls)) =? 0) with false
    by (destruct (timelines pls); [congruence|cbn [length]; lia]).
  rewrite Htarget.
  rewrite sub64_id by int_lia. rewrite Hback, Hnext.
  assert (Hret : (if c_use_timeline_segment_offset_correction c
                  then add64 (N - first_seq_no pls) (first_seq_no pls)
                  else N - first_seq_no pls) = N).
  { destruct Hopt as [Hon|H0].
    - rewrite Hon. rewrite add64_id by int_lia. lia.
    - rewrite H0. destruct (c_use_timeline_segment_offset_correction c);
        [rewrite add64_id by int_lia|]; lia. }
  split; [exact Hret|].
  destruct (N - first_seq_no pls + 1 <? 0 + seg_count (timelines pls)) eqn:E1,
           (N <? first_seq_no pls + seg_count (timelines pls) - 1) eqn:E2; try lia.
  destruct Hopt as [Hon|H0].
  - rewrite Hon. rewrite add64_id by int_lia. lia.
  - rewrite H0. destruct (c_use_timeline_segment_offset_correction c);
      [rewrite add64_id by int_lia|]; lia.
Qed.

Lemma calc_next_seg_no_after_start_time_witness :
  let c := empty_context true true in
  let t := get_segment_start_time_based_on_timeline c discontinuity_rep 1 in
  calc_next_seg_no_from_timelines c discontinuity_rep (sub64 t 1) = 1 /\
  calc_next_seg_no_from_timelines c discontinuity_rep t =
    (if 1 <? calc_max_seg_no 0 discontinuity_rep c then 1 + 1 else -1).
Proof.
  apply (calc_next_seg_no_after_start_time 0 (empty_context true true) discontinuity_rep 1).
  - reflexivity.
  - discriminate.
  - vm_compute. repeat split; (reflexivity || discriminate).
  - vm_compute. discriminate.
  - vm_compute. discriminate.
  - left. reflexivity.
  - vm_compute. split; discriminate.
Defined.

(** C2, as stated, fails: on the discontinuity timeline (segments 0 to 2),
    asking calc_next_seg_no_from_timelines for the start time of segment 0
    returns 1, with the offset correction on and off. *)
Lemma calc_next_seg_no_round_trip_counterexample :
  first_seq_no discontinuity_rep <= 0 <= last_seq_no discontinuity_rep /\
  calc_next_seg_no_from_timelines (empty_context true true) discontinuity_rep
    (get_segment_start_time_based_on_timeline (empty_context true true) discontinuity_rep 0) = 1 /\
  calc_next_seg_no_from_timelines (empty_context false true) discontinuity_rep
    (get_segment_start_time_based_on_timeline (empty_context false true) discontinuity_rep 0) = 1 /\
  1 <> 0.
Proof. vm_compute. repeat split; discriminate. Qed.
(** ** Queries past the last position *)

Lemma calc_next_seg_no_repeat_past n d q : forall st num,
  Forall (fun p => p <= q) (entry_positions n d st) ->
  exists num', calc_next_seg_no_repeat n d q st num =
    Fallthrough (Nat.iter n (fun s => add64 s d) st) num'.
Proof.
  induction n as [|n IH]; intros st num Hall.
  - eexists. reflexivity.
  - cbn [entry_positions calc_next_seg_no_repeat] in *.
    inversion Hall as [|p l Hp Hrest]; subst.
    replace (q <? st) with false by lia.
    rewrite Nat.iter_succ_r. apply IH. exact Hrest.
Qed.

Lemma calc_next_seg_no_walk_past q tls : forall st num,
  Forall (fun p => p <= q) (timeline_positions tls st) ->
  calc_next_seg_no_walk tls q st num = None.
Proof.
  induction tls as [|t tls IH]; intros st num Hall; [reflexivity|].
  cbn [timeline_positions calc_next_seg_no_walk entry_positions] in *.
  set (s0 := if 0 <? tl_starttime t then tl_starttime t else st) in *.
  apply Forall_app in Hall. destruct Hall as [Hentry Hrest].
  inversion Hentry as [|p l Hp Hreps]; subst.
  replace (q <? s0) with false by lia.
  destruct (calc_next_seg_no_repeat_past _ _ _ _ num Hreps) as [num' Hfall].
  rewrite Hfall. apply IH.
  rewrite Nat.iter_succ_r in Hrest. exact Hrest.
Qed.

(** C9.  When no position of the timeline has a running start time greater
    than the query time, calc_next_seg_no_from_timelines returns the sentinel
    -1; and when that happens for the query calc_cur_seg_no makes on a live
    timeline-style representation (60 seconds before the end of the
    timeline), calc_cur_seg_no returns first_seq_no. *)
Theorem calc_next_seg_no_past_the_end (c : DASHContext) (pls : representation) :
  (forall cur_time,
     Forall (fun p => p <= cur_time) (timeline_positions (timelines pls) 0) ->
     calc_next_seg_no_from_timelines c pls cur_time = -1) /\
  (forall now,
     c_is_live c = true -> fragments pls = [] -> timelines pls <> [] ->
     Forall (fun p => p <= sub64 (get_segment_start_time_based_on_timeline c pls 4294967295)
                                 (mul64 60 (fragment_timescale pls)))
            (timeline_positions (timelines pls) 0) ->
     calc_cur_seg_no now c pls = first_seq_no pls).
Proof.
  assert (Hpast : forall cur_time,
     Forall (fun p => p <= cur_time) (timeline_positions (timelines pls) 0) ->
     calc_next_seg_no_from_timelines c pls cur_time = -1).
  { intros cur_time Hall. unfold calc_next_seg_no_from_timelines.
    now rewrite calc_next_seg_no_walk_past. }
  split; [exact Hpast|].
  intros now Hlive Hfr Htl Hall. unfold calc_cur_seg_no, n_fragments, n_timelines.
  rewrite Hlive, Hfr. cbn [length Z.of_nat Z.eqb negb].
  replace (Z.of_nat (length (timelines pls)) =? 0) with false
    by (destruct (timelines pls); [congruence|cbn [length]; lia]).
  cbn [negb]. rewrite (Hpast _ Hall). reflexivity.
Qed.

Lemma calc_next_seg_no_past_the_end_witness :
  calc_next_seg_no_from_timelines (live_context true true) single_segment_rep 40 = -1 /\
  calc_cur_seg_no 0 (live_context true true) single_segment_rep = 7.
Proof.
  destruct (calc_next_seg_no_past_the_end (live_context true true) single_segment_rep)
    as [Hnext Hcur].
  split.
  - apply Hnext. vm_compute. constructor; [discriminate|constructor].
  - apply (Hcur 0); [reflexivity|reflexivity|discriminate|].
    vm_compute. constructor; [discriminate|constructor].
Defined.
(** ** The completed-segments adjustment of calc_cur_seg_no *)

(** C5 (amended).  With fetch_completed_segments_only on, calc_cur_seg_no for
    a live template+duration representation returns the computed number
    minus 1 exactly when the representation has no presentation time offset,
    the computed number is greater than first_seq_no,
    suggested_presentation_delay is 0 and, in the branch computed from
    publish_time (publish_time > 0 and no availability start time),
    time_shift_buffer_depth is 0 as well; otherwise it returns the computed
    number unchanged. *)
Theorem calc_cur_seg_no_completed_segments
    (now : Z) (c : DASHContext) (pls : representation) :
  c_is_live c = true -> fragments pls = [] -> timelines pls = [] ->
  fragment_duration pls <> 0 -> c_fetch_completed_segments_only c = true ->
  INT64_MIN <= first_seq_no pls ->
  let num := calc_cur_seg_no_template now c pls in
  let adjusted :=
    presentation_timeoffset pls = 0 /\ first_seq_no pls < num /\
    c_suggested_presentation_delay c = 0 /\
    (0 < c_publish_time c /\ c_availability_start_time c = 0 ->
     c_time_shift_buffer_depth c = 0) in
  (adjusted -> calc_cur_seg_no now c pls = num - 1) /\
  (~ adjusted -> calc_cur_seg_no now c pls = num).
Proof.
  intros Hlive Hfr Htl Hfd Hfetch Hfirst num adjusted.
  unfold calc_cur_seg_no, n_fragments, n_timelines.
  rewrite Hlive, Hfr, Htl, Hfetch.
  change (Z.of_nat (length (@nil fragment))) with 0.
  change (Z.of_nat (length (@nil timeline))) with 0. cbn [Z.eqb negb].
  replace (fragment_duration pls =? 0) with false by lia. cbn [negb].
  fold num. rewrite !andb_true_r.
  assert (Hnum : INT64_MIN <= num <= INT64_MAX).
  { unfold num, calc_cur_seg_no_template.
    repeat match goal with |- context [if ?b then _ else _] => destruct b end;
      apply to_int64_range. }
  assert (Hsub : first_seq_no pls < num -> sub64 num 1 = num - 1).
  { intros Hlt. apply sub64_id. int_lia. }
  subst adjusted.
  destruct (presentation_timeoffset pls =? 0) eqn:Epto; cbn [negb].
  2:{ split; [lia|reflexivity]. }
  destruct ((0 <? c_publish_time c) && (c_availability_start_time c =? 0)) eqn:Epub.
  - destruct (first_seq_no pls <? num) eqn:Elt; cbn [andb].
    2:{ split; [lia|reflexivity]. }
    destruct ((c_time_shift_buffer_depth c =? 0) && (c_suggested_presentation_delay c =? 0)) eqn:Ez.
    + split; [intros _; apply Hsub; lia|]. intros Hn. exfalso. apply Hn. lia.
    + split; [lia|reflexivity].
  - destruct (first_seq_no pls <? num) eqn:Elt; cbn [andb].
    2:{ split; [lia|reflexivity]. }
    destruct (c_suggested_presentation_delay c =? 0) eqn:Ez.
    + split; [intros _; apply Hsub; lia|]. intros Hn. exfalso. apply Hn. lia.
    + split; [lia|reflexivity].
Qed.

Lemma calc_cur_seg_no_completed_segments_witness :
  let c := set_c_time_shift_buffer_depth 30 (live_context true true) in
  let num := calc_cur_seg_no_template 100 c template_rep in
  calc_cur_seg_no 100 c template_rep = num - 1.
Proof.
  pose proof (calc_cur_seg_no_completed_segments 100
    (set_c_time_shift_buffer_depth 30 (live_context true true)) template_rep) as H.
  apply H; try reflexivity; try discriminate.
  vm_compute. repeat split; try discriminate. intros [H0 _]. discriminate H0.
Defined.

(** C5, as stated, fails.  A live template+duration stream with no publish
    time, time_shift_buffer_depth 30 and no suggested delay computes 51 at
    clock 100 and returns 50, although time_shift_buffer_depth is not 0; and
    with a presentation time offset nothing is subtracted although both
    attributes are 0 and the computed number exceeds first_seq_no. *)
Lemma calc_cur_seg_no_counterexample :
  let c := set_c_time_shift_buffer_depth 30 (live_context true true) in
  let c0 := live_context true true in
  let pto_rep := set_presentation_timeoffset 4 template_rep in
  (c_time_shift_buffer_depth c = 30 /\
   calc_cur_seg_no_template 100 c template_rep = 51 /\
   calc_cur_seg_no 100 c template_rep = 50) /\
  (c_time_shift_buffer_depth c0 = 0 /\ c_suggested_presentation_delay c0 = 0 /\
   first_seq_no pto_rep = 1 /\
   calc_cur_seg_no_template 100 c0 pto_rep = 49 /\
   calc_cur_seg_no 100 c0 pto_rep = 49).
Proof. vm_compute. repeat split. Qed.
(** ** Period selection *)

Lemma match_invariant_step cp seen p (c1 : DASHContext) (pc1 : period_choice) :
  uint32_range cp -> uint32_range (period_start_sec p) ->
  match_invariant cp seen pc1 ->
  match_invariant cp (seen ++ [p])
    (snd (if (0 <=? cp - period_start_sec p) && (cp - period_start_sec p <=? min_period_diff pc1)
          then (select_period p c1,
                {| matching_period_node := Some (length seen);
                   default_period_node := default_period_node pc1;
                   min_period_diff := cp - period_start_sec p |})
          else (c1, pc1))).
Proof.
  intros Hcp Hp Hinv. unfold match_invariant in *.
  destruct ((0 <=? cp - period_start_sec p) && (cp - period_start_sec p <=? min_period_diff pc1)) eqn:E;
    cbn [snd matching_period_node min_period_diff].
  - (* this Period becomes the match *)
    exists p. split; [apply list_lookup_middle; reflexivity|].
    split; [lia|]. split; [reflexivity|]. split.
    + intros q Hq Hle. apply elem_of_app in Hq. destruct Hq as [Hq|Hq].
      * destruct (matching_period_node pc1) as [i|].
        -- destruct Hinv as (p0 & _ & _ & Hmin & Hall & _). specialize (Hall q Hq Hle). lia.
        -- destruct Hinv as [_ Hnone]. specialize (Hnone q Hq). lia.
      * apply list_elem_of_singleton in Hq. subst q. lia.
    + intros j q Hj Hlook _. apply lookup_lt_Some in Hlook. rewrite length_app in Hlook.
      cbn [length] in Hlook. lia.
  - destruct (matching_period_node pc1) as [i|].
    + destruct Hinv as (p0 & Hlook & Hle0 & Hmin & Hall & Hlater).
      exists p0. split; [apply lookup_app_l_Some; exact Hlook|].
      split; [exact Hle0|]. split; [congruence|]. split.
      * intros q Hq Hle. apply elem_of_app in Hq. destruct Hq as [Hq|Hq]; [now apply Hall|].
        apply list_elem_of_singleton in Hq. subst q. lia.
      * intros j q Hj Hlookj Hle. destruct (decide (j < length seen)%nat) as [Hlt|Hge].
        -- rewrite lookup_app_l in Hlookj by exact Hlt. now apply (Hlater j).
        -- rewrite lookup_app_r in Hlookj by lia.
           destruct (j - length seen)%nat as [|k]; [|destruct k; discriminate].
           cbn in Hlookj. injection Hlookj as <-. lia.
    + destruct Hinv as [Hmin Hnone]. split; [congruence|].
      intros q Hq. apply elem_of_app in Hq. destruct Hq as [Hq|Hq]; [now apply Hnone|].
      apply list_elem_of_singleton in Hq. subst q. unfold uint32_range in *. int_lia.
Qed.

Lemma parse_manifest_period_match cp seen p c pc :
  uint32_range cp -> uint32_range (period_start_sec p) ->
  match_invariant cp seen pc ->
  match_invariant cp (seen ++ [p]) (snd (parse_manifest_period cp (length seen) p (c, pc))).
Proof.
  intros Hcp Hp Hinv. unfold parse_manifest_period.
  assert (Hdiff : sub64 cp (period_start_sec p) = cp - period_start_sec p).
  { apply sub64_id. unfold uint32_range in *. int_lia. }
  rewrite Hdiff.
  destruct (matching_period_node pc) as [i|] eqn:Em.
  - apply match_invariant_step; assumption.
  - destruct (c_period_start c <=? period_start_sec p).
    + apply (match_invariant_step cp seen p (select_period p c)); try assumption.
      unfold match_invariant in *. cbn [matching_period_node min_period_diff].
      rewrite Em in *. exact Hinv.
    + apply match_invariant_step; assumption.
Qed.

Lemma select_period_start p c : c_period_start (select_period p c) = period_start_sec p.
Proof.
  unfold select_period. cbn.
  destruct (0 <? period_start_sec p); reflexivity.
Qed.

Lemma parse_manifest_period_default cp prev seen p st :
  uint32_range cp -> uint32_range (period_start_sec p) -> cp < period_start_sec p ->
  default_invariant prev seen st ->
  default_invariant prev (seen ++ [p]) (parse_manifest_period cp (length seen) p st).
Proof.
  intros Hcp Hp Hlt (Hm & Hmin & Hdef). destruct st as [c pc]. cbn [fst snd] in *.
  unfold parse_manifest_period. rewrite Hm.
  assert (Hdiff : sub64 cp (period_start_sec p) = cp - period_start_sec p).
  { apply sub64_id. unfold uint32_range in *. int_lia. }
  rewrite Hdiff.
  destruct (c_period_start c <=? period_start_sec p) eqn:Ege;
    cbn [min_period_diff]; replace (0 <=? cp - period_start_sec p) with false by lia;
    cbn [andb]; unfold default_invariant; cbn [fst snd matching_period_node
      min_period_diff default_period_node]; (split; [first [exact Hm|reflexivity]|split; [exact Hmin|]]).
  - (* the Period becomes the default *)
    exists p. split; [apply list_lookup_middle; reflexivity|].
    split; [apply select_period_start|].
    assert (Hprev : prev <= period_start_sec p /\
                    forall q, q ∈ seen -> period_start_sec q <= period_start_sec p).
    { destruct (default_period_node pc) as [i|].
      - destruct Hdef as (p0 & _ & Hc & Hp0 & Hall & _). split; [lia|].
        intros q Hq. specialize (Hall q Hq). lia.
      - destruct Hdef as [Hc Hall]. split; [lia|].
        intros q Hq. specialize (Hall q Hq). lia. }
    destruct Hprev as [Hprev Hall]. split; [exact Hprev|]. split.
    + intros q Hq. apply elem_of_app in Hq. destruct Hq as [Hq|Hq]; [now apply Hall|].
      apply list_elem_of_singleton in Hq. subst q. lia.
    + intros j q Hj Hlook. apply lookup_lt_Some in Hlook. rewrite length_app in Hlook.
      cbn [length] in Hlook. lia.
  - destruct (default_period_node pc) as [i|].
    + destruct Hdef as (p0 & Hlook & Hc & Hp0 & Hall & Hlater).
      exists p0. split; [apply lookup_app_l_Some; exact Hlook|].
      split; [exact Hc|]. split; [exact Hp0|]. split.
      * intros q Hq. apply elem_of_app in Hq. destruct Hq as [Hq|Hq]; [now apply Hall|].
        apply list_elem_of_singleton in Hq. subst q. lia.
      * intros j q Hj Hlookj. destruct (decide (j < length seen)%nat) as [Hl|Hge].
        -- rewrite lookup_app_l in Hlookj by exact Hl. now apply (Hlater j).
        -- rewrite lookup_app_r in Hlookj by lia.
           destruct (j - length seen)%nat as [|k]; [|destruct k; discriminate].
           cbn in Hlookj. injection Hlookj as <-. lia.
    + destruct Hdef as [Hc Hall]. split; [exact Hc|].
      intros q Hq. apply elem_of_app in Hq. destruct Hq as [Hq|Hq]; [now apply Hall|].
      apply list_elem_of_singleton in Hq. subst q. lia.
Qed.

Lemma parse_manifest_periods_match cp periods : forall seen st,
  uint32_range cp -> Forall (fun p => uint32_range (period_start_sec p)) periods ->
  match_invariant cp seen (snd st) ->
  match_invariant cp (seen ++ periods)
    (snd (parse_manifest_periods cp (length seen) periods st)).
Proof.
  induction periods as [|p periods IH]; intros seen st Hcp Hall Hinv.
  - rewrite app_nil_r. exact Hinv.
  - inversion Hall as [|p' l Hp Hrest]; subst. cbn [parse_manifest_periods].
    replace (seen ++ p :: periods) with ((seen ++ [p]) ++ periods)
      by (rewrite <- app_assoc; reflexivity).
    replace (S (length seen)) with (length (seen ++ [p]))
      by (rewrite length_app; cbn [length]; lia).
    apply IH; try assumption. destruct st as [c pc].
    apply parse_manifest_period_match; assumption.
Qed.

Lemma parse_manifest_periods_default cp prev periods : forall seen st,
  uint32_range cp -> Forall (fun p => uint32_range (period_start_sec p)) periods ->
  (forall q, q ∈ periods -> cp < period_start_sec q) ->
  default_invariant prev seen st ->
  default_invariant prev (seen ++ periods)
    (parse_manifest_periods cp (length seen) periods st).
Proof.
  induction periods as [|p periods IH]; intros seen st Hcp Hall Hlate Hinv.
  - rewrite app_nil_r. exact Hinv.
  - inversion Hall as [|p' l Hp Hrest]; subst. cbn [parse_manifest_periods].
    replace (seen ++ p :: periods) with ((seen ++ [p]) ++ periods)
      by (rewrite <- app_assoc; reflexivity).
    replace (S (length seen)) with (length (seen ++ [p]))
      by (rewrite length_app; cbn [length]; lia).
    apply IH; try assumption.
    + intros q Hq. apply Hlate. apply elem_of_cons. now right.
    + apply parse_manifest_period_default; try assumption.
      apply Hlate. apply elem_of_cons. now left.
Qed.

(** C4.  The Period parse_manifest selects, for Period starts and a
    curr_timepoint that are uint32 values.  If some Period starts at or
    before curr_timepoint, the selected one is such a Period with the
    smallest gap curr_timepoint - start.  If none does, but some Period
    starts at or after the period start the context remembers, the selected
    one is the latest of those: it has the greatest start, and is the last in
    document order with that start.  If neither exists, the result is
    AVERROR_INVALIDDATA and no Period is selected. *)
Theorem parse_manifest_period_selection
    (c : DASHContext) (periods : list period) (curr_timepoint : Z) :
  uint32_range curr_timepoint ->
  Forall (fun p => uint32_range (period_start_sec p)) periods ->
  let '(ret, _, chosen) := parse_manifest_select_period c periods curr_timepoint in
  ((exists q, q ∈ periods /\ period_start_sec q <= curr_timepoint) ->
   ret = 0 /\
   exists i p, chosen = Some i /\ periods !! i = Some p /\
     period_start_sec p <= curr_timepoint /\
     forall q, q ∈ periods -> period_start_sec q <= curr_timepoint ->
       curr_timepoint - period_start_sec p <= curr_timepoint - period_start_sec q) /\
  ((forall q, q ∈ periods -> curr_timepoint < period_start_sec q) ->
   (exists q, q ∈ periods /\ c_period_start c <= period_start_sec q) ->
   ret = 0 /\
   exists i p, chosen = Some i /\ periods !! i = Some p /\
     c_period_start c <= period_start_sec p /\
     (forall q, q ∈ periods -> period_start_sec q <= period_start_sec p) /\
     (forall j q, (i < j)%nat -> periods !! j = Some q ->
        period_start_sec q < period_start_sec p)) /\
  ((forall q, q ∈ periods -> curr_timepoint < period_start_sec q) ->
   (forall q, q ∈ periods -> period_start_sec q < c_period_start c) ->
   ret = AVERROR_INVALIDDATA /\ chosen = None).
Proof.
  intros Hcp Hall. unfold parse_manifest_select_period.
  set (st0 := (c, {| matching_period_node := None; default_period_node := None;
                     min_period_diff := INT64_MAX |})).
  pose proof (parse_manifest_periods_match curr_timepoint periods [] st0 Hcp Hall) as Hmatch.
  pose proof (parse_manifest_periods_default curr_timepoint (c_period_start c) periods [] st0
                Hcp Hall) as Hdefault.
  cbn [length app] in Hmatch, Hdefault.
  destruct (parse_manifest_periods curr_timepoint 0 periods st0) as [c' pc].
  cbn [snd] in Hmatch.
  assert (Hm : match_invariant curr_timepoint periods pc).
  { apply Hmatch. unfold match_invariant. cbn. split; [reflexivity|].
    intros q Hq. apply elem_of_nil in Hq. contradiction. }
  assert (Hd : (forall q, q ∈ periods -> curr_timepoint < period_start_sec q) ->
               default_invariant (c_period_start c) periods (c', pc)).
  { intros Hlate. apply Hdefault; [exact Hlate|]. unfold default_invariant. cbn.
    repeat split. intros q Hq. apply elem_of_nil in Hq. contradiction. }
  clear Hmatch Hdefault. unfold match_invariant in Hm. unfold default_invariant in Hd.
  cbn [fst snd] in Hd.
  destruct (matching_period_node pc) as [i|] eqn:Em.
  - destruct Hm as (p & Hlook & Hp & _ & Hmin & _).
    assert (Hin : p ∈ periods) by (eapply list_elem_of_lookup_2; exact Hlook).
    split; [|split].
    + intros _. split; [reflexivity|]. exists i, p. repeat split; assumption.
    + intros Hlate _. specialize (Hlate p Hin). lia.
    + intros Hlate _. specialize (Hlate p Hin). lia.
  - destruct Hm as [_ Hnone].
    destruct (default_period_node pc) as [d|] eqn:Ed.
    + split; [|split].
      * intros (q & Hq & Hle). specialize (Hnone q Hq). lia.
      * intros Hlate _. destruct (Hd Hlate) as (_ & _ & p & Hlook & _ & Hprev & Hmax & Hlast).
        split; [reflexivity|]. exists d, p. repeat split; assumption.
      * intros Hlate Hold. destruct (Hd Hlate) as (_ & _ & p & Hlook & _ & Hprev & _).
        apply list_elem_of_lookup_2 in Hlook. specialize (Hold p Hlook). lia.
    + split; [|split].
      * intros (q & Hq & Hle). specialize (Hnone q Hq). lia.
      * intros Hlate (q & Hq & Hge). destruct (Hd Hlate) as (_ & _ & _ & Hlow).
        specialize (Hlow q Hq). lia.
      * intros _ _. split; reflexivity.
Qed.

(** Two Periods starting at 0 and 30 seconds, and three starting at 40, 90
    and 60. *)
Lemma parse_manifest_period_selection_witness :
  let periods := [ {| period_start_sec := 0; period_duration_sec := 30 |};
                   {| period_start_sec := 30; period_duration_sec := 30 |} ] in
  let '(ret, _, chosen) := parse_manifest_select_period (empty_context true true) periods 45 in
  ((exists q, q ∈ periods /\ period_start_sec q <= 45) ->
   ret = 0 /\
   exists i p, chosen = Some i /\ periods !! i = Some p /\
     period_start_sec p <= 45 /\
     forall q, q ∈ periods -> period_start_sec q <= 45 ->
       45 - period_start_sec p <= 45 - period_start_sec q) /\
  ((forall q, q ∈ periods -> 45 < period_start_sec q) ->
   (exists q, q ∈ periods /\ c_period_start (empty_context true true) <= period_start_sec q) ->
   ret = 0 /\
   exists i p, chosen = Some i /\ periods !! i = Some p /\
     c_period_start (empty_context true true) <= period_start_sec p /\
     (forall q, q ∈ periods -> period_start_sec q <= period_start_sec p) /\
     (forall j q, (i < j)%nat -> periods !! j = Some q ->
        period_start_sec q < period_start_sec p)) /\
  ((forall q, q ∈ periods -> 45 < period_start_sec q) ->
   (forall q, q ∈ periods -> period_start_sec q < c_period_start (empty_context true true)) ->
   ret = AVERROR_INVALIDDATA /\ chosen = None).
Proof.
  apply (parse_manifest_period_selection (empty_context true true)
           [ {| period_start_sec := 0; period_duration_sec := 30 |};
             {| period_start_sec := 30; period_duration_sec := 30 |} ] 45).
  - unfold uint32_range, UINT32_MOD. lia.
  - repeat constructor; cbn; unfold UINT32_MOD; lia.
Defined.
(** ** get_duration_insec *)

Lemma string_skip_length n s : (String.length (string_skip n s) <= String.length s - n)%nat.
Proof.
  revert s. induction n as [|n IH]; intros s; cbn [string_skip]; [lia|].
  destruct s as [|ch rest]; cbn [String.length]; [lia|]. specialize (IH rest). lia.
Qed.

Lemma string_skip_app txt rest :
  string_skip (String.length txt) (txt ++ rest)%string = rest.
Proof. induction txt as [|ch txt IH]; cbn; [reflexivity|exact IH]. Qed.

Lemma uadd32_to_uint32_l a b : uadd32 (to_uint32 a) b = to_uint32 (a + b).
Proof. unfold uadd32, to_uint32. apply Zplus_mod_idemp_l. Qed.

Lemma umul32_to_uint32_l a b : umul32 (to_uint32 a) b = to_uint32 (a * b).
Proof. unfold umul32, to_uint32. apply Zmult_mod_idemp_l. Qed.

Lemma string_skip_field txt u rest :
  string_skip (S (String.length txt)) (txt ++ String u rest)%string = rest.
Proof. induction txt as [|ch txt IH]; cbn; [reflexivity|exact IH]. Qed.

Lemma string_app_cons ch a b : (String ch a ++ b)%string = String ch (a ++ b)%string.
Proof. reflexivity. Qed.

Lemma field_text_app txt u rest :
  ((txt ++ String u "") ++ rest)%string = (txt ++ String u rest)%string.
Proof.
  induction txt as [|ch txt IH]; [reflexivity|].
  rewrite !string_app_cons. now rewrite IH.
Qed.

Lemma duration_seconds_formula f :
  duration_seconds f =
  to_uint32 (((df_days f * 24 + df_hours f) * 60 + df_mins f) * 60 + df_secs f).
Proof.
  unfold duration_seconds.
  change (umul32 (df_days f) 24) with (to_uint32 (df_days f * 24)).
  rewrite uadd32_to_uint32_l, umul32_to_uint32_l, uadd32_to_uint32_l,
    umul32_to_uint32_l, uadd32_to_uint32_l. reflexivity.
Qed.

Section DurationProofs.

Variable double : Type.
Variable sscanf_lf_c_n : string -> option (double * ascii * nat).
Variable double_to_uint32 : double -> Z.
Hypothesis progress : scanner_progress double sscanf_lf_c_n.

Local Abbreviation loop := (get_duration_insec_loop double sscanf_lf_c_n double_to_uint32).
Local Abbreviation reaches := (duration_reaches double sscanf_lf_c_n double_to_uint32).

Lemma get_duration_insec_loop_fuel fuel : forall fuel' ptr f,
  (String.length ptr < fuel)%nat -> (String.length ptr < fuel')%nat ->
  loop fuel ptr f = loop fuel' ptr f.
Proof.
  induction fuel as [|fuel IH]; intros fuel' ptr f H1 H2; [lia|].
  destruct fuel' as [|fuel']; [lia|]. cbn [get_duration_insec_loop].
  destruct ptr as [|ch rest]; [reflexivity|]. cbn [String.length] in *.
  destruct (Ascii.eqb ch "P" || Ascii.eqb ch "T").
  - apply IH; lia.
  - destruct (sscanf_lf_c_n (String ch rest)) as [[[value type] size]|] eqn:Escan;
      [|reflexivity].
    apply progress in Escan.
    pose proof (string_skip_length size (String ch rest)) as Hlen.
    cbn [String.length] in Hlen. apply IH; lia.
Qed.

Lemma get_duration_insec_loop_value fuel : forall ptr f,
  (String.length ptr < fuel)%nat ->
  exists v, loop fuel ptr f = Some v /\ 0 <= v < UINT32_MOD.
Proof.
  induction fuel as [|fuel IH]; intros ptr f H1; [lia|].
  cbn [get_duration_insec_loop].
  destruct ptr as [|ch rest].
  - eexists. split; [reflexivity|]. rewrite duration_seconds_formula.
    unfold to_uint32, UINT32_MOD. apply Z.mod_pos_bound. lia.
  - cbn [String.length] in *. destruct (Ascii.eqb ch "P" || Ascii.eqb ch "T").
    + apply IH; lia.
    + destruct (sscanf_lf_c_n (String ch rest)) as [[[value type] size]|] eqn:Escan.
      * apply progress in Escan.
        pose proof (string_skip_length size (String ch rest)) as Hlen.
        cbn [String.length] in Hlen. apply IH; lia.
      * exists 0. split; [reflexivity|]. unfold UINT32_MOD. lia.
Qed.

Lemma duration_reaches_loop ptr f ptr' f' :
  reaches ptr f ptr' f' ->
  forall fuel, (String.length ptr < fuel)%nat ->
  loop fuel ptr f = loop (S (String.length ptr')) ptr' f'.
Proof.
  induction 1 as [ptr f|ch rest f ptr' f' Hpt Hreach IH
                  |ch rest f value type size ptr' f' Hpt Hscan Hreach IH];
    intros fuel Hfuel.
  - apply get_duration_insec_loop_fuel; lia.
  - destruct fuel as [|fuel]; [lia|]. cbn [get_duration_insec_loop String.length] in *.
    rewrite Hpt. apply IH. lia.
  - destruct fuel as [|fuel]; [lia|]. cbn [get_duration_insec_loop String.length] in *.
    rewrite Hpt, Hscan. apply IH.
    apply progress in Hscan.
    pose proof (string_skip_length size (String ch rest)) as Hlen.
    cbn [String.length] in Hlen. lia.
Qed.

Lemma duration_reaches_trans p1 f1 p2 f2 p3 f3 :
  reaches p1 f1 p2 f2 -> reaches p2 f2 p3 f3 -> reaches p1 f1 p3 f3.
Proof.
  induction 1; intros H23; [exact H23| |].
  - apply reaches_skip; auto.
  - eapply reaches_scan; eauto.
Qed.

Lemma duration_reaches_field o u rest f :
  field_scans double sscanf_lf_c_n o u ->
  reaches (field_text double o u ++ rest)%string f rest
    (match o with
     | Some (_, v) => duration_assign u (double_to_uint32 v) f
     | None => f
     end).
Proof.
  destruct o as [[txt v]|]; cbn [field_scans field_text].
  - intros [(ch & txt' & -> & Hpt) Hscan].
    specialize (Hscan rest). rewrite field_text_app.
    pose proof (string_skip_field (String ch txt') u rest) as Hskip.
    rewrite string_app_cons in *.
    eapply reaches_scan; [exact Hpt|exact Hscan|].
    rewrite Hskip. apply reaches_here.
  - intros _. apply reaches_here.
Qed.


End DurationProofs.

Lemma decimal_sscanf_progress : scanner_progress Z decimal_sscanf.
Proof.
  intros s v t n. unfold decimal_sscanf.
  destruct (scan_digits s 0 0) as [[v' n'] rest].
  destruct n' as [|n']; [discriminate|]. destruct rest; [discriminate|].
  intros H. injection H as _ _ <-. lia.
Qed.

(** ** read_data at the end of a segment *)

Section ReadDataProofs.

Variable world : Type.
Variable get_current_fragment :
  world -> DASHContext -> representation ->
  world * DASHContext * representation * Z * option fragment.
Variable update_init_section :
  world -> DASHContext -> representation -> world * representation * Z.
Variable open_input :
  world -> DASHContext -> representation -> fragment -> world * representation * Z.
Variable avio_read : world -> representation -> Z -> world * Z.
Variable ff_check_interrupt : world -> world * bool.

Lemma read_from_url_no_bytes w pls seg buf_size w' pls' ret :
  read_from_url world avio_read w pls seg buf_size = (w', pls', ret) ->
  ret <= 0 -> pls' = pls.
Proof.
  unfold read_from_url. destruct (avio_read w pls _) as [w1 r].
  intros H Hret. injection H as _ <- <-.
  replace (0 <? r) with false by lia. reflexivity.
Qed.

(** C6 (amended).  When the fetcher is open, no init-section bytes are
    pending and the read from the current segment returns zero bytes,
    read_data returns 0 and, if the presentation is live or
    cur_seq_no < last_seq_no, sets is_restart_needed and increments
    cur_seq_no by exactly one unless is_restart_needed was already set, in
    which case cur_seq_no stays; otherwise the representation is unchanged. *)
Theorem read_data_segment_exhausted
    (fuel : nat) (w w' : world) (c : DASHContext) (v v' : representation)
    (seg : fragment) (buf_size : Z) :
  input v = true -> cur_seg v = Some seg ->
  init_sec_data_len v <= init_sec_buf_read_offset v ->
  read_from_url world avio_read w v seg buf_size = (w', v', 0) ->
  INT64_MIN <= cur_seq_no v < INT64_MAX ->
  read_data world get_current_fragment update_init_section open_input avio_read
    ff_check_interrupt (S fuel) w c v buf_size =
  Some (w', c,
        (if c_is_live c || (cur_seq_no v <? last_seq_no v)
         then set_is_restart_needed true
                (if is_restart_needed v then v
                 else set_cur_seq_no (cur_seq_no v + 1) v)
         else v),
        0).
Proof.
  intros Hin Hseg Hinit Hread Hrange.
  pose proof (read_from_url_no_bytes _ _ _ _ _ _ _ Hread ltac:(lia)) as ->.
  unfold read_data. cbn [read_data_restart]. rewrite Hin.
  unfold read_data_body.
  replace (init_sec_buf_read_offset v <? init_sec_data_len v) with false by lia.
  rewrite Hseg, Hread. cbn [Z.ltb Z.compare].
  rewrite (add64_id (cur_seq_no v) 1) by int_lia.
  destruct (c_is_live c || (cur_seq_no v <? last_seq_no v)); [|reflexivity].
  destruct (is_restart_needed v); reflexivity.
Qed.

End ReadDataProofs.

Lemma read_data_segment_exhausted_witness :
  read_data unit eof_get_current_fragment eof_update_init_section eof_open_input
    eof_avio_read eof_check_interrupt 1 tt (live_context true true) (streaming_rep false) 4096 =
  Some (tt, live_context true true,
        set_is_restart_needed true (set_cur_seq_no 6 (streaming_rep false)), 0).
Proof.
  apply (read_data_segment_exhausted unit eof_get_current_fragment eof_update_init_section
           eof_open_input eof_avio_read eof_check_interrupt 0 tt tt (live_context true true)
           (streaming_rep false) (streaming_rep false)
           {| frag_url_offset := 0; frag_size := -1; frag_url := "seg-5.m4s" |} 4096);
    try reflexivity.
  vm_compute. split; [discriminate|reflexivity].
Defined.

(** C6, as stated, fails: when is_restart_needed is already set (a second
    empty read before the demuxer has restarted the stream), the live stream's
    cur_seq_no is not incremented. *)
Lemma read_data_counterexample :
  c_is_live (live_context true true) = true /\
  cur_seq_no (streaming_rep true) = 5 /\
  read_data unit eof_get_current_fragment eof_update_init_section eof_open_input
    eof_avio_read eof_check_interrupt 1 tt (live_context true true) (streaming_rep true) 4096
  = Some (tt, live_context true true, streaming_rep true, 0).
Proof. vm_compute. repeat split. Qed.
(** ** Discard gating *)

Lemma set_cur_seq_no_twice m m' r : set_cur_seq_no m (set_cur_seq_no m' r) = set_cur_seq_no m r.
Proof. reflexivity. Qed.

Lemma catch_up_spec pi p : forall (h : store) r,
  h !! pi = Some r -> (forall q, q ∈ p -> is_Some (h !! q)) ->
  exists m,
    catch_up h pi p = <[pi := set_cur_seq_no m r]> h /\
    cur_seq_no r <= m /\
    (forall q rq, q ∈ p -> h !! q = Some rq -> cur_seq_no rq <= m) /\
    (m = cur_seq_no r \/ exists q rq, q ∈ p /\ h !! q = Some rq /\ cur_seq_no rq = m).
Proof.
  induction p as [|pj p IH]; intros h r Hpi Hall.
  - exists (cur_seq_no r). cbn [catch_up]. split; [|split; [lia|split]].
    + rewrite insert_id; [reflexivity|]. rewrite Hpi. f_equal. now destruct r.
    + intros q rq Hq. apply elem_of_nil in Hq. contradiction.
    + now left.
  - cbn [catch_up]. rewrite Hpi.
    destruct (Hall pj ltac:(apply elem_of_cons; now left)) as [rj Hpj]. rewrite Hpj.
    set (m1 := Z.max (cur_seq_no r) (cur_seq_no rj)).
    set (h1 := <[pi := set_cur_seq_no m1 r]> h).
    destruct (IH h1 (set_cur_seq_no m1 r)) as (m & Hcatch & Hle & Hmax & Hatt).
    { subst h1. apply lookup_insert_eq. }
    { intros q Hq. subst h1. destruct (decide (pi = q)) as [->|Hne].
      - rewrite lookup_insert_eq. eauto.
      - rewrite lookup_insert_ne by exact Hne. apply Hall. apply elem_of_cons. now right. }
    assert (Hm1 : cur_seq_no (set_cur_seq_no m1 r) = m1) by reflexivity.
    rewrite Hm1 in *.
    exists m. split; [|split; [lia|split]].
    + rewrite Hcatch. subst h1. rewrite insert_insert_eq. now rewrite set_cur_seq_no_twice.
    + intros q rq Hq Hlook. apply elem_of_cons in Hq. destruct Hq as [->|Hq].
      * rewrite Hpj in Hlook. injection Hlook as <-. lia.
      * destruct (decide (pi = q)) as [<-|Hne].
        -- rewrite Hpi in Hlook. injection Hlook as <-. lia.
        -- apply (Hmax q rq Hq). subst h1. now rewrite lookup_insert_ne.
    + assert (Hm1att : m1 = cur_seq_no r \/
                       exists q rq, q ∈ pj :: p /\ h !! q = Some rq /\ cur_seq_no rq = m1).
      { destruct (Z.max_spec (cur_seq_no r) (cur_seq_no rj)) as [[_ Hx]|[_ Hx]]; fold m1 in Hx.
        - right. exists pj, rj. split; [apply elem_of_cons; now left|]. split; [exact Hpj|lia].
        - left. exact Hx. }
      destruct Hatt as [Heq|(q & rq & Hq & Hlook & Heq)].
      * rewrite Heq. destruct Hm1att as [Hx|Hx]; [left; exact Hx|right; exact Hx].
      * destruct (decide (pi = q)) as [<-|Hne].
        -- subst h1. rewrite lookup_insert_eq in Hlook. injection Hlook as <-.
           rewrite Hm1 in Heq. rewrite <- Heq.
           destruct Hm1att as [Hx|Hx]; [left; exact Hx|right; exact Hx].
        -- right. exists q, rq. split; [apply elem_of_cons; now right|].
           split; [|exact Heq]. subst h1. now rewrite lookup_insert_ne in Hlook.
Qed.

Section OrchestratorProofs.

Variable world : Type.
Variable reopen_demux_for_component : world -> representation -> world * representation * Z.
Variable av_seek_frame : world -> representation -> Z -> Z -> world * representation * Z.
Variable av_rescale_rnd : Z -> Z -> Z -> Z -> Z.

(** The turn of a representation that is re-enabled: what the body of the
    loop hands to reopen_demux_for_component, and what it stores. *)
Lemma recheck_discard_flags_one_catch_up
    (p : list rep_ptr) (w : world) (h : store) (pi : rep_ptr) (pls : representation) :
  h !! pi = Some pls -> needed pls = true -> ctx pls = false ->
  pi ∈ p -> (forall q, q ∈ p -> is_Some (h !! q)) ->
  exists m,
    (forall q rq, q ∈ p -> h !! q = Some rq -> cur_seq_no rq <= m) /\
    (exists q rq, q ∈ p /\ h !! q = Some rq /\ cur_seq_no rq = m) /\
    recheck_discard_flags_one world reopen_demux_for_component p (w, h) pi =
      (let '(w', pls', _) :=
         reopen_demux_for_component w
           (set_cur_seq_no m (set_init_sec_buf_read_offset 0 (set_cur_seg_offset 0 pls))) in
       (w', <[pi := pls']> h)).
Proof.
  intros Hpi Hneeded Hctx Hin Hall.
  set (pls0 := set_init_sec_buf_read_offset 0 (set_cur_seg_offset 0 pls)).
  set (h0 := <[pi := pls0]> h).
  destruct (catch_up_spec pi p h0 pls0) as (m & Hcatch & Hle & Hmax & Hatt).
  { subst h0. apply lookup_insert_eq. }
  { intros q Hq. subst h0. destruct (decide (pi = q)) as [->|Hne].
    - rewrite lookup_insert_eq. eauto.
    - rewrite lookup_insert_ne by exact Hne. now apply Hall. }
  assert (Hcur0 : cur_seq_no pls0 = cur_seq_no pls) by reflexivity.
  exists m. split; [|split].
  - intros q rq Hq Hlook. destruct (decide (pi = q)) as [<-|Hne].
    + rewrite Hpi in Hlook. injection Hlook as <-. lia.
    + apply (Hmax q rq Hq). subst h0. now rewrite lookup_insert_ne.
  - destruct Hatt as [Heq|(q & rq & Hq & Hlook & Heq)].
    + exists pi, pls. split; [exact Hin|]. split; [exact Hpi|lia].
    + destruct (decide (pi = q)) as [<-|Hne].
      * subst h0. rewrite lookup_insert_eq in Hlook. injection Hlook as <-.
        exists pi, pls. split; [exact Hin|]. split; [exact Hpi|lia].
      * exists q, rq. split; [exact Hq|]. split; [|exact Heq].
        subst h0. now rewrite lookup_insert_ne in Hlook.
  - unfold recheck_discard_flags_one. rewrite Hpi, Hneeded, Hctx. cbn [andb negb].
    fold pls0. fold h0. rewrite Hcatch. rewrite lookup_insert_eq.
    destruct (reopen_demux_for_component w (set_cur_seq_no m pls0)) as [[w' pls'] ret].
    subst h0. now rewrite !insert_insert_eq.
Qed.

(** The body of the loop leaves alone a representation that is open and
    wanted, or closed and discarded. *)
Lemma recheck_discard_flags_one_settled p w (h : store) q rq :
  h !! q = Some rq -> needed rq = ctx rq ->
  recheck_discard_flags_one world reopen_demux_for_component p (w, h) q = (w, h).
Proof.
  intros Hq Hsettled. unfold recheck_discard_flags_one. rewrite Hq, Hsettled.
  destruct (ctx rq); reflexivity.
Qed.

Lemma recheck_discard_flags_fold_settled p l : forall w (h : store),
  (forall q, q ∈ l -> exists rq, h !! q = Some rq /\ needed rq = ctx rq) ->
  fold_left (recheck_discard_flags_one world reopen_demux_for_component p) l (w, h) = (w, h).
Proof.
  induction l as [|q l IH]; intros w h Hall; [reflexivity|].
  cbn [fold_left].
  destruct (Hall q ltac:(apply elem_of_cons; now left)) as (rq & Hq & Hsettled).
  rewrite (recheck_discard_flags_one_settled p w h q rq Hq Hsettled).
  apply IH. intros q' Hq'. apply Hall. apply elem_of_cons. now right.
Qed.

(** C7 (amended).  When recheck_discard_flags re-enables a representation
    (it is needed and has no open parser), the representation it hands to
    reopen_demux_for_component has its offsets reset and its cur_seq_no set
    to the maximum cur_seq_no over the list it was called on, that is over
    the representations of the same kind, the representation itself
    included and whether they are active or not.  The maximum is taken over
    the list as it is at the representation's turn, after the
    representations before it have been gone through; when the others are
    settled (open and wanted, or closed and discarded) that is the list as
    recheck_discard_flags found it, and the call does nothing else. *)
Theorem recheck_discard_flags_catch_up
    (p : list rep_ptr) (w : world) (h : store) (pi : rep_ptr) :
  (forall before after w1 h1 pls,
     p = before ++ pi :: after ->
     fold_left (recheck_discard_flags_one world reopen_demux_for_component p) before (w, h)
       = (w1, h1) ->
     h1 !! pi = Some pls -> needed pls = true -> ctx pls = false ->
     (forall q, q ∈ p -> is_Some (h1 !! q)) ->
     exists m,
       (forall q rq, q ∈ p -> h1 !! q = Some rq -> cur_seq_no rq <= m) /\
       (exists q rq, q ∈ p /\ h1 !! q = Some rq /\ cur_seq_no rq = m) /\
       recheck_discard_flags world reopen_demux_for_component w h p =
         (let '(w', pls', _) :=
            reopen_demux_for_component w1
              (set_cur_seq_no m (set_init_sec_buf_read_offset 0 (set_cur_seg_offset 0 pls))) in
          fold_left (recheck_discard_flags_one world reopen_demux_for_component p) after
            (w', <[pi := pls']> h1))) /\
  (forall pls,
     NoDup p -> pi ∈ p ->
     h !! pi = Some pls -> needed pls = true -> ctx pls = false ->
     (forall q, q ∈ p -> q <> pi -> exists rq, h !! q = Some rq /\ needed rq = ctx rq) ->
     exists m,
       (forall q rq, q ∈ p -> h !! q = Some rq -> cur_seq_no rq <= m) /\
       (exists q rq, q ∈ p /\ h !! q = Some rq /\ cur_seq_no rq = m) /\
       recheck_discard_flags world reopen_demux_for_component w h p =
         (let '(w', pls', _) :=
            reopen_demux_for_component w
              (set_cur_seq_no m (set_init_sec_buf_read_offset 0 (set_cur_seg_offset 0 pls))) in
          (w', <[pi := pls']> h))).
Proof.
  assert (Hturn : forall before after w1 h1 pls,
     p = before ++ pi :: after ->
     fold_left (recheck_discard_flags_one world reopen_demux_for_component p) before (w, h)
       = (w1, h1) ->
     h1 !! pi = Some pls -> needed pls = true -> ctx pls = false ->
     (forall q, q ∈ p -> is_Some (h1 !! q)) ->
     exists m,
       (forall q rq, q ∈ p -> h1 !! q = Some rq -> cur_seq_no rq <= m) /\
       (exists q rq, q ∈ p /\ h1 !! q = Some rq /\ cur_seq_no rq = m) /\
       recheck_discard_flags world reopen_demux_for_component w h p =
         (let '(w', pls', _) :=
            reopen_demux_for_component w1
              (set_cur_seq_no m (set_init_sec_buf_read_offset 0 (set_cur_seg_offset 0 pls))) in
          fold_left (recheck_discard_flags_one world reopen_demux_for_component p) after
            (w', <[pi := pls']> h1))).
  { intros before after w1 h1 pls Hp Hbefore Hpi Hneeded Hctx Hall.
    assert (Hin : pi ∈ p).
    { rewrite Hp. apply elem_of_app. right. apply elem_of_cons. now left. }
    destruct (recheck_discard_flags_one_catch_up p w1 h1 pi pls Hpi Hneeded Hctx Hin Hall)
      as (m & Hmax & Hatt & Hone).
    exists m. split; [exact Hmax|]. split; [exact Hatt|].
    unfold recheck_discard_flags. rewrite Hp at 2. rewrite fold_left_app, Hbefore.
    cbn [fold_left]. rewrite Hone.
    destruct (reopen_demux_for_component w1 _) as [[w' pls'] ret]. reflexivity. }
  split; [exact Hturn|].
  intros pls Hnodup Hin Hpi Hneeded Hctx Hsettled.
  destruct (list_elem_of_split _ _ Hin) as (before & after & Hp).
  assert (Hparts : (pi ∉ before) /\ (pi ∉ after)).
  { rewrite Hp in Hnodup. apply NoDup_app in Hnodup.
    destruct Hnodup as (_ & Hdisj & Hafter). apply NoDup_cons in Hafter.
    split; [|apply Hafter]. intros Hb. apply (Hdisj pi Hb). apply elem_of_cons. now left. }
  destruct Hparts as [Hnb Hna].
  assert (Hbefore : fold_left (recheck_discard_flags_one world reopen_demux_for_component p)
                      before (w, h) = (w, h)).
  { apply recheck_discard_flags_fold_settled. intros q Hq. apply Hsettled.
    - rewrite Hp. apply elem_of_app. now left.
    - intros ->. contradiction. }
  destruct (Hturn before after w h pls Hp Hbefore Hpi Hneeded Hctx) as (m & Hmax & Hatt & Hrun).
  { intros q Hq. destruct (decide (q = pi)) as [->|Hne]; [eauto|].
    destruct (Hsettled q Hq Hne) as (rq & Hrq & _). eauto. }
  exists m. split; [exact Hmax|]. split; [exact Hatt|].
  rewrite Hrun.
  destruct (reopen_demux_for_component w _) as [[w' pls'] ret].
  apply recheck_discard_flags_fold_settled. intros q Hq.
  assert (Hne : q <> pi) by (intros ->; contradiction).
  rewrite lookup_insert_ne by congruence.
  apply Hsettled; [|exact Hne]. rewrite Hp. apply elem_of_app. right.
  apply elem_of_cons. now right.
Qed.

End OrchestratorProofs.

Lemma recheck_discard_flags_catch_up_witness :
  recheck_discard_flags unit instant_reopen tt catch_up_store [1%positive; 2%positive]
  = (tt,
     <[1%positive := set_ctx true (set_cur_seq_no 10 (set_init_sec_buf_read_offset 0
                       (set_cur_seg_offset 0 (set_cur_seq_no 5 empty_representation))))]>
       catch_up_store).
Proof.
  destruct (recheck_discard_flags_catch_up unit instant_reopen [1%positive; 2%positive] tt
              catch_up_store 1%positive) as [_ Hclosed].
  destruct (Hclosed (set_cur_seq_no 5 empty_representation))
    as (m & Hmax & (q & rq & Hq & Hlook & Hatt) & Hrun).
  - apply NoDup_cons. split; [|apply NoDup_singleton].
    intros Hin. apply list_elem_of_singleton in Hin. discriminate.
  - apply elem_of_cons. now left.
  - reflexivity.
  - reflexivity.
  - reflexivity.
  - intros q Hq Hne. apply elem_of_cons in Hq. destruct Hq as [->|Hq]; [contradiction|].
    apply list_elem_of_singleton in Hq. subst q. eexists. split; reflexivity.
  - assert (Hm : m = 10).
    { pose proof (Hmax 2%positive (set_ctx true (set_cur_seq_no 10 empty_representation))
                    ltac:(apply elem_of_cons; right; apply elem_of_cons; now left) eq_refl)
        as Hge.
      change (10 <= m) in Hge.
      apply elem_of_cons in Hq. destruct Hq as [->|Hq].
      - change (Some (set_cur_seq_no 5 empty_representation) = Some rq) in Hlook.
        injection Hlook as <-. change (5 = m) in Hatt. lia.
      - apply list_elem_of_singleton in Hq. subst q.
        change (Some (set_ctx true (set_cur_seq_no 10 empty_representation)) = Some rq)
          in Hlook.
        injection Hlook as <-. change (10 = m) in Hatt. lia. }
    rewrite Hrun, Hm. reflexivity.
Defined.

(** C7, as stated, fails: a video representation at segment 5 is re-enabled
    while an active audio representation is at segment 10; after the gating
    step of dash_read_packet the video representation is open and still at
    segment 5. *)
Lemma recheck_discard_flags_counterexample :
  (cur_seq_no <$> (gating_store !! 2%positive)) = Some 10 /\
  (ctx <$> (gating_store !! 2%positive)) = Some true /\
  (ctx <$> (gating_store !! 1%positive)) = Some false /\
  (needed <$> (gating_store !! 1%positive)) = Some true /\
  let h' := snd (dash_read_packet_recheck unit instant_reopen tt gating_context gating_store) in
  (ctx <$> (h' !! 1%positive)) = Some true /\
  (cur_seq_no <$> (h' !! 1%positive)) = Some 5.
Proof. vm_compute. repeat split. Qed.
(** ** Seeking *)

Lemma quot_int64_range a b :
  INT64_MIN <= a <= INT64_MAX -> 0 < b -> INT64_MIN <= Z.quot a b <= INT64_MAX.
Proof.
  intros Ha Hb. destruct (Z_le_gt_dec 0 a) as [Hx|Hx].
  - pose proof (Z.quot_pos a b Hx Hb).
    pose proof (Z.quot_le_upper_bound a b a Hb ltac:(nia)). int_lia.
  - pose proof (Z.quot_opp_l a b ltac:(lia)) as Hopp.
    pose proof (Z.quot_pos (- a) b ltac:(lia) Hb).
    pose proof (Z.quot_le_upper_bound (- a) b (- a) Hb ltac:(nia)). int_lia.
Qed.

Section SeekProofs.

Variable world : Type.
Variable reopen_demux_for_component : world -> representation -> world * representation * Z.
Variable av_seek_frame : world -> representation -> Z -> Z -> world * representation * Z.
Variable av_rescale_rnd : Z -> Z -> Z -> Z -> Z.

Local Abbreviation seek := (dash_seek world reopen_demux_for_component av_seek_frame).
Local Abbreviation seek_list :=
  (dash_read_seek_list world reopen_demux_for_component av_seek_frame).

(** A result code that is 0 or comes from the inner parser. *)
Local Abbreviation inner_code code :=
  (code = 0 \/
   (exists w0 pls0, code = snd (reopen_demux_for_component w0 pls0)) \/
   (exists w0 pls0 ts fl, code = snd (av_seek_frame w0 pls0 ts fl))).

(** dash_seek has no error of its own. *)
Lemma dash_seek_inner_code w pls seek_pos_msec flags dry_run :
  inner_code (snd (seek w pls seek_pos_msec flags dry_run)).
Proof.
  unfold dash_seek.
  destruct (n_fragments pls =? 1); destruct dry_run; cbn [snd].
  - now left.
  - right. right. eauto.
  - now left.
  - right. left. eauto.
Qed.

Lemma dash_read_seek_list_inner_code p : forall w h seek_pos_msec flags ret,
  inner_code ret -> inner_code (snd (seek_list w h p seek_pos_msec flags ret)).
Proof.
  induction p as [|pi p IH]; intros w h seek_pos_msec flags ret Hret; [exact Hret|].
  cbn [dash_read_seek_list]. destruct (ret =? 0); [|now apply IH].
  destruct (h !! pi) as [pls|]; [|now apply IH].
  pose proof (dash_seek_inner_code w pls seek_pos_msec flags (negb (ctx pls))) as Hseek.
  destruct (seek w pls seek_pos_msec flags (negb (ctx pls))) as [[w' pls'] ret'].
  now apply IH.
Qed.

(** Once a seek has failed, the loops do nothing more. *)
Lemma dash_read_seek_list_failed p : forall w h seek_pos_msec flags ret,
  ret <> 0 -> seek_list w h p seek_pos_msec flags ret = (w, h, ret).
Proof.
  induction p as [|pi p IH]; intros w h seek_pos_msec flags ret Hret; [reflexivity|].
  cbn [dash_read_seek_list]. replace (ret =? 0) with false by lia. now apply IH.
Qed.

(** A loop writes to the representations of its list alone. *)
Lemma dash_read_seek_list_lookup_notin p q : q ∉ p ->
  forall w h seek_pos_msec flags ret,
  snd (fst (seek_list w h p seek_pos_msec flags ret)) !! q = h !! q.
Proof.
  induction p as [|pi p IH]; intros Hq w h seek_pos_msec flags ret; [reflexivity|].
  assert (Hne : pi <> q) by (intros ->; apply Hq; apply elem_of_cons; now left).
  assert (Hq' : q ∉ p) by (intros Hin; apply Hq; apply elem_of_cons; now right).
  cbn [dash_read_seek_list]. destruct (ret =? 0); [|now apply IH].
  destruct (h !! pi) as [pls|]; [|now apply IH].
  destruct (seek w pls seek_pos_msec flags (negb (ctx pls))) as [[w' pls'] ret'].
  rewrite IH by exact Hq'. now apply lookup_insert_ne.
Qed.

(** A loop that ends with 0 started with 0 and has seeked every
    representation of its list, each with success. *)
Lemma dash_read_seek_list_success p : forall w h seek_pos_msec flags ret w' h',
  NoDup p ->
  seek_list w h p seek_pos_msec flags ret = (w', h', 0) ->
  ret = 0 /\
  forall q pls, q ∈ p -> h !! q = Some pls ->
    exists w0 w1 r,
      seek w0 pls seek_pos_msec flags (negb (ctx pls)) = (w1, r, 0) /\ h' !! q = Some r.
Proof.
  induction p as [|pi p IH]; intros w h seek_pos_msec flags ret w' h' Hnodup Hrun.
  - cbn [dash_read_seek_list] in Hrun. injection Hrun as _ _ ->.
    split; [reflexivity|]. intros q pls Hq. apply elem_of_nil in Hq. contradiction.
  - apply NoDup_cons in Hnodup. destruct Hnodup as [Hpi Hnodup].
    destruct (Z.eq_dec ret 0) as [->|Hne].
    2:{ rewrite dash_read_seek_list_failed in Hrun by exact Hne. congruence. }
    split; [reflexivity|].
    cbn [dash_read_seek_list Z.eqb] in Hrun.
    destruct (h !! pi) as [pls_i|] eqn:Hlook.
    + destruct (seek w pls_i seek_pos_msec flags (negb (ctx pls_i))) as [[w1 r1] ret1]
        eqn:Hseek.
      pose proof (dash_read_seek_list_lookup_notin p pi Hpi w1 (<[pi := r1]> h)
                    seek_pos_msec flags ret1) as Hkeep.
      rewrite Hrun in Hkeep. cbn [fst snd] in Hkeep. rewrite lookup_insert_eq in Hkeep.
      destruct (IH _ _ _ _ _ _ _ Hnodup Hrun) as [-> Hrest].
      intros q pls Hq Hq'. apply elem_of_cons in Hq. destruct Hq as [->|Hq].
      * rewrite Hlook in Hq'. injection Hq' as <-. exists w, w1, r1. split; assumption.
      * apply Hrest; [exact Hq|]. rewrite lookup_insert_ne; [exact Hq'|].
        intros ->. contradiction.
    + destruct (IH _ _ _ _ _ _ _ Hnodup Hrun) as [_ Hrest].
      intros q pls Hq Hq'. apply elem_of_cons in Hq. destruct Hq as [->|Hq]; [congruence|].
      now apply Hrest.
Qed.

(** A loop that ends with an error it did not start with got it from
    dash_seek on a representation of its list. *)
Lemma dash_read_seek_list_error p : forall w h seek_pos_msec flags w' h' ret',
  NoDup p ->
  seek_list w h p seek_pos_msec flags 0 = (w', h', ret') -> ret' <> 0 ->
  exists q pls w0,
    q ∈ p /\ h !! q = Some pls /\
    ret' = snd (seek w0 pls seek_pos_msec flags (negb (ctx pls))).
Proof.
  induction p as [|pi p IH]; intros w h seek_pos_msec flags w' h' ret' Hnodup Hrun Hret.
  - cbn [dash_read_seek_list] in Hrun. congruence.
  - apply NoDup_cons in Hnodup. destruct Hnodup as [Hpi Hnodup].
    cbn [dash_read_seek_list Z.eqb] in Hrun.
    destruct (h !! pi) as [pls_i|] eqn:Hlook.
    + destruct (seek w pls_i seek_pos_msec flags (negb (ctx pls_i))) as [[w1 r1] ret1]
        eqn:Hseek.
      destruct (Z.eq_dec ret1 0) as [->|Hne].
      * destruct (IH _ _ _ _ _ _ _ Hnodup Hrun Hret) as (q & pls & w0 & Hq & Hq' & Hcode).
        exists q, pls, w0. split; [apply elem_of_cons; now right|]. split; [|exact Hcode].
        rewrite lookup_insert_ne in Hq'; [exact Hq'|]. intros ->. contradiction.
      * rewrite dash_read_seek_list_failed in Hrun by exact Hne.
        injection Hrun as _ _ <-.
        exists pi, pls_i, w. split; [apply elem_of_cons; now left|]. split; [exact Hlook|].
        now rewrite Hseek.
    + destruct (IH _ _ _ _ _ _ _ Hnodup Hrun Hret) as (q & pls & w0 & Hq & Hq' & Hcode).
      exists q, pls, w0. split; [apply elem_of_cons; now right|]. split; assumption.
Qed.

(** dash_seek on a template+duration representation. *)
Lemma dash_seek_template w pls seek_pos_msec flags dry_run :
  fragments pls = [] -> timelines pls = [] -> 0 < fragment_duration pls ->
  seek w pls seek_pos_msec flags dry_run =
    let pls' := set_init_sec_buf_read_offset 0 (set_cur_seg_offset 0 (set_cur_timestamp 0
                  (set_cur_seq_no
                     (add64 (first_seq_no pls)
                        (div64 (div64 (mul64 seek_pos_msec (fragment_timescale pls))
                                      (fragment_duration pls)) 1000))
                     (set_input false pls)))) in
    if dry_run then (w, pls', 0) else reopen_demux_for_component w pls'.
Proof.
  intros Hfr Htl Hfd. unfold dash_seek, n_fragments, n_timelines. rewrite Hfr.
  change (Z.of_nat (length (@nil fragment))) with 0. cbn [Z.eqb].
  assert (Htl' : timelines (set_input false pls) = []) by exact Htl.
  rewrite Htl'. change (Z.of_nat (length (@nil timeline))) with 0. cbn [Z.ltb Z.compare andb].
  change (fragment_duration (set_input false pls)) with (fragment_duration pls).
  replace (0 <? fragment_duration pls) with true by lia.
  reflexivity.
Qed.

(** The three loops of dash_read_seek, for lists that share no
    representation. *)
Lemma dash_read_seek_lists_success videos audios subtitles w h seek_pos_msec flags w' h' :
  NoDup (videos ++ audios ++ subtitles) ->
  (let '(w1, h1, ret1) := seek_list w h videos seek_pos_msec flags 0 in
   let '(w2, h2, ret2) := seek_list w1 h1 audios seek_pos_msec flags ret1 in
   seek_list w2 h2 subtitles seek_pos_msec flags ret2) = (w', h', 0) ->
  forall q pls, q ∈ videos ++ audios ++ subtitles -> h !! q = Some pls ->
    exists w0 w1 r,
      seek w0 pls seek_pos_msec flags (negb (ctx pls)) = (w1, r, 0) /\ h' !! q = Some r.
Proof.
  intros Hnodup Hrun.
  apply NoDup_app in Hnodup. destruct Hnodup as (Hv & Hv_disj & Hnodup).
  apply NoDup_app in Hnodup. destruct Hnodup as (Ha & Ha_disj & Hs).
  pose proof (fun q Hq => dash_read_seek_list_lookup_notin videos q Hq w h seek_pos_msec
                            flags 0) as Hkeep1.
  destruct (seek_list w h videos seek_pos_msec flags 0) as [[w1 h1] ret1] eqn:E1.
  pose proof (fun q Hq => dash_read_seek_list_lookup_notin audios q Hq w1 h1 seek_pos_msec
                            flags ret1) as Hkeep2.
  destruct (seek_list w1 h1 audios seek_pos_msec flags ret1) as [[w2 h2] ret2] eqn:E2.
  pose proof (fun q Hq => dash_read_seek_list_lookup_notin subtitles q Hq w2 h2 seek_pos_msec
                            flags ret2) as Hkeep3.
  rewrite Hrun in Hkeep3. cbn [fst snd] in Hkeep1, Hkeep2, Hkeep3.
  destruct (dash_read_seek_list_success _ _ _ _ _ _ _ _ Hs Hrun) as [-> Hpos3].
  destruct (dash_read_seek_list_success _ _ _ _ _ _ _ _ Ha E2) as [-> Hpos2].
  destruct (dash_read_seek_list_success _ _ _ _ _ _ _ _ Hv E1) as [_ Hpos1].
  intros q pls Hq Hlook. rewrite !elem_of_app in Hq. destruct Hq as [Hq|[Hq|Hq]].
  - destruct (Hpos1 q pls Hq Hlook) as (w0 & w1' & r & Hseek & Hr).
    exists w0, w1', r. split; [exact Hseek|].
    assert (Hna : q ∉ audios).
    { intros Hin. apply (Hv_disj q Hq). apply elem_of_app. now left. }
    assert (Hns : q ∉ subtitles).
    { intros Hin. apply (Hv_disj q Hq). apply elem_of_app. now right. }
    now rewrite (Hkeep3 q Hns), (Hkeep2 q Hna).
  - assert (Hnv : q ∉ videos).
    { intros Hin. apply (Hv_disj q Hin). apply elem_of_app. now left. }
    assert (Hns : q ∉ subtitles) by (intros Hin; now apply (Ha_disj q Hq)).
    rewrite <- (Hkeep1 q Hnv) in Hlook.
    destruct (Hpos2 q pls Hq Hlook) as (w0 & w1' & r & Hseek & Hr).
    exists w0, w1', r. split; [exact Hseek|]. now rewrite (Hkeep3 q Hns).
  - assert (Hnv : q ∉ videos).
    { intros Hin. apply (Hv_disj q Hin). apply elem_of_app. now right. }
    assert (Hna : q ∉ audios) by (intros Hin; now apply (Ha_disj q Hin)).
    rewrite <- (Hkeep1 q Hnv), <- (Hkeep2 q Hna) in Hlook.
    now apply Hpos3.
Qed.

Lemma dash_read_seek_lists_error videos audios subtitles w h seek_pos_msec flags w' h' ret' :
  NoDup (videos ++ audios ++ subtitles) ->
  (let '(w1, h1, ret1) := seek_list w h videos seek_pos_msec flags 0 in
   let '(w2, h2, ret2) := seek_list w1 h1 audios seek_pos_msec flags ret1 in
   seek_list w2 h2 subtitles seek_pos_msec flags ret2) = (w', h', ret') ->
  ret' <> 0 ->
  exists q pls w0,
    q ∈ videos ++ audios ++ subtitles /\ h !! q = Some pls /\
    ret' = snd (seek w0 pls seek_pos_msec flags (negb (ctx pls))).
Proof.
  intros Hnodup Hrun Hret.
  apply NoDup_app in Hnodup. destruct Hnodup as (Hv & Hv_disj & Hnodup).
  apply NoDup_app in Hnodup. destruct Hnodup as (Ha & Ha_disj & Hs).
  pose proof (fun q Hq => dash_read_seek_list_lookup_notin videos q Hq w h seek_pos_msec
                            flags 0) as Hkeep1.
  destruct (seek_list w h videos seek_pos_msec flags 0) as [[w1 h1] ret1] eqn:E1.
  cbn [fst snd] in Hkeep1.
  destruct (Z.eq_dec ret1 0) as [->|Hne1].
  2:{ rewrite (dash_read_seek_list_failed audios) in Hrun by exact Hne1.
      rewrite (dash_read_seek_list_failed subtitles) in Hrun by exact Hne1.
      injection Hrun as _ _ <-.
      destruct (dash_read_seek_list_error _ _ _ _ _ _ _ _ Hv E1 Hne1)
        as (q & pls & w0 & Hq & Hlook & Hcode).
      exists q, pls, w0. split; [apply elem_of_app; now left|]. split; assumption. }
  pose proof (fun q Hq => dash_read_seek_list_lookup_notin audios q Hq w1 h1 seek_pos_msec
                            flags 0) as Hkeep2.
  destruct (seek_list w1 h1 audios seek_pos_msec flags 0) as [[w2 h2] ret2] eqn:E2.
  cbn [fst snd] in Hkeep2.
  destruct (Z.eq_dec ret2 0) as [->|Hne2].
  2:{ rewrite (dash_read_seek_list_failed subtitles) in Hrun by exact Hne2.
      injection Hrun as _ _ <-.
      destruct (dash_read_seek_list_error _ _ _ _ _ _ _ _ Ha E2 Hne2)
        as (q & pls & w0 & Hq & Hlook & Hcode).
      assert (Hnv : q ∉ videos).
      { intros Hin. apply (Hv_disj q Hin). apply elem_of_app. now left. }
      exists q, pls, w0. split; [rewrite !elem_of_app; auto|]. split; [|exact Hcode].
      now rewrite <- (Hkeep1 q Hnv). }
  destruct (dash_read_seek_list_error _ _ _ _ _ _ _ _ Hs Hrun Hret)
    as (q & pls & w0 & Hq & Hlook & Hcode).
  assert (Hnv : q ∉ videos).
  { intros Hin. apply (Hv_disj q Hin). apply elem_of_app. now right. }
  assert (Hna : q ∉ audios) by (intros Hin; now apply (Ha_disj q Hin)).
  exists q, pls, w0. split; [rewrite !elem_of_app; auto|]. split; [|exact Hcode].
  now rewrite <- (Hkeep1 q Hnv), <- (Hkeep2 q Hna).
Qed.


End SeekProofs.


(** ** Manifest refresh *)

Section RefreshProofs.

Variable world : Type.
Variable parse_manifest :
  world -> DASHContext -> store -> Z -> world * DASHContext * store * Z.
Variable av_cmp_q : Z * Z -> Z * Z -> Z.
Variable now : Z.

Lemma move_video_params_ret rep_src rep_dest :
  fst (fst (move_video_params av_cmp_q rep_src rep_dest)) = 0 \/
  fst (fst (move_video_params av_cmp_q rep_src rep_dest)) = AVERROR_INPUT_CHANGED.
Proof.
  unfold move_video_params.
  repeat match goal with |- context [if ?b then _ else _] => destruct b end;
    cbn [fst]; auto.
Qed.

Lemma move_audio_params_ret rep_src rep_dest :
  fst (fst (move_audio_params rep_src rep_dest)) = 0 \/
  fst (fst (move_audio_params rep_src rep_dest)) = AVERROR_INPUT_CHANGED.
Proof.
  unfold move_audio_params.
  repeat match goal with |- context [if ?b then _ else _] => destruct b end;
    cbn [fst]; auto.
Qed.

(** A loop of refresh_manifest leaves through [return] only with the
    invalid-manifest error, and through [goto finish] only with the
    input-changed error. *)
Lemma refresh_list_exit params narrow c new target_rep old :
  (forall a b, fst (fst (params a b)) = 0 \/ fst (fst (params a b)) = AVERROR_INPUT_CHANGED) ->
  forall h,
  match snd (refresh_list now params narrow c new target_rep old h) with
  | Refresh_return ret => ret = AVERROR_INVALIDDATA
  | Refresh_finish ret => ret = AVERROR_INPUT_CHANGED
  | Refresh_done => True
  end.
Proof.
  intros Hparams. induction old as [|cur_ptr old IH]; intros h; [exact I|].
  cbn [refresh_list]. destruct (negb (bool_decide (cur_ptr = target_rep))); [apply IH|].
  destruct (h !! cur_ptr) as [cur|]; [|apply IH].
  destruct (find_representation h new cur) as [ccur_ptr|]; [|reflexivity].
  destruct (h !! ccur_ptr) as [ccur|]; [|reflexivity].
  specialize (Hparams ccur cur). destruct (params ccur cur) as [[ret ccur'] cur'].
  cbn [fst] in Hparams. destruct (ret =? 0) eqn:E; cbn [negb].
  - destruct (splice_representation now narrow c ccur' cur'). apply IH.
  - cbn [snd]. lia.
Qed.

Lemma refresh_manifest_finish_context base_url videos audios subtitles c h :
  let c' := fst (refresh_manifest_finish base_url videos audios subtitles c h) in
  c_videos c' = videos /\ c_audios c' = audios /\ c_subtitles c' = subtitles /\
  c_base_url c' = match c_base_url c with Some u => Some u | None => base_url end.
Proof.
  unfold refresh_manifest_finish. destruct (c_base_url c) eqn:E; cbn; rewrite ?E; auto.
Qed.


End RefreshProofs.


(** ** More on the timeline walks *)

(** The walk of get_segment_start_time_based_on_timeline across one entry
    of a well-formed timeline, in closed form. *)
Lemma get_segment_start_time_walk_entry e tls st num target :
  timeline_wf (e :: tls) st -> INT64_MIN <= st -> INT64_MIN <= num ->
  num + seg_count (e :: tls) <= INT64_MAX -> num <= target ->
  get_segment_start_time_walk (e :: tls) target st num =
  if target <=? num + tl_repeat e
  then entry_start st e + (target - num) * tl_duration e
  else get_segment_start_time_walk tls target (entry_end st e) (num + tl_repeat e + 1).
Proof.
  intros Hwf Hst Hnum Hcnt Htgt. cbn [timeline_wf seg_count] in *.
  destruct Hwf as (Hd & Hr & Hes & Hwf).
  pose proof (timeline_wf_bound _ _ Hwf) as Hend.
  pose proof (seg_count_nonneg _ _ Hwf) as Hsc.
  cbn [get_segment_start_time_walk].
  change (if 0 <? tl_starttime e then tl_starttime e else st) with (entry_start st e).
  unfold entry_end in *.
  set (s0 := entry_start st e) in *. set (d := tl_duration e) in *. set (r := tl_repeat e) in *.
  assert (Hn : Z.of_nat (Z.to_nat r) = r) by lia.
  rewrite (add64_id s0 d) by int_nia.
  replace (r =? -1) with false by lia.
  rewrite get_segment_start_time_repeat_spec by (rewrite ?Hn; int_nia).
  rewrite Hn.
  destruct (num =? target) eqn:E0.
  { replace (target <=? num + r) with true by lia. nia. }
  destruct (target <=? num + r) eqn:E1.
  - replace (num <? target) with true by lia. cbn [andb]. ring.
  - rewrite andb_false_r. rewrite (add64_id (num + r) 1) by int_lia.
    f_equal. ring.
Qed.

(** The same for calc_next_seg_no_from_timelines. *)
Lemma calc_next_seg_no_walk_entry e tls st num q :
  timeline_wf (e :: tls) st -> INT64_MIN <= st -> INT64_MIN <= num ->
  num + seg_count (e :: tls) <= INT64_MAX ->
  calc_next_seg_no_walk (e :: tls) q st num =
  if q <? entry_start st e then Some num
  else if q <? entry_start st e + tl_repeat e * tl_duration e
  then Some (num + (q - entry_start st e) / tl_duration e + 1)
  else calc_next_seg_no_walk tls q (entry_end st e) (num + tl_repeat e + 1).
Proof.
  intros Hwf Hst Hnum Hcnt. cbn [timeline_wf seg_count] in *.
  destruct Hwf as (Hd & Hr & Hes & Hwf).
  pose proof (timeline_wf_bound _ _ Hwf) as Hend.
  pose proof (seg_count_nonneg _ _ Hwf) as Hsc.
  cbn [calc_next_seg_no_walk].
  change (if 0 <? tl_starttime e then tl_starttime e else st) with (entry_start st e).
  unfold entry_end in *.
  set (s0 := entry_start st e) in *. set (d := tl_duration e) in *. set (r := tl_repeat e) in *.
  assert (Hn : Z.of_nat (Z.to_nat r) = r) by lia.
  rewrite (add64_id s0 d) by int_nia.
  destruct (q <? s0) eqn:E0; [reflexivity|].
  destruct (q <? s0 + r * d) eqn:E1.
  - set (m := (q - s0) / d).
    assert (Hm : d * m <= q - s0 < d * m + d).
    { pose proof (Z.div_mod (q - s0) d ltac:(lia)) as Hdm.
      pose proof (Z.mod_pos_bound (q - s0) d Hd). fold m in Hdm. lia. }
    assert (0 <= m < r) by nia.
    destruct (calc_next_seg_no_repeat_finish (Z.to_nat r) d q (s0 + d) num m)
      as [st' Hst']; try (rewrite ?Hn; int_nia).
    rewrite Hst'. reflexivity.
  - rewrite calc_next_seg_no_repeat_fallthrough by (rewrite ?Hn; int_nia).
    rewrite Hn. rewrite (add64_id (num + r) 1) by int_lia. f_equal. ring.
Qed.

Lemma get_segment_start_time_walk_lower tls : forall st num target,
  timeline_wf tls st -> INT64_MIN <= st -> INT64_MIN <= num ->
  num + seg_count tls <= INT64_MAX -> num <= target < num + seg_count tls ->
  st <= get_segment_start_time_walk tls target st num <= INT64_MAX.
Proof.
  intros st num target Hwf Hst Hnum Hcnt Htgt.
  now destruct (timeline_round_trip tls st num target Hwf Hst Hnum Hcnt Htgt) as [H _].
Qed.

(** Consecutive segments start at least one shortest duration apart. *)
Lemma get_segment_start_time_walk_step m tls : forall st num target,
  timeline_wf tls st -> Forall (fun t => m <= tl_duration t) tls ->
  INT64_MIN <= st -> INT64_MIN <= num -> num + seg_count tls <= INT64_MAX ->
  num <= target -> target + 1 < num + seg_count tls ->
  get_segment_start_time_walk tls target st num + m
  <= get_segment_start_time_walk tls (target + 1) st num.
Proof.
  induction tls as [|e tls IH]; intros st num target Hwf Hm Hst Hnum Hcnt Hlo Hhi.
  { cbn [seg_count] in Hhi. lia. }
  rewrite !get_segment_start_time_walk_entry by (assumption || lia).
  inversion Hm as [|e' l Hme Hmtl]; subst.
  cbn [timeline_wf seg_count] in *. destruct Hwf as (Hd & Hr & Hes & Hwf).
  pose proof (seg_count_nonneg _ _ Hwf) as Hsc.
  pose proof (timeline_wf_bound _ _ Hwf) as Hend.
  assert (Hes' : INT64_MIN <= entry_end st e) by (unfold entry_end; int_nia).
  destruct (target + 1 <=? num + tl_repeat e) eqn:E1.
  - replace (target <=? num + tl_repeat e) with true by lia. nia.
  - destruct (target <=? num + tl_repeat e) eqn:E0.
    + assert (target = num + tl_repeat e) by lia. subst target.
      pose proof (get_segment_start_time_walk_lower tls (entry_end st e)
                    (num + tl_repeat e + 1) (num + tl_repeat e + 1) Hwf Hes'
                    ltac:(lia) ltac:(lia) ltac:(lia)) as Hlow.
      unfold entry_end in *. nia.
    + apply IH; try assumption; lia.
Qed.

(** calc_next_seg_no_from_timelines finds the segment in whose interval the
    query lies: the first one that starts after it. *)
Lemma calc_next_seg_no_walk_between tls : forall st num target q,
  timeline_wf tls st -> INT64_MIN <= st -> INT64_MIN <= num ->
  num + seg_count tls <= INT64_MAX -> num <= target < num + seg_count tls ->
  (target = num \/ get_segment_start_time_walk tls (target - 1) st num <= q) ->
  q < get_segment_start_time_walk tls target st num ->
  calc_next_seg_no_walk tls q st num = Some target.
Proof.
  induction tls as [|e tls IH]; intros st num target q Hwf Hst Hnum Hcnt Htgt Hprev Hq.
  { cbn [seg_count] in Htgt. lia. }
  rewrite calc_next_seg_no_walk_entry by assumption.
  rewrite get_segment_start_time_walk_entry in Hq by (assumption || lia).
  assert (Hwf0 := Hwf).
  cbn [timeline_wf seg_count] in *. destruct Hwf as (Hd & Hr & Hes & Hwf).
  pose proof (seg_count_nonneg _ _ Hwf) as Hsc.
  pose proof (timeline_wf_bound _ _ Hwf) as Hend.
  assert (Hes' : INT64_MIN <= entry_end st e) by (unfold entry_end; int_nia).
  set (s0 := entry_start st e) in *. set (d := tl_duration e) in *. set (r := tl_repeat e) in *.
  destruct (Z.eq_dec target num) as [->|Hne].
  { replace (num <=? num + r) with true in Hq by lia.
    replace (q <? s0) with true by nia. reflexivity. }
  destruct Hprev as [Heq|Hprev]; [lia|].
  rewrite get_segment_start_time_walk_entry in Hprev by (assumption || lia).
  fold s0 d r in Hprev.
  destruct (target <=? num + r) eqn:E1.
  - replace (target - 1 <=? num + r) with true in Hprev by lia.
    replace (q <? s0) with false by nia.
    replace (q <? s0 + r * d) with true by nia.
    f_equal.
    assert ((q - s0) / d = target - 1 - num); [|lia].
    symmetry. apply (Z.div_unique_pos (q - s0) d (target - 1 - num) (q - s0 - d * (target - 1 - num)));
      nia.
  - destruct (target - 1 <=? num + r) eqn:E2.
    + assert (target = num + r + 1) by lia. subst target.
      replace (q <? s0) with false by nia.
      replace (q <? s0 + r * d) with false by nia.
      apply IH; try assumption; lia.
    + pose proof (get_segment_start_time_walk_lower tls (entry_end st e) (num + r + 1)
                    (target - 1) Hwf Hes' ltac:(lia) ltac:(lia) ltac:(lia)) as Hlow.
      assert (Hee : entry_end st e = s0 + d * (r + 1)) by reflexivity.
      replace (q <? s0) with false by nia.
      replace (q <? s0 + r * d) with false by nia.
      apply IH; try assumption; try lia; right; exact Hprev.
Qed.
(** calc_max_seg_no on a representation with a well-formed timeline and
    no fragment list. *)
Lemma calc_max_seg_no_of_timeline (now : Z) (c : DASHContext) (pls : representation) :
  fragments pls = [] -> timelines pls <> [] -> timeline_wf (timelines pls) 0 ->
  0 <= first_seq_no pls -> first_seq_no pls + seg_count (timelines pls) <= INT64_MAX ->
  calc_max_seg_no now pls c = first_seq_no pls + seg_count (timelines pls) - 1.
Proof.
  intros Hfr Htl Hwf Hfirst Hmax.
  unfold calc_max_seg_no, n_fragments, n_timelines. rewrite Hfr.
  change (Z.of_nat (length (@nil fragment))) with 0. cbn [Z.eqb negb].
  replace (Z.of_nat (length (timelines pls)) =? 0) with false
    by (destruct (timelines pls); [congruence|cbn [length]; lia]).
  cbn [negb].
  pose proof (timelines_length_le_seg_count _ _ Hwf).
  pose proof (seg_count_nonneg _ _ Hwf).
  rewrite (add64_id (first_seq_no pls) (Z.of_nat (length (timelines pls)))) by int_lia.
  rewrite (sub64_id (first_seq_no pls + Z.of_nat (length (timelines pls))) 1) by int_lia.
  rewrite (calc_max_seg_no_timelines_wf c pls _ 0) by (assumption || int_lia). lia.
Qed.

(** X1.  For a well-formed timeline, calc_max_seg_no is the number of the
    last segment the timeline describes: first_seq_no plus the segment count
    minus 1. *)
Theorem calc_max_seg_no_timeline_count
    (now : Z) (c : DASHContext) (pls : representation) :
  timeline_rep_ok c pls ->
  calc_max_seg_no now pls c = first_seq_no pls + seg_count (timelines pls) - 1.
Proof.
  intros (Hfr & Htl & Hwf & Hfirst & Hmax & _).
  now apply calc_max_seg_no_of_timeline.
Qed.

Lemma calc_max_seg_no_timeline_count_witness :
  calc_max_seg_no 0 discontinuity_rep (empty_context true true) = 0 + 3 - 1.
Proof.
  apply (calc_max_seg_no_timeline_count 0 (empty_context true true) discontinuity_rep).
  unfold timeline_rep_ok. split; [reflexivity|]. split; [discriminate|].
  split; [vm_compute; repeat split; (reflexivity || discriminate)|].
  split; [vm_compute; discriminate|]. split; [vm_compute; discriminate|].
  left. reflexivity.
Defined.

(** On a representation that is [timeline_rep_ok], the two functions are
    the walks from the start of the timeline, on the number counted from
    first_seq_no. *)
Lemma get_segment_start_time_of_walk c pls N :
  timeline_rep_ok c pls -> first_seq_no pls <= N <= INT64_MAX ->
  get_segment_start_time_based_on_timeline c pls N =
  get_segment_start_time_walk (timelines pls) (N - first_seq_no pls) 0 0.
Proof.
  intros (Hfr & Htl & Hwf & Hfirst & Hmax & Hopt) HN.
  unfold get_segment_start_time_based_on_timeline, n_timelines.
  replace (Z.of_nat (length (timelines pls)) =? 0) with false
    by (destruct (timelines pls); [congruence|cbn [length]; lia]).
  f_equal. destruct Hopt as [Hon|H0].
  - rewrite Hon. replace (first_seq_no pls <=? N) with true by lia. cbn [andb].
    apply sub64_id. int_lia.
  - rewrite H0. destruct (_ && _); [apply sub64_id; int_lia|lia].
Qed.

Lemma calc_next_seg_no_of_walk c pls q k :
  timeline_rep_ok c pls -> 0 <= k < seg_count (timelines pls) ->
  calc_next_seg_no_walk (timelines pls) q 0 0 = Some k ->
  calc_next_seg_no_from_timelines c pls q = first_seq_no pls + k.
Proof.
  intros (Hfr & Htl & Hwf & Hfirst & Hmax & Hopt) Hk Hwalk.
  unfold calc_next_seg_no_from_timelines. rewrite Hwalk.
  destruct Hopt as [Hon|H0].
  - rewrite Hon. rewrite add64_id by int_lia. lia.
  - rewrite H0. destruct (c_use_timeline_segment_offset_correction c);
      [rewrite add64_id by int_lia|]; lia.
Qed.

(** X2.  Segment start times increase with the sequence number: over the
    valid numbers of a well-formed timeline, the next segment starts later,
    and by at least any lower bound of the segment durations. *)
Theorem get_segment_start_time_increasing
    (c : DASHContext) (pls : representation) (N : Z) :
  timeline_rep_ok c pls ->
  first_seq_no pls <= N -> N + 1 < first_seq_no pls + seg_count (timelines pls) ->
  get_segment_start_time_based_on_timeline c pls N
    < get_segment_start_time_based_on_timeline c pls (N + 1) /\
  forall m, Forall (fun t => m <= tl_duration t) (timelines pls) ->
    get_segment_start_time_based_on_timeline c pls N + m
    <= get_segment_start_time_based_on_timeline c pls (N + 1).
Proof.
  intros Hok Hlo Hhi. assert (Hok' := Hok).
  destruct Hok' as (Hfr & Htl & Hwf & Hfirst & Hmax & Hopt).
  rewrite !get_segment_start_time_of_walk by (assumption || int_lia).
  replace (N + 1 - first_seq_no pls) with (N - first_seq_no pls + 1) by lia.
  assert (Hstep : forall m, Forall (fun t => m <= tl_duration t) (timelines pls) ->
    get_segment_start_time_walk (timelines pls) (N - first_seq_no pls) 0 0 + m
    <= get_segment_start_time_walk (timelines pls) (N - first_seq_no pls + 1) 0 0).
  { intros m Hm. apply get_segment_start_time_walk_step; try assumption; int_lia. }
  split; [|exact Hstep].
  assert (Hone : Forall (fun t => 1 <= tl_duration t) (timelines pls)).
  { clear -Hwf. revert Hwf. generalize 0. induction (timelines pls) as [|e l IH]; intros z Hwf.
    - constructor.
    - cbn [timeline_wf] in Hwf. destruct Hwf as (Hd & _ & _ & Hwf).
      constructor; [lia|]. eapply IH. exact Hwf. }
  specialize (Hstep 1 Hone). lia.
Qed.

Lemma get_segment_start_time_increasing_witness :
  get_segment_start_time_based_on_timeline (empty_context true true) discontinuity_rep 1
    < get_segment_start_time_based_on_timeline (empty_context true true) discontinuity_rep (1 + 1) /\
  forall m, Forall (fun t => m <= tl_duration t) (timelines discontinuity_rep) ->
    get_segment_start_time_based_on_timeline (empty_context true true) discontinuity_rep 1 + m
    <= get_segment_start_time_based_on_timeline (empty_context true true) discontinuity_rep (1 + 1).
Proof.
  apply (get_segment_start_time_increasing (empty_context true true) discontinuity_rep 1).
  - unfold timeline_rep_ok. split; [reflexivity|]. split; [discriminate|].
    split; [vm_compute; repeat split; (reflexivity || discriminate)|].
    split; [vm_compute; discriminate|]. split; [vm_compute; discriminate|].
    left. reflexivity.
  - vm_compute. discriminate.
  - vm_compute. reflexivity.
Defined.

(** X3.  calc_next_seg_no_from_timelines returns the segment in whose
    interval the query time lies: N when the query is before the start of N
    and, unless N is the first segment, not before the start of N - 1. *)
Theorem calc_next_seg_no_between
    (c : DASHContext) (pls : representation) (N q : Z) :
  timeline_rep_ok c pls ->
  first_seq_no pls <= N < first_seq_no pls + seg_count (timelines pls) ->
  N = first_seq_no pls \/ get_segment_start_time_based_on_timeline c pls (N - 1) <= q ->
  q < get_segment_start_time_based_on_timeline c pls N ->
  calc_next_seg_no_from_timelines c pls q = N.
Proof.
  intros Hok HN Hprev Hq. assert (Hok' := Hok).
  destruct Hok' as (Hfr & Htl & Hwf & Hfirst & Hmax & Hopt).
  rewrite get_segment_start_time_of_walk in Hq by (assumption || int_lia).
  rewrite (calc_next_seg_no_of_walk c pls q (N - first_seq_no pls)); try assumption; try lia.
  apply calc_next_seg_no_walk_between; try assumption; try int_lia.
  destruct Hprev as [->|Hprev]; [left; lia|].
  destruct (Z.eq_dec N (first_seq_no pls)) as [->|Hne]; [left; lia|]. right.
  rewrite get_segment_start_time_of_walk in Hprev by (assumption || int_lia).
  replace (N - first_seq_no pls - 1) with (N - 1 - first_seq_no pls) by lia. exact Hprev.
Qed.

Lemma calc_next_seg_no_between_witness :
  calc_next_seg_no_from_timelines (empty_context true true) discontinuity_rep 7 = 2.
Proof.
  apply (calc_next_seg_no_between (empty_context true true) discontinuity_rep 2 7).
  - unfold timeline_rep_ok. split; [reflexivity|]. split; [discriminate|].
    split; [vm_compute; repeat split; (reflexivity || discriminate)|].
    split; [vm_compute; discriminate|]. split; [vm_compute; discriminate|].
    left. reflexivity.
  - vm_compute. split; [discriminate|reflexivity].
  - right. vm_compute. discriminate.
  - vm_compute. reflexivity.
Defined.
(** X4.  A refresh that finds the same timeline keeps the play position:
    when the new representation has the timeline, numbering and timescale of
    the driven one, the period has not advanced and no segment is shorter
    than one second, the splice leaves cur_seq_no where it was, keeps the
    timeline and sets last_seq_no to the number of the last segment.
    [narrow] is the conversion to the type of newSeqNo (int for audio),
    which must hold the sequence number. *)
Theorem splice_same_timeline_keeps_position
    (now : Z) (narrow : Z -> Z) (c : DASHContext) (ccur cur : representation) :
  timeline_rep_ok c cur ->
  timelines ccur = timelines cur -> first_seq_no ccur = first_seq_no cur ->
  fragment_timescale ccur = fragment_timescale cur -> 0 < fragment_timescale cur ->
  Forall (fun t => fragment_timescale cur <= tl_duration t) (timelines cur) ->
  c_period_start c <= period_start cur ->
  first_seq_no cur <= cur_seq_no cur < first_seq_no cur + seg_count (timelines cur) ->
  narrow (cur_seq_no cur) = cur_seq_no cur ->
  let cur' := snd (splice_representation now narrow c ccur cur) in
  cur_seq_no cur' = cur_seq_no cur /\ timelines cur' = timelines cur /\
  last_seq_no cur' = first_seq_no cur + seg_count (timelines cur) - 1.
Proof.
  intros Hok Htls Hfirst Hts Htspos Hdur Hperiod HN Hnarrow.
  assert (Hok' := Hok). destruct Hok' as (Hfr & Htl & Hwf & Hfirst0 & Hmax & Hopt).
  set (N := cur_seq_no cur) in *. set (ts := fragment_timescale cur) in *.
  set (start := get_segment_start_time_based_on_timeline c cur N).
  assert (Hstart : 0 <= start <= INT64_MAX).
  { subst start. rewrite get_segment_start_time_of_walk by (assumption || int_lia).
    apply get_segment_start_time_walk_lower; try assumption; int_lia. }
  assert (Hfloor : start - ts < start / ts * ts <= start).
  { pose proof (Z.div_mod start ts ltac:(lia)) as Hdm.
    pose proof (Z.mod_pos_bound start ts Htspos). nia. }
  assert (Hquot : 0 <= start / ts <= start).
  { split; [apply Z.div_pos; lia|apply Z.div_le_upper_bound; nia]. }
  assert (Hdiv : div64 start ts = start / ts).
  { unfold div64. rewrite Z.quot_div_nonneg by lia. apply to_int64_id. int_lia. }
  assert (Hq : sub64 (mul64 (div64 start ts) ts) 1 = start / ts * ts - 1).
  { rewrite Hdiv. rewrite (mul64_id (start / ts) ts) by int_nia. apply sub64_id. int_nia. }
  assert (Hnext : calc_next_seg_no_from_timelines c ccur
                    (sub64 (mul64 (div64 start ts) ts) 1) = N).
  { rewrite Hq.
    assert (Hsame : forall q, calc_next_seg_no_from_timelines c ccur q
                              = calc_next_seg_no_from_timelines c cur q).
    { intros q. unfold calc_next_seg_no_from_timelines. now rewrite Htls, Hfirst. }
    rewrite Hsame.
    assert (Hwalk : start = get_segment_start_time_walk (timelines cur)
                              (N - first_seq_no cur) 0 0).
    { subst start. apply get_segment_start_time_of_walk; [assumption|int_lia]. }
    rewrite (calc_next_seg_no_of_walk c cur _ (N - first_seq_no cur)); try assumption;
      try lia.
    apply calc_next_seg_no_walk_between; try assumption; try int_lia.
    destruct (Z.eq_dec N (first_seq_no cur)) as [Heq|Hne]; [left; lia|right].
    pose proof (get_segment_start_time_walk_step ts (timelines cur) 0 0
                  (N - first_seq_no cur - 1) Hwf Hdur ltac:(int_lia) ltac:(int_lia)
                  ltac:(lia) ltac:(lia) ltac:(lia)) as Hstep.
    replace (N - first_seq_no cur - 1 + 1) with (N - first_seq_no cur) in Hstep by lia.
    rewrite <- Hwalk in Hstep. lia. }
  unfold splice_representation. cbn zeta.
  replace (n_timelines cur =? 0) with false
    by (unfold n_timelines; destruct (timelines cur); [congruence|cbn [length]; lia]).
  cbn [negb]. replace (period_start cur <? c_period_start c) with false by lia.
  fold N ts start. rewrite Hts. fold ts. rewrite Hnext, Hnarrow.
  replace (0 <=? N) with true by lia.
  unfold move_timelines.
  set (dest := set_first_seq_no (first_seq_no (set_cur_seq_no N ccur))
                 (set_timelines (timelines (set_cur_seq_no N ccur)) cur)).
  assert (Hdest : timeline_rep_ok c dest).
  { unfold timeline_rep_ok. subst dest.
    change (fragments (set_first_seq_no (first_seq_no (set_cur_seq_no N ccur))
                         (set_timelines (timelines (set_cur_seq_no N ccur)) cur)))
      with (fragments cur).
    change (timelines (set_first_seq_no (first_seq_no (set_cur_seq_no N ccur))
                         (set_timelines (timelines (set_cur_seq_no N ccur)) cur)))
      with (timelines ccur).
    change (first_seq_no (set_first_seq_no (first_seq_no (set_cur_seq_no N ccur))
                            (set_timelines (timelines (set_cur_seq_no N ccur)) cur)))
      with (first_seq_no ccur).
    rewrite Htls, Hfirst. repeat split; assumption. }
  assert (Hlast : calc_max_seg_no now dest c
                  = first_seq_no dest + seg_count (timelines dest) - 1).
  { destruct Hdest as (Hd1 & Hd2 & Hd3 & Hd4 & Hd5 & _).
    now apply calc_max_seg_no_of_timeline. }
  assert (Hfrag : n_fragments
            (set_cur_timestamp (cur_timestamp (set_cur_seq_no N ccur))
               (set_cur_seq_no (cur_seq_no (set_cur_seq_no N ccur))
                  (set_last_seq_no (calc_max_seg_no now dest c) dest))) = 0).
  { unfold n_fragments.
    change (fragments (set_cur_timestamp (cur_timestamp (set_cur_seq_no N ccur))
               (set_cur_seq_no (cur_seq_no (set_cur_seq_no N ccur))
                  (set_last_seq_no (calc_max_seg_no now dest c) dest))))
      with (fragments cur). now rewrite Hfr. }
  rewrite Hfrag. cbn [Z.eqb negb snd].
  split; [reflexivity|]. split.
  - change (timelines ccur = timelines cur). exact Htls.
  - change (calc_max_seg_no now dest c = first_seq_no cur + seg_count (timelines cur) - 1).
    rewrite Hlast.
    change (first_seq_no dest) with (first_seq_no ccur).
    change (timelines dest) with (timelines ccur). now rewrite Htls, Hfirst.
Qed.

Lemma splice_same_timeline_keeps_position_witness :
  let cur := set_cur_seq_no 1 discontinuity_rep in
  let cur' := snd (splice_representation 0 to_int32 (empty_context true true) cur cur) in
  cur_seq_no cur' = cur_seq_no cur /\ timelines cur' = timelines cur /\
  last_seq_no cur' = first_seq_no cur + seg_count (timelines cur) - 1.
Proof.
  apply (splice_same_timeline_keeps_position 0 to_int32 (empty_context true true)
           (set_cur_seq_no 1 discontinuity_rep) (set_cur_seq_no 1 discontinuity_rep)).
  - unfold timeline_rep_ok. split; [reflexivity|]. split; [discriminate|].
    split; [vm_compute; repeat split; (reflexivity || discriminate)|].
    split; [vm_compute; discriminate|]. split; [vm_compute; discriminate|].
    left. reflexivity.
  - reflexivity.
  - reflexivity.
  - reflexivity.
  - vm_compute. reflexivity.
  - repeat constructor; vm_compute; discriminate.
  - vm_compute. discriminate.
  - vm_compute. split; [discriminate|reflexivity].
  - vm_compute. reflexivity.
Defined.
(** ** The representation dash_read_packet reads from *)

(** What the loops know after the representations in [seen]. *)
Lemma dash_read_packet_consider_invariant (h : store) (reps : list rep_ptr) :
  forall (seen : list rep_ptr) (st : packet_choice),
  match choice_cur st with
  | None => forall q rq, q ∈ seen -> h !! q = Some rq -> ctx rq = false
  | Some p =>
      exists r, p ∈ seen /\ h !! p = Some r /\ ctx r = true /\
        choice_mseg st = cur_seq_no r /\ choice_mints st = cur_timestamp r /\
        forall q rq, q ∈ seen -> h !! q = Some rq -> ctx rq = true -> packet_key_le r rq
  end ->
  let st' := fold_left (dash_read_packet_consider h) reps st in
  match choice_cur st' with
  | None => forall q rq, q ∈ seen ++ reps -> h !! q = Some rq -> ctx rq = false
  | Some p =>
      exists r, p ∈ seen ++ reps /\ h !! p = Some r /\ ctx r = true /\
        choice_mseg st' = cur_seq_no r /\ choice_mints st' = cur_timestamp r /\
        forall q rq, q ∈ seen ++ reps -> h !! q = Some rq -> ctx rq = true ->
          packet_key_le r rq
  end.
Proof.
  induction reps as [|p reps IH]; intros seen st Hinv.
  - cbn [fold_left]. rewrite app_nil_r. exact Hinv.
  - cbn [fold_left].
    replace (seen ++ p :: reps) with ((seen ++ [p]) ++ reps)
      by (rewrite <- app_assoc; reflexivity).
    apply IH. unfold dash_read_packet_consider.
    destruct (h !! p) as [rep|] eqn:Hp.
    2:{ destruct (choice_cur st) as [p0|].
        - destruct Hinv as (r & Hin & Hlook & Hctx & Hseg & Hts & Hmin).
          exists r. split; [apply elem_of_app; now left|]. repeat (split; [assumption|]).
          intros q rq Hq Hq' Hc. apply elem_of_app in Hq. destruct Hq as [Hq|Hq].
          + now apply (Hmin q).
          + apply list_elem_of_singleton in Hq. subst q. congruence.
        - intros q rq Hq Hq'. apply elem_of_app in Hq. destruct Hq as [Hq|Hq].
          + now apply (Hinv q).
          + apply list_elem_of_singleton in Hq. subst q. congruence. }
    destruct (ctx rep) eqn:Hctxp; cbn [negb].
    2:{ destruct (choice_cur st) as [p0|].
        - destruct Hinv as (r & Hin & Hlook & Hctx & Hseg & Hts & Hmin).
          exists r. split; [apply elem_of_app; now left|]. repeat (split; [assumption|]).
          intros q rq Hq Hq' Hc. apply elem_of_app in Hq. destruct Hq as [Hq|Hq].
          + now apply (Hmin q).
          + apply list_elem_of_singleton in Hq. subst q. congruence.
        - intros q rq Hq Hq'. apply elem_of_app in Hq. destruct Hq as [Hq|Hq].
          + now apply (Hinv q).
          + apply list_elem_of_singleton in Hq. subst q. congruence. }
    destruct (choice_cur st) as [p0|] eqn:Hcur.
    + destruct Hinv as (r & Hin & Hlook & Hctx & Hseg & Hts & Hmin).
      replace (bool_decide (is_Some (Some p0))) with true
        by (symmetry; apply bool_decide_eq_true; eauto).
      cbn [negb orb].
      destruct ((cur_seq_no rep <? choice_mseg st)
                || ((cur_seq_no rep =? choice_mseg st) && (cur_timestamp rep <? choice_mints st)))
        eqn:Ebetter; cbn [choice_cur choice_mseg choice_mints].
      * exists rep. split; [apply elem_of_app; right; now apply list_elem_of_singleton|].
        split; [exact Hp|]. split; [exact Hctxp|]. split; [reflexivity|]. split; [reflexivity|].
        intros q rq Hq Hq' Hc. apply elem_of_app in Hq. destruct Hq as [Hq|Hq].
        -- specialize (Hmin q rq Hq Hq' Hc). unfold packet_key_le in *. lia.
        -- apply list_elem_of_singleton in Hq. subst q. rewrite Hp in Hq'. injection Hq' as <-.
           unfold packet_key_le. lia.
      * rewrite Hcur. exists r. split; [apply elem_of_app; now left|].
        repeat (split; [assumption|]).
        intros q rq Hq Hq' Hc. apply elem_of_app in Hq. destruct Hq as [Hq|Hq].
        -- now apply (Hmin q).
        -- apply list_elem_of_singleton in Hq. subst q. rewrite Hp in Hq'. injection Hq' as <-.
           unfold packet_key_le. lia.
    + replace (bool_decide (is_Some (@None rep_ptr))) with false
        by (symmetry; apply bool_decide_eq_false; intros [x Hx]; discriminate).
      cbn [negb orb choice_cur choice_mseg choice_mints].
      exists rep. split; [apply elem_of_app; right; now apply list_elem_of_singleton|].
      split; [exact Hp|]. split; [exact Hctxp|]. split; [reflexivity|]. split; [reflexivity|].
      intros q rq Hq Hq' Hc. apply elem_of_app in Hq. destruct Hq as [Hq|Hq].
      * specialize (Hinv q rq Hq Hq'). congruence.
      * apply list_elem_of_singleton in Hq. subst q. rewrite Hp in Hq'. injection Hq' as <-.
        unfold packet_key_le. lia.
Qed.

(** X5.  dash_read_packet reads from an open representation whose
    (cur_seq_no, cur_timestamp) is smallest among all open representations
    of the three kinds, and fails with no representation selected exactly
    when none is open. *)
Theorem dash_read_packet_select_minimal (c : DASHContext) (h : store) :
  let all := c_videos c ++ c_audios c ++ c_subtitles c in
  match dash_read_packet_select c h with
  | None => forall q rq, q ∈ all -> h !! q = Some rq -> ctx rq = false
  | Some p =>
      exists r, p ∈ all /\ h !! p = Some r /\ ctx r = true /\
        forall q rq, q ∈ all -> h !! q = Some rq -> ctx rq = true -> packet_key_le r rq
  end.
Proof.
  unfold dash_read_packet_select.
  set (st0 := {| choice_cur := None; choice_mseg := 0; choice_mints := 0 |}).
  pose proof (dash_read_packet_consider_invariant h (c_videos c) [] st0) as Hv.
  cbn [choice_cur st0] in Hv.
  specialize (Hv ltac:(intros q rq Hq; apply elem_of_nil in Hq; contradiction)).
  cbn zeta in Hv. cbn [app] in Hv.
  pose proof (dash_read_packet_consider_invariant h (c_audios c) (c_videos c) _ Hv) as Ha.
  cbn zeta in Ha.
  pose proof (dash_read_packet_consider_invariant h (c_subtitles c)
                (c_videos c ++ c_audios c) _ Ha) as Hs.
  cbn zeta in Hs. rewrite <- app_assoc in Hs.
  destruct (choice_cur (fold_left (dash_read_packet_consider h) (c_subtitles c) _)) as [p|].
  - destruct Hs as (r & Hin & Hlook & Hctx & _ & _ & Hmin). exists r. auto.
  - exact Hs.
Qed.
(** ** The context after the walk over the Periods *)

Lemma select_period_fields p c :
  c_period_start (select_period p c) = period_start_sec p /\
  c_period_duration (select_period p c) = period_duration_sec p /\
  (0 < period_start_sec p ->
   c_media_presentation_duration (select_period p c) = period_duration_sec p).
Proof.
  unfold select_period. cbn.
  destruct (0 <? period_start_sec p) eqn:E; cbn; repeat split; try reflexivity; lia.
Qed.

Lemma period_fields_weaken c0 seen p st :
  period_fields_invariant c0 seen st -> period_fields_invariant c0 (seen ++ [p]) st.
Proof.
  unfold period_fields_invariant. destruct (chosen_period_node (snd st)) as [i|]; [|auto].
  intros (q & Hq & H). exists q. split; [|exact H].
  now apply lookup_app_l_Some.
Qed.

Lemma parse_manifest_period_fields cp c0 seen p st :
  period_fields_invariant c0 seen st ->
  period_fields_invariant c0 (seen ++ [p]) (parse_manifest_period cp (length seen) p st).
Proof.
  intros Hinv. destruct st as [c pc].
  assert (Hmatch : forall c1 d dv,
    period_fields_invariant c0 (seen ++ [p])
      (select_period p c1,
       {| matching_period_node := Some (length seen); default_period_node := d;
          min_period_diff := dv |})).
  { intros c1 d dv. unfold period_fields_invariant, chosen_period_node.
    cbn [fst snd matching_period_node default_period_node].
    exists p. split; [apply list_lookup_middle; reflexivity|]. apply select_period_fields. }
  assert (Hdefault : forall c1 dv,
    period_fields_invariant c0 (seen ++ [p])
      (select_period p c1,
       {| matching_period_node := None; default_period_node := Some (length seen);
          min_period_diff := dv |})).
  { intros c1 dv. unfold period_fields_invariant, chosen_period_node.
    cbn [fst snd matching_period_node default_period_node].
    exists p. split; [apply list_lookup_middle; reflexivity|]. apply select_period_fields. }
  unfold parse_manifest_period.
  destruct (matching_period_node pc) as [m|] eqn:Hm.
  - destruct ((0 <=? sub64 cp (period_start_sec p))
              && (sub64 cp (period_start_sec p) <=? min_period_diff pc)).
    + apply Hmatch.
    + now apply period_fields_weaken.
  - destruct (c_period_start c <=? period_start_sec p).
    + cbn [min_period_diff default_period_node].
      destruct ((0 <=? sub64 cp (period_start_sec p))
                && (sub64 cp (period_start_sec p) <=? min_period_diff pc)).
      * apply Hmatch.
      * apply Hdefault.
    + destruct ((0 <=? sub64 cp (period_start_sec p))
                && (sub64 cp (period_start_sec p) <=? min_period_diff pc)).
      * apply Hmatch.
      * now apply period_fields_weaken.
Qed.

Lemma parse_manifest_periods_fields cp c0 periods : forall seen st,
  period_fields_invariant c0 seen st ->
  period_fields_invariant c0 (seen ++ periods)
    (parse_manifest_periods cp (length seen) periods st).
Proof.
  induction periods as [|p periods IH]; intros seen st Hinv.
  - cbn [parse_manifest_periods]. now rewrite app_nil_r.
  - cbn [parse_manifest_periods].
    replace (seen ++ p :: periods) with ((seen ++ [p]) ++ periods)
      by (rewrite <- app_assoc; reflexivity).
    replace (S (length seen)) with (length (seen ++ [p]))
      by (rewrite length_app; cbn [length]; lia).
    apply IH. now apply parse_manifest_period_fields.
Qed.

(** X6.  After the walk over the Periods the context describes the Period
    that was chosen: period_start and period_duration are that Period's, and
    media_presentation_duration is its duration when its start is positive.
    When no Period is suitable the context is as the walk found it. *)
Theorem parse_manifest_period_fields_of_chosen
    (c : DASHContext) (periods : list period) (curr_timepoint : Z) :
  let '(ret, c', chosen) := parse_manifest_select_period c periods curr_timepoint in
  match chosen with
  | None => ret = AVERROR_INVALIDDATA /\ c' = c
  | Some i =>
      ret = 0 /\
      exists p, periods !! i = Some p /\
        c_period_start c' = period_start_sec p /\
        c_period_duration c' = period_duration_sec p /\
        (0 < period_start_sec p ->
         c_media_presentation_duration c' = period_duration_sec p)
  end.
Proof.
  unfold parse_manifest_select_period.
  pose proof (parse_manifest_periods_fields curr_timepoint c periods []
                (c, {| matching_period_node := None; default_period_node := None;
                       min_period_diff := INT64_MAX |}) eq_refl) as Hinv.
  cbn [length app] in Hinv.
  destruct (parse_manifest_periods curr_timepoint 0 periods _) as [c' pc].
  unfold period_fields_invariant, chosen_period_node in Hinv. cbn [fst snd] in Hinv.
  destruct (matching_period_node pc) as [m|].
  - split; [reflexivity|exact Hinv].
  - destruct (default_period_node pc) as [d|].
    + split; [reflexivity|exact Hinv].
    + split; [reflexivity|exact Hinv].
Qed.
(** ** Seeking stops at the first failure *)

Section SeekStops.

Variable world : Type.
Variable reopen_demux_for_component : world -> representation -> world * representation * Z.
Variable av_seek_frame : world -> representation -> Z -> Z -> world * representation * Z.

Local Abbreviation seek := (dash_seek world reopen_demux_for_component av_seek_frame).
Local Abbreviation seek_list :=
  (dash_read_seek_list world reopen_demux_for_component av_seek_frame).

Lemma dash_read_seek_list_after_failure p : forall w h seek_pos_msec flags ret,
  ret <> 0 -> seek_list w h p seek_pos_msec flags ret = (w, h, ret).
Proof.
  induction p as [|pi p IH]; intros w h seek_pos_msec flags ret Hret; [reflexivity|].
  cbn [dash_read_seek_list]. replace (ret =? 0) with false by lia. now apply IH.
Qed.

Lemma dash_read_seek_list_app p1 p2 : forall w h seek_pos_msec flags ret,
  seek_list w h (p1 ++ p2) seek_pos_msec flags ret =
  let '(w1, h1, ret1) := seek_list w h p1 seek_pos_msec flags ret in
  seek_list w1 h1 p2 seek_pos_msec flags ret1.
Proof.
  induction p1 as [|pi p1 IH]; intros w h seek_pos_msec flags ret; [reflexivity|].
  cbn [app dash_read_seek_list].
  destruct (ret =? 0); [|apply IH].
  destruct (h !! pi) as [pls|]; [|apply IH].
  destruct (seek w pls seek_pos_msec flags (negb (ctx pls))) as [[w' pls'] ret'].
  apply IH.
Qed.

(** X7.  A seek stops at the first representation whose seek fails: the
    representations after it, in the same list and in the lists that
    follow, are not touched, and the error is what dash_read_seek returns
    from that list on. *)
Theorem dash_read_seek_list_stops_at_failure
    (w : world) (h : store) (before after later : list rep_ptr) (pi : rep_ptr)
    (seek_pos_msec flags : Z) (w1 : world) (h1 : store) (pls : representation)
    (w2 : world) (pls2 : representation) (ret : Z) :
  seek_list w h before seek_pos_msec flags 0 = (w1, h1, 0) ->
  h1 !! pi = Some pls ->
  seek w1 pls seek_pos_msec flags (negb (ctx pls)) = (w2, pls2, ret) ->
  ret <> 0 ->
  seek_list w h (before ++ pi :: after) seek_pos_msec flags 0
    = (w2, <[pi := pls2]> h1, ret) /\
  seek_list w2 (<[pi := pls2]> h1) later seek_pos_msec flags ret
    = (w2, <[pi := pls2]> h1, ret).
Proof.
  intros Hbefore Hpi Hseek Hret. split.
  - rewrite dash_read_seek_list_app, Hbefore. cbn [dash_read_seek_list Z.eqb].
    rewrite Hpi, Hseek. now apply dash_read_seek_list_after_failure.
  - now apply dash_read_seek_list_after_failure.
Qed.

End SeekStops.

(** An inner parser that cannot be reopened. *)
Lemma dash_read_seek_list_stops_at_failure_witness :
  let failing_reopen := fun (w : unit) (pls : representation) => (w, pls, AVERROR_EOF) in
  let pls2 := set_init_sec_buf_read_offset 0 (set_cur_seg_offset 0 (set_cur_timestamp 0
                (set_cur_seq_no 3 (set_input false (set_ctx true template_rep))))) in
  let h := <[1%positive := set_ctx true template_rep]>
             (<[2%positive := set_ctx true template_rep]> ∅) in
  dash_read_seek_list unit failing_reopen instant_seek_frame tt h
    ([] ++ 1%positive :: [2%positive]) 5000 0 0
    = (tt, <[1%positive := pls2]> h, AVERROR_EOF) /\
  dash_read_seek_list unit failing_reopen instant_seek_frame tt (<[1%positive := pls2]> h)
    [2%positive] 5000 0 AVERROR_EOF
    = (tt, <[1%positive := pls2]> h, AVERROR_EOF).
Proof.
  intros failing_reopen pls2 h.
  apply (dash_read_seek_list_stops_at_failure unit failing_reopen instant_seek_frame
           tt h [] [2%positive] [2%positive] 1%positive 5000 0 tt h
           (set_ctx true template_rep) tt pls2 AVERROR_EOF).
  - reflexivity.
  - reflexivity.
  - vm_compute. reflexivity.
  - vm_compute. discriminate.
Defined.
(** ** The byte stream: init section first, and never past the range *)

Lemma to_int32_id z : -2147483648 <= z <= 2147483647 -> to_int32 z = z.
Proof.
  intros H. unfold to_int32, UINT32_MOD. rewrite Z.mod_small by lia. lia.
Qed.

Lemma to_uint32_id z : uint32_range z -> to_uint32 z = z.
Proof. intros H. unfold to_uint32. apply Z.mod_small. exact H. Qed.

Section ByteStream.

Variable world : Type.
Variable get_current_fragment :
  world -> DASHContext -> representation ->
  world * DASHContext * representation * Z * option fragment.
Variable update_init_section :
  world -> DASHContext -> representation -> world * representation * Z.
Variable open_input :
  world -> DASHContext -> representation -> fragment -> world * representation * Z.
Variable avio_read : world -> representation -> Z -> world * Z.
Variable ff_check_interrupt : world -> world * bool.

Local Abbreviation read :=
  (read_data world get_current_fragment update_init_section open_input avio_read
     ff_check_interrupt).


Hypothesis avio_read_bounded :
  forall w v buf_size, 0 <= buf_size -> snd (avio_read w v buf_size) <= buf_size.

(** X9.  Reading a fragment that is a byte range never goes past the
    range: with the fetcher open on a fragment of known size, no init bytes
    pending and 0 <= cur_seg_offset <= cur_seg_size, a fetcher that delivers
    at most what it is asked for is asked for at most the bytes that remain,
    cur_seg_offset grows by exactly the bytes returned, and stays within
    cur_seg_size, which does not change. *)
Theorem read_data_stays_in_range
    (fuel : nat) (w : world) (c : DASHContext) (v : representation) (seg : fragment)
    (buf_size : Z) :
  input v = true -> cur_seg v = Some seg -> 0 <= frag_size seg ->
  init_sec_data_len v <= init_sec_buf_read_offset v ->
  0 <= cur_seg_offset v <= cur_seg_size v -> cur_seg_size v <= INT64_MAX ->
  0 < buf_size <= 2147483647 ->
  exists w' v' ret,
    read (S fuel) w c v buf_size = Some (w', c, v', ret) /\
    ret <= Z.min buf_size (cur_seg_size v - cur_seg_offset v) /\
    cur_seg_offset v' = cur_seg_offset v + Z.max ret 0 /\
    cur_seg_offset v' <= cur_seg_size v' /\ cur_seg_size v' = cur_seg_size v.
Proof.
  intros Hin Hseg Hsize Hinit Hoff Hmax Hbuf.
  unfold read_data. cbn [read_data_restart]. rewrite Hin. unfold read_data_body.
  replace (init_sec_buf_read_offset v <? init_sec_data_len v) with false by lia.
  rewrite Hseg. unfold read_from_url.
  replace (0 <=? frag_size seg) with true by lia.
  rewrite (sub64_id (cur_seg_size v) (cur_seg_offset v)) by int_lia.
  set (n := Z.min buf_size (cur_seg_size v - cur_seg_offset v)).
  rewrite (to_int32_id n) by (subst n; lia).
  pose proof (avio_read_bounded w v n ltac:(subst n; lia)) as Hret.
  destruct (avio_read w v n) as [w' ret]. cbn [snd] in Hret.
  destruct (0 <? ret) eqn:Epos.
  - exists w', (set_cur_seg_offset (add64 (cur_seg_offset v) ret) v), ret.
    rewrite (add64_id (cur_seg_offset v) ret) by (subst n; int_lia).
    split; [reflexivity|]. split; [exact Hret|].
    change (cur_seg_offset (set_cur_seg_offset (cur_seg_offset v + ret) v))
      with (cur_seg_offset v + ret).
    change (cur_seg_size (set_cur_seg_offset (cur_seg_offset v + ret) v))
      with (cur_seg_size v).
    subst n. lia.
  - destruct (c_is_live c || (cur_seq_no v <? last_seq_no v)).
    + eexists w', _, ret. split; [reflexivity|]. split; [exact Hret|].
      destruct (is_restart_needed v); cbn; lia.
    + exists w', v, ret. split; [reflexivity|]. split; [exact Hret|]. lia.
Qed.

End ByteStream.


Lemma read_data_stays_in_range_witness :
  exists w' v' ret,
    read_data unit eof_get_current_fragment eof_update_init_section eof_open_input
      full_avio_read eof_check_interrupt 1 tt (live_context true true) ranged_rep 4096
    = Some (w', live_context true true, v', ret) /\
    ret <= Z.min 4096 (cur_seg_size ranged_rep - cur_seg_offset ranged_rep) /\
    cur_seg_offset v' = cur_seg_offset ranged_rep + Z.max ret 0 /\
    cur_seg_offset v' <= cur_seg_size v' /\ cur_seg_size v' = cur_seg_size ranged_rep.
Proof.
  apply (read_data_stays_in_range unit eof_get_current_fragment eof_update_init_section
           eof_open_input full_avio_read eof_check_interrupt
           ltac:(intros w v n Hn; cbn; lia) 0 tt (live_context true true) ranged_rep
           {| frag_url_offset := 0; frag_size := 100; frag_url := "media.mp4" |} 4096).
  - reflexivity.
  - reflexivity.
  - vm_compute. discriminate.
  - vm_compute. discriminate.
  - vm_compute. split; discriminate.
  - vm_compute. discriminate.
  - vm_compute. split; [reflexivity|discriminate].
Defined.
(** ** What a refresh leaves alone, and what it frees *)

Lemma find_representation_in h reps cur q :
  find_representation h reps cur = Some q -> q ∈ reps.
Proof.
  induction reps as [|p reps IH]; cbn [find_representation]; [discriminate|].
  destruct (h !! p) as [rp|].
  - destruct (same_id rp cur).
    + intros [= ->]. apply elem_of_cons. now left.
    + intros H. apply elem_of_cons. right. now apply IH.
  - intros H. apply elem_of_cons. right. now apply IH.
Qed.

Lemma free_list_lookup_none reps : forall (h : store) q,
  h !! q = None -> free_list reps h !! q = None.
Proof.
  unfold free_list. induction reps as [|p reps IH]; intros h q Hq; [exact Hq|].
  cbn [fold_left]. apply IH.
  destruct (decide (p = q)) as [->|Hne]; [apply lookup_delete_eq|].
  rewrite lookup_delete_ne by exact Hne. exact Hq.
Qed.

Lemma free_list_lookup_in reps : forall (h : store) q,
  q ∈ reps -> free_list reps h !! q = None.
Proof.
  induction reps as [|p reps IH]; intros h q Hin.
  - apply elem_of_nil in Hin. contradiction.
  - unfold free_list. cbn [fold_left]. fold (free_list reps (delete p h)).
    destruct (decide (p = q)) as [->|Hne].
    + apply free_list_lookup_none. apply lookup_delete_eq.
    + apply elem_of_cons in Hin. destruct Hin as [->|Hin]; [contradiction|]. now apply IH.
Qed.

Lemma free_list_lookup_notin reps : forall (h : store) q,
  q ∉ reps -> free_list reps h !! q = h !! q.
Proof.
  unfold free_list. induction reps as [|p reps IH]; intros h q Hnot; [reflexivity|].
  cbn [fold_left]. rewrite IH.
  - apply lookup_delete_ne. intros ->. apply Hnot. apply elem_of_cons. now left.
  - intros Hin. apply Hnot. apply elem_of_cons. now right.
Qed.

Section RefreshIsolation.

Variable world : Type.
Variable parse_manifest :
  world -> DASHContext -> store -> Z -> world * DASHContext * store * Z.
Variable av_cmp_q : Z * Z -> Z * Z -> Z.
Variable now : Z.

(** A loop of refresh_manifest writes to the driven representation and to
    the new representation that matches it, and to nothing else. *)
Lemma refresh_list_lookup params narrow c new target_rep q old :
  q <> target_rep -> q ∉ new ->
  forall h, fst (refresh_list now params narrow c new target_rep old h) !! q = h !! q.
Proof.
  intros Hq Hnew. induction old as [|cur_ptr old IH]; intros h; [reflexivity|].
  cbn [refresh_list].
  destruct (bool_decide (cur_ptr = target_rep)) eqn:E; cbn [negb]; [|apply IH].
  apply bool_decide_eq_true in E. subst cur_ptr.
  destruct (h !! target_rep) as [cur|]; [|apply IH].
  destruct (find_representation h new cur) as [ccur_ptr|] eqn:Hfind; [|reflexivity].
  apply find_representation_in in Hfind.
  assert (Hne : ccur_ptr <> q) by (intros ->; contradiction).
  destruct (h !! ccur_ptr) as [ccur|]; [|reflexivity].
  destruct (params ccur cur) as [[ret ccur'] cur'].
  destruct (ret =? 0); cbn [negb].
  - destruct (splice_representation now narrow c ccur' cur') as [ccur2 cur2].
    rewrite IH. rewrite lookup_insert_ne by congruence. now rewrite lookup_insert_ne.
  - cbn [fst]. rewrite lookup_insert_ne by congruence. now rewrite lookup_insert_ne.
Qed.

Lemma refresh_manifest_finish_lookup base_url videos audios subtitles c h q :
  let h' := snd (refresh_manifest_finish base_url videos audios subtitles c h) in
  (q ∉ c_videos c ++ c_audios c ++ c_subtitles c -> h' !! q = h !! q) /\
  (q ∈ c_videos c ++ c_audios c ++ c_subtitles c -> h' !! q = None).
Proof.
  unfold refresh_manifest_finish. cbn [snd].
  set (c2 := match c_base_url c with Some _ => c | None => set_c_base_url base_url c end).
  assert (Hv : c_videos c2 = c_videos c) by (subst c2; destruct (c_base_url c); reflexivity).
  assert (Ha : c_audios c2 = c_audios c) by (subst c2; destruct (c_base_url c); reflexivity).
  assert (Hs : c_subtitles c2 = c_subtitles c)
    by (subst c2; destruct (c_base_url c); reflexivity).
  rewrite Hv, Ha, Hs. split.
  - intros Hnot. rewrite !free_list_lookup_notin; [reflexivity| | |];
      intros Hin; apply Hnot; rewrite !elem_of_app; auto.
  - intros Hin. rewrite !elem_of_app in Hin. destruct Hin as [Hin|[Hin|Hin]].
    + now apply free_list_lookup_in.
    + apply free_list_lookup_none. now apply free_list_lookup_in.
    + apply free_list_lookup_none, free_list_lookup_none. now apply free_list_lookup_in.
Qed.

(** X10.  A refresh is confined to the driven representation and the
    representations the parse allocated: every other representation in the
    store is, after refresh_manifest, what it was after the parse, whatever
    the outcome.  And whenever refresh_manifest leaves through its restore
    block, every representation of the freshly parsed lists has been freed. *)
Theorem refresh_manifest_confined
    (w w1 : world) (c c1 : DASHContext) (h h1 : store) (target_rep : rep_ptr) (pret : Z) :
  parse_manifest w
    (set_c_subtitles [] (set_c_audios [] (set_c_videos [] (set_c_base_url None c)))) h
    (match h !! target_rep with
     | Some pls => get_curr_timepoint c pls
     | None => 0
     end) = (w1, c1, h1, pret) ->
  let fresh := c_videos c1 ++ c_audios c1 ++ c_subtitles c1 in
  let '(_, _, h', ret) :=
    refresh_manifest world parse_manifest av_cmp_q now w c h target_rep in
  (forall q, q <> target_rep -> q ∉ fresh -> h' !! q = h1 !! q) /\
  (pret <> 0 \/ ret <> AVERROR_INVALIDDATA -> forall q, q ∈ fresh -> h' !! q = None).
Proof.
  intros Hparse fresh. unfold refresh_manifest. rewrite Hparse.
  pose proof (refresh_manifest_finish_lookup (c_base_url c) (c_videos c) (c_audios c)
                (c_subtitles c) c1) as Hfin.
  assert (Hfresh_v : forall q, q ∉ fresh -> q ∉ c_videos c1).
  { intros q Hq Hin. apply Hq. subst fresh. rewrite !elem_of_app. auto. }
  assert (Hfresh_a : forall q, q ∉ fresh -> q ∉ c_audios c1).
  { intros q Hq Hin. apply Hq. subst fresh. rewrite !elem_of_app. auto. }
  destruct (pret =? 0) eqn:Epret; cbn [negb].
  2:{ destruct (refresh_manifest_finish _ _ _ _ c1 h1) as [c' h'] eqn:Efin.
      split.
      - intros q Hq Hnot. specialize (Hfin h1 q). rewrite Efin in Hfin. cbn [snd] in Hfin.
        now apply Hfin.
      - intros _ q Hin. specialize (Hfin h1 q). rewrite Efin in Hfin. cbn [snd] in Hfin.
        now apply Hfin. }
  pose proof (refresh_list_exit now
                (move_video_params av_cmp_q) (fun z => z) c1 (c_videos c1)
                target_rep (c_videos c) (move_video_params_ret av_cmp_q) h1) as Hvx.
  pose proof (fun q Hq Hn => refresh_list_lookup (move_video_params av_cmp_q) (fun z => z) c1
                (c_videos c1) target_rep q (c_videos c) Hq (Hfresh_v q Hn) h1) as Hvl.
  destruct (refresh_list now (move_video_params av_cmp_q) (fun z => z) c1 (c_videos c1)
              target_rep (c_videos c) h1) as [h2 [ret|ret|]]; cbn [fst snd] in Hvx, Hvl.
  - split; [exact Hvl|]. intros [Hp|Hr]; [lia|contradiction].
  - destruct (refresh_manifest_finish _ _ _ _ c1 h2) as [c' h'] eqn:Efin. split.
    + intros q Hq Hnot. specialize (Hfin h2 q). rewrite Efin in Hfin. cbn [snd] in Hfin.
      destruct Hfin as [Hkeep _]. rewrite (Hkeep Hnot). now apply Hvl.
    + intros _ q Hin. specialize (Hfin h2 q). rewrite Efin in Hfin. cbn [snd] in Hfin.
      now apply Hfin.
  - pose proof (refresh_list_exit now
                  move_audio_params to_int32 c1 (c_audios c1)
                  target_rep (c_audios c) move_audio_params_ret h2) as Hax.
    pose proof (fun q Hq Hn => refresh_list_lookup move_audio_params to_int32 c1
                  (c_audios c1) target_rep q (c_audios c) Hq (Hfresh_a q Hn) h2) as Hal.
    destruct (refresh_list now move_audio_params to_int32 c1 (c_audios c1)
                target_rep (c_audios c) h2) as [h3 [ret|ret|]]; cbn [fst snd] in Hax, Hal.
    + split.
      * intros q Hq Hnot. rewrite (Hal q Hq Hnot). now apply Hvl.
      * intros [Hp|Hr]; [lia|contradiction].
    + destruct (refresh_manifest_finish _ _ _ _ c1 h3) as [c' h'] eqn:Efin. split.
      * intros q Hq Hnot. specialize (Hfin h3 q). rewrite Efin in Hfin. cbn [snd] in Hfin.
        destruct Hfin as [Hkeep _]. rewrite (Hkeep Hnot), (Hal q Hq Hnot). now apply Hvl.
      * intros _ q Hin. specialize (Hfin h3 q). rewrite Efin in Hfin. cbn [snd] in Hfin.
        now apply Hfin.
    + destruct (refresh_manifest_finish _ _ _ _ c1 h3) as [c' h'] eqn:Efin. split.
      * intros q Hq Hnot. specialize (Hfin h3 q). rewrite Efin in Hfin. cbn [snd] in Hfin.
        destruct Hfin as [Hkeep _]. rewrite (Hkeep Hnot), (Hal q Hq Hnot). now apply Hvl.
      * intros _ q Hin. specialize (Hfin h3 q). rewrite Efin in Hfin. cbn [snd] in Hfin.
        now apply Hfin.
Qed.

End RefreshIsolation.

Lemma refresh_manifest_confined_witness :
  let c1 := set_c_videos [2%positive] (set_c_base_url (Some "http://a/live.mpd"%string)
              (set_c_subtitles [] (set_c_audios [] (set_c_videos []
                 (set_c_base_url None refresh_context))))) in
  let h1 := <[2%positive := set_rep_id (Some "v1"%string)
                              (set_id_length 2 discontinuity_rep)]> refresh_store in
  let fresh := c_videos c1 ++ c_audios c1 ++ c_subtitles c1 in
  let '(_, _, h', ret) :=
    refresh_manifest unit parse_same_id cmp_q_components 0 tt refresh_context
      refresh_store 1%positive in
  (forall q, q <> 1%positive -> q ∉ fresh -> h' !! q = h1 !! q) /\
  (0 <> 0 \/ ret <> AVERROR_INVALIDDATA -> forall q, q ∈ fresh -> h' !! q = None).
Proof.
  intros c1 h1.
  apply (refresh_manifest_confined unit parse_same_id cmp_q_components 0 tt tt
           refresh_context c1 refresh_store h1 1%positive 0).
  reflexivity.
Defined.
(** ** Where a seek lands on a timeline *)

Lemma msec_of_id ts x :
  0 < ts -> 0 <= x -> x * 1000 <= INT64_MAX ->
  div64 (mul64 x 1000) ts = msec_of ts x.
Proof.
  intros Hts Hx Hmax. unfold msec_of.
  rewrite (mul64_id x 1000) by int_lia.
  unfold div64. rewrite Z.quot_div_nonneg by lia.
  apply to_int64_id.
  pose proof (Z.div_pos (x * 1000) ts ltac:(lia) Hts).
  pose proof (Z.div_le_upper_bound (x * 1000) ts (x * 1000) Hts ltac:(nia)). int_lia.
Qed.

Lemma timeline_end_ge tls : forall st, timeline_wf tls st -> st <= timeline_end tls st.
Proof.
  induction tls as [|t tls IH]; intros st Hwf; cbn [timeline_end]; [lia|].
  cbn [timeline_wf] in Hwf. destruct Hwf as (Hd & Hr & Hes & Hwf).
  specialize (IH _ Hwf). unfold entry_end in *. nia.
Qed.

(** The inner loop of the timeline branch of dash_seek. *)
Lemma dash_seek_repeat_spec ts seek d n : forall duration num,
  0 < d -> 0 < ts -> 0 <= duration ->
  (duration + Z.of_nat n * d) * 1000 <= INT64_MAX ->
  INT64_MIN <= num -> num + Z.of_nat n <= INT64_MAX ->
  match dash_seek_repeat n d ts seek duration num with
  | Goto_finish _ r =>
      num < r <= num + Z.of_nat n /\
      (forall i, 1 <= i < r - num -> msec_of ts (duration + i * d) <= seek) /\
      seek < msec_of ts (duration + (r - num) * d)
  | Fallthrough dur r =>
      dur = duration + Z.of_nat n * d /\ r = num + Z.of_nat n /\
      forall i, 1 <= i <= Z.of_nat n -> msec_of ts (duration + i * d) <= seek
  end.
Proof.
  induction n as [|n IH]; intros duration num Hd Hts Hdur Hmax Hnum Hcnt.
  - cbn [dash_seek_repeat]. split; [lia|]. split; [lia|]. intros i Hi. lia.
  - cbn [dash_seek_repeat].
    rewrite (add64_id duration d) by int_nia.
    rewrite (add64_id num 1) by int_lia.
    rewrite (msec_of_id ts (duration + d)) by nia.
    destruct (seek <? msec_of ts (duration + d)) eqn:E.
    + split; [lia|]. split; [intros i Hi; lia|].
      replace (duration + (num + 1 - num) * d) with (duration + d) by ring. lia.
    + specialize (IH (duration + d) (num + 1) Hd Hts ltac:(lia) ltac:(nia) ltac:(lia)
                     ltac:(lia)).
      destruct (dash_seek_repeat n d ts seek (duration + d) (num + 1)) as [dur r|dur r].
      * destruct IH as (Hr & Hbefore & Hafter). split; [lia|]. split.
        -- intros i Hi. destruct (Z.eq_dec i 1) as [->|Hne].
           ++ replace (duration + 1 * d) with (duration + d) by ring. lia.
           ++ specialize (Hbefore (i - 1) ltac:(lia)).
              replace (duration + d + (i - 1) * d) with (duration + i * d) in Hbefore by ring.
              exact Hbefore.
        -- replace (duration + (r - num) * d) with (duration + d + (r - (num + 1)) * d)
             by ring. exact Hafter.
      * destruct IH as (Hdur' & Hr & Hbefore). split; [nia|]. split; [lia|].
        intros i Hi. destruct (Z.eq_dec i 1) as [->|Hne].
        -- replace (duration + 1 * d) with (duration + d) by ring. lia.
        -- specialize (Hbefore (i - 1) ltac:(lia)).
           replace (duration + d + (i - 1) * d) with (duration + i * d) in Hbefore by ring.
           exact Hbefore.
Qed.

(** The walk of the timeline branch of dash_seek counts the segments that
    end at or before the seek position. *)
Lemma dash_seek_timelines_spec ts seek tls : forall st num,
  timeline_wf tls st -> 0 < ts -> 0 <= st -> timeline_end tls st * 1000 <= INT64_MAX ->
  INT64_MIN <= num -> num + seg_count tls <= INT64_MAX ->
  let r := dash_seek_timelines tls ts seek st num in
  num <= r <= num + seg_count tls /\
  (forall k, 0 <= k < r - num -> msec_of ts (segment_end tls st k) <= seek) /\
  (r < num + seg_count tls -> seek < msec_of ts (segment_end tls st (r - num))).
Proof.
  induction tls as [|t tls IH]; intros st num Hwf Hts Hst Hmax Hnum Hcnt.
  - cbn [dash_seek_timelines seg_count]. split; [lia|]. split; intros; lia.
  - assert (Hwf0 := Hwf). cbn [timeline_wf] in Hwf. destruct Hwf as (Hd & Hr & Hes & Hwf).
    cbn [timeline_end seg_count] in Hmax, Hcnt.
    pose proof (timeline_end_ge _ _ Hwf) as Hend.
    pose proof (seg_count_nonneg _ _ Hwf) as Hsc.
    cbn [dash_seek_timelines segment_end seg_count].
    change (if 0 <? tl_starttime t then tl_starttime t else st) with (entry_start st t).
    assert (Hee : entry_end st t = entry_start st t + tl_duration t * (tl_repeat t + 1))
      by reflexivity.
    set (s0 := entry_start st t) in *. set (d := tl_duration t) in *.
    set (rp := tl_repeat t) in *.
    assert (Hn : Z.of_nat (Z.to_nat rp) = rp) by lia.
    rewrite (add64_id s0 d) by int_nia.
    rewrite (msec_of_id ts (s0 + d)) by nia.
    destruct (seek <? msec_of ts (s0 + d)) eqn:E.
    + split; [lia|]. split; [intros k Hk; lia|]. intros _.
      replace (num - num) with 0 by ring. replace (0 <=? rp) with true by lia.
      replace (s0 + (0 + 1) * d) with (s0 + d) by ring. lia.
    + pose proof (dash_seek_repeat_spec ts seek d (Z.to_nat rp) (s0 + d) num Hd Hts
                    ltac:(lia) ltac:(rewrite Hn; nia) Hnum ltac:(lia)) as Hrep.
      destruct (dash_seek_repeat (Z.to_nat rp) d ts seek (s0 + d) num) as [dur r|dur r].
      * rewrite Hn in Hrep. destruct Hrep as (Hr' & Hbefore & Hafter).
        split; [lia|]. split.
        -- intros k Hk. replace (k <=? rp) with true by lia.
           destruct (Z.eq_dec k 0) as [->|Hne].
           ++ replace (s0 + (0 + 1) * d) with (s0 + d) by ring. lia.
           ++ specialize (Hbefore k ltac:(lia)).
              replace (s0 + (k + 1) * d) with (s0 + d + k * d) by ring. exact Hbefore.
        -- intros _. replace (r - num <=? rp) with true by lia.
           replace (s0 + (r - num + 1) * d) with (s0 + d + (r - num) * d) by ring.
           exact Hafter.
      * rewrite Hn in Hrep. destruct Hrep as (-> & -> & Hbefore).
        rewrite (add64_id (num + rp) 1) by int_lia.
        replace (s0 + d + rp * d) with (entry_end st t) by (rewrite Hee; ring).
        specialize (IH (entry_end st t) (num + rp + 1) Hwf Hts ltac:(nia) Hmax ltac:(lia)
                       ltac:(lia)).
        cbn zeta in IH. destruct IH as (Hr' & Hb & Ha).
        set (r := dash_seek_timelines tls ts seek (entry_end st t) (num + rp + 1)) in *.
        split; [lia|]. split.
        -- intros k Hk. destruct (k <=? rp) eqn:Ek.
           ++ destruct (Z.eq_dec k 0) as [->|Hne].
              ** replace (s0 + (0 + 1) * d) with (s0 + d) by ring. lia.
              ** specialize (Hbefore k ltac:(lia)).
                 replace (s0 + (k + 1) * d) with (s0 + d + k * d) by ring. exact Hbefore.
           ++ apply Hb. lia.
        -- intros Hlt. replace (r - num <=? rp) with false by lia.
           replace (r - num - rp - 1) with (r - (num + rp + 1)) by ring.
           apply Ha. lia.
Qed.

Section SeekLands.

Variable world : Type.
Variable reopen_demux_for_component : world -> representation -> world * representation * Z.
Variable av_seek_frame : world -> representation -> Z -> Z -> world * representation * Z.


End SeekLands.

(** ** The end of the stream *)

Section EndOfStream.

Variable world : Type.
Variable ff_check_interrupt : world -> world * bool.
Variable refresh_manifest :
  world -> DASHContext -> representation -> world * DASHContext * representation * Z.
Variable get_current_time_in_sec : world -> Z.
Variable template_url : representation -> Z -> Z -> string.

Local Abbreviation fragment_list :=
  (get_current_fragment_list world ff_check_interrupt refresh_manifest).
Local Abbreviation current_fragment :=
  (get_current_fragment world ff_check_interrupt refresh_manifest get_current_time_in_sec
     template_url).

(** The loop over the fragment list never returns 0 without a fragment. *)
Lemma get_current_fragment_list_return fuel : forall w c pls w' c' pls' ret new_seg,
  fragment_list fuel w c pls = Some (List_return world (Fragment_return w' c' pls' ret new_seg)) ->
  ret <> 0 \/ new_seg <> None.
Proof.
  induction fuel as [|fuel IH]; intros w c pls w' c' pls' ret new_seg; [discriminate|].
  cbn [get_current_fragment_list].
  destruct (ff_check_interrupt w) as [w1 interrupted].
  destruct (interrupted || negb (0 <? n_fragments pls)); [discriminate|].
  destruct (cur_seq_no pls <? n_fragments pls).
  - destruct (cur_seq_no pls <? 0); [discriminate|].
    destruct (fragments pls !! Z.to_nat (cur_seq_no pls)); [|discriminate].
    intros [= <- <- <- <- <-]. right. discriminate.
  - destruct (c_is_live c); [|discriminate].
    destruct (refresh_manifest w1 c pls) as [[[w2 c2] pls2] err].
    destruct (err =? 0) eqn:E; cbn [negb].
    + apply IH.
    + intros [= <- <- <- <- <-]. left. lia.
Qed.

(** X12.  get_current_fragment reports the end of the stream, returning 0
    with no fragment, only for a presentation that is not live and a
    cur_seq_no past last_seq_no: a live presentation never ends by itself,
    however many refreshes the call went through. *)
Theorem get_current_fragment_end_of_stream
    (fuel : nat) (w w' : world) (c c' : DASHContext) (pls pls' : representation) :
  current_fragment fuel w c pls = Some (Fragment_return w' c' pls' 0 None) ->
  c_is_live c' = false /\ last_seq_no pls' < cur_seq_no pls'.
Proof.
  unfold get_current_fragment.
  destruct (fragment_list fuel w c pls) as [[r|w1 c1 pls1]|] eqn:Elist; [| |discriminate].
  - intros [= ->].
    destruct (get_current_fragment_list_return _ _ _ _ _ _ _ _ _ Elist) as [H|H];
      congruence.
  - destruct (c_is_live c1) eqn:Elive.
    + destruct (if has_lists pls1 then refresh_manifest w1 c1 pls1 else (w1, c1, pls1, 0))
        as [[[w2 c2] pls2] err].
      destruct (err =? 0) eqn:E; cbn [negb].
      * match goal with
        | |- context [match ?x with Some _ => _ | None => _ end] => destruct x as [[[[w3 c3] pls3] err3]|]
        end; [|discriminate].
        destruct (err3 =? 0) eqn:E3; cbn [negb]; [discriminate|].
        intros [= <- <- <- Herr]. lia.
      * intros [= <- <- <- Herr]. lia.
    + destruct (cur_seq_no pls1 <=? last_seq_no pls1) eqn:Ecur; [discriminate|].
      intros [= <- <- <-]. split; [exact Elive|lia].
Qed.

Variable update_init_section :
  world -> DASHContext -> representation -> world * representation * Z.
Variable open_input :
  world -> DASHContext -> representation -> fragment -> world * representation * Z.
Variable avio_read : world -> representation -> Z -> world * Z.

(** X13.  At the end of a VOD template stream read_data returns
    AVERROR_EOF: with the fetcher closed and cur_seq_no past last_seq_no,
    it asks for the next fragment, finds none, and returns without opening
    or reading anything, the sequence number left where it is. *)
Theorem read_data_vod_end_of_stream
    (gfuel fuel : nat) (w : world) (c : DASHContext) (v : representation) (buf_size : Z) :
  c_is_live c = false -> input v = false -> fragments v = [] ->
  last_seq_no v < cur_seq_no v ->
  read_data world
    (get_current_fragment_run world ff_check_interrupt refresh_manifest
       get_current_time_in_sec template_url (S gfuel))
    update_init_section open_input avio_read ff_check_interrupt (S fuel) w c v buf_size
  = Some (fst (ff_check_interrupt w), c, set_cur_seg None v, AVERROR_EOF).
Proof.
  intros Hlive Hin Hfr Hlast.
  unfold read_data. cbn [read_data_restart]. rewrite Hin.
  unfold get_current_fragment_run, get_current_fragment.
  cbn [get_current_fragment_list].
  destruct (ff_check_interrupt w) as [w1 interrupted]. cbn [fst].
  assert (Hn : n_fragments (set_cur_seg None v) = 0).
  { unfold n_fragments. change (fragments (set_cur_seg None v)) with (fragments v).
    now rewrite Hfr. }
  rewrite Hn. cbn [Z.ltb Z.compare negb]. rewrite orb_true_r.
  rewrite Hlive.
  change (cur_seq_no (set_cur_seg None v)) with (cur_seq_no v).
  change (last_seq_no (set_cur_seg None v)) with (last_seq_no v).
  replace (cur_seq_no v <=? last_seq_no v) with false by lia.
  reflexivity.
Qed.

End EndOfStream.

Lemma get_current_fragment_end_of_stream_witness :
  c_is_live (empty_context true true) = false /\
  last_seq_no finished_rep < cur_seq_no finished_rep.
Proof.
  apply (get_current_fragment_end_of_stream unit eof_check_interrupt idle_refresh epoch_clock
           constant_url 1 tt tt (empty_context true true) (empty_context true true)
           finished_rep finished_rep).
  vm_compute. reflexivity.
Defined.

Lemma read_data_vod_end_of_stream_witness :
  read_data unit
    (get_current_fragment_run unit eof_check_interrupt idle_refresh epoch_clock constant_url 1)
    eof_update_init_section eof_open_input eof_avio_read eof_check_interrupt 1 tt
    (empty_context true true) finished_rep 4096
  = Some (fst (eof_check_interrupt tt), empty_context true true,
          set_cur_seg None finished_rep, AVERROR_EOF).
Proof.
  apply (read_data_vod_end_of_stream unit eof_check_interrupt idle_refresh epoch_clock
           constant_url eof_update_init_section eof_open_input eof_avio_read 0 0 tt
           (empty_context true true) finished_rep 4096).
  - reflexivity.
  - reflexivity.
  - reflexivity.
  - vm_compute. reflexivity.
Defined.
(** ** The init section is loaded once, and fits its buffer *)

Section InitSection.

Variable world : Type.
Variable ffurl_probe_size : world -> DASHContext -> fragment -> world * option Z.
Variable open_url : world -> DASHContext -> representation -> fragment -> world * bool * Z.
Variable avio_size : world -> representation -> world * Z.
Variable av_fast_malloc : Z -> Z -> Z.
Variable avio_read : world -> representation -> Z -> world * Z.

Local Abbreviation update :=
  (update_init_section world ffurl_probe_size open_url avio_size av_fast_malloc avio_read).

(** X14.  The init section is downloaded once: update_init_section
    returns 0 or a negative error; after it has returned 0 a further call
    returns 0 without any request and without touching the representation;
    and after an error the section is still marked as not loaded, so the
    next read tries again. *)
Theorem update_init_section_once
    (w w1 : world) (c : DASHContext) (pls pls1 : representation) (ret : Z) :
  update w c pls = (w1, pls1, ret) ->
  ret <= 0 /\
  (ret = 0 -> forall c', update w1 c' pls1 = (w1, pls1, 0)) /\
  (ret < 0 -> init_loaded pls1 = false).
Proof.
  unfold update_init_section.
  destruct (init_section pls) as [sec|] eqn:Esec.
  2:{ intros [= <- <- <-]. split; [lia|]. split; [|lia]. intros _ c'. now rewrite Esec. }
  destruct (init_loaded pls) eqn:Eloaded.
  { intros [= <- <- <-]. split; [lia|]. split; [|lia]. intros _ c'.
    now rewrite Esec, Eloaded. }
  unfold open_input.
  destruct (ffurl_probe_size w c sec) as [w2 probed].
  destruct (open_url w2 c pls sec) as [[w3 opened] ret3].
  destruct (ret3 <? 0) eqn:E3.
  { intros [= <- <- <-]. split; [lia|]. split; [lia|]. intros _. exact Eloaded. }
  match goal with
  | |- context [let '(w, sec_size) := ?x in _] => destruct x as [w4 sec_size]
  end.
  unfold read_from_url.
  match goal with
  | |- context [avio_read ?a ?b ?n] => destruct (avio_read a b n) as [w5 ret5]
  end.
  destruct (ret5 <? 0) eqn:E5.
  - intros [= <- <- <-]. split; [lia|]. split; [lia|]. intros _.
    replace (0 <? ret5) with false by lia. exact Eloaded.
  - intros [= <- <- <-]. split; [lia|]. split; [|lia]. intros _ c'.
    destruct (0 <? ret5); reflexivity.
Qed.

Hypothesis avio_read_bounded :
  forall w v buf_size, 0 <= buf_size -> snd (avio_read w v buf_size) <= buf_size.
Hypothesis ffurl_probe_size_int64 :
  forall w c seg size,
    snd (ffurl_probe_size w c seg) = Some size -> INT64_MIN <= size <= INT64_MAX.
Hypothesis av_fast_malloc_int :
  forall old_size min_size,
    0 <= old_size <= 2147483647 -> 0 <= min_size <= max_init_section_size ->
    0 <= av_fast_malloc old_size min_size <= 2147483647.

(** X15.  A downloaded init section fits its buffer: when
    update_init_section has fetched the section, from a fetcher that
    delivers at most what it is asked for, the representation is marked
    loaded with the fetcher closed and the init read offset at 0, and
    init_sec_data_len is at most init_sec_buf_size and at most the size of
    the resource when that is known. *)
Theorem update_init_section_fits_buffer
    (w w1 : world) (c : DASHContext) (pls pls1 : representation) (sec : fragment) :
  init_section pls = Some sec -> init_loaded pls = false ->
  0 <= init_sec_buf_size pls <= 2147483647 ->
  update w c pls = (w1, pls1, 0) ->
  init_loaded pls1 = true /\ input pls1 = false /\ init_sec_buf_read_offset pls1 = 0 /\
  0 <= init_sec_data_len pls1 <= init_sec_buf_size pls1 /\
  (0 <= cur_seg_size pls1 -> init_sec_data_len pls1 <= cur_seg_size pls1).
Proof.
  intros Hsec Hloaded Hold. unfold update_init_section. rewrite Hsec, Hloaded.
  unfold open_input.
  pose proof (ffurl_probe_size_int64 w c sec) as Hprobe.
  destruct (ffurl_probe_size w c sec) as [w2 probed]. cbn [snd] in Hprobe.
  destruct (open_url w2 c pls sec) as [[w3 opened] ret3].
  set (size := match probed with Some size => size | None => -1 end).
  assert (Hsize : INT64_MIN <= size <= INT64_MAX).
  { subst size. destruct probed as [s|]; [now apply Hprobe|int_lia]. }
  destruct (ret3 <? 0) eqn:E3; [intros [= _ _ Hret]; lia|].
  set (pls2 := set_init_section _ _).
  match goal with
  | |- context [let '(w, sec_size) := ?x in _] =>
      assert (Hsec_size : 0 <= snd x) by
        (cbn [frag_size]; destruct (0 <=? size) eqn:Es; cbn [snd]; [lia|];
         destruct (avio_size w3 pls2) as [w4 urlsize];
         destruct (0 <=? urlsize) eqn:Eu; cbn [snd]; [lia|discriminate]);
      destruct x as [w4 sec_size]
  end.
  cbn [snd] in Hsec_size.
  pose proof (av_fast_malloc_int (init_sec_buf_size pls2)
                (Z.min sec_size max_init_section_size) Hold
                ltac:(unfold max_init_section_size; lia)) as Hbuf.
  set (bufsize := av_fast_malloc _ _) in *.
  unfold read_from_url. cbn [frag_size].
  change (init_sec_buf_size (set_init_sec_buf_size bufsize pls2)) with bufsize.
  change (cur_seg_size (set_init_sec_buf_size bufsize pls2)) with size.
  change (cur_seg_offset (set_init_sec_buf_size bufsize pls2)) with 0.
  rewrite (to_int32_id bufsize) by lia.
  set (request := if 0 <=? size then to_int32 (Z.min bufsize (sub64 size 0)) else bufsize).
  assert (Hreq : 0 <= request <= bufsize /\ (0 <= size -> request <= size)).
  { subst request. destruct (0 <=? size) eqn:Es; [|lia].
    unfold sub64. rewrite Z.sub_0_r.
    rewrite (to_int64_id size) by int_lia. rewrite to_int32_id by lia. lia. }
  pose proof (avio_read_bounded w4 (set_init_sec_buf_size bufsize pls2) request ltac:(lia))
    as Hret.
  destruct (avio_read w4 (set_init_sec_buf_size bufsize pls2) request) as [w5 ret5].
  cbn [snd] in Hret.
  destruct (ret5 <? 0) eqn:E5; [intros [= _ _ Hr]; lia|].
  intros [= <- <-].
  assert (Hlen : to_uint32 ret5 = ret5) by (apply to_uint32_id; unfold uint32_range; int_lia).
  destruct (0 <? ret5); cbn; rewrite Hlen; repeat split; lia.
Qed.

End InitSection.

Lemma update_init_section_once_witness :
  let pls1 :=
    snd (fst (update_init_section unit probe_700 open_always size_unknown exact_malloc
                full_avio_read tt (empty_context true true) init_rep)) in
  0 <= 0 /\
  (0 = 0 -> forall c',
     update_init_section unit probe_700 open_always size_unknown exact_malloc full_avio_read
       tt c' pls1 = (tt, pls1, 0)) /\
  (0 < 0 -> init_loaded pls1 = false).
Proof.
  apply (update_init_section_once unit probe_700 open_always size_unknown exact_malloc
           full_avio_read tt tt (empty_context true true) init_rep
           (snd (fst (update_init_section unit probe_700 open_always size_unknown exact_malloc
                        full_avio_read tt (empty_context true true) init_rep))) 0).
  vm_compute. reflexivity.
Defined.

Lemma update_init_section_fits_buffer_witness :
  let pls1 :=
    snd (fst (update_init_section unit probe_700 open_always size_unknown exact_malloc
                full_avio_read tt (empty_context true true) init_rep)) in
  init_loaded pls1 = true /\ input pls1 = false /\ init_sec_buf_read_offset pls1 = 0 /\
  0 <= init_sec_data_len pls1 <= init_sec_buf_size pls1 /\
  (0 <= cur_seg_size pls1 -> init_sec_data_len pls1 <= cur_seg_size pls1).
Proof.
  apply (update_init_section_fits_buffer unit probe_700 open_always size_unknown exact_malloc
           full_avio_read
           ltac:(intros w v n Hn; cbn; lia)
           ltac:(intros w c seg size [= <-]; vm_compute; split; discriminate)
           ltac:(intros old_size min_size Ho Hm; unfold exact_malloc, max_init_section_size in *;
                 destruct (min_size <=? old_size); lia)
           tt tt (empty_context true true) init_rep
           (snd (fst (update_init_section unit probe_700 open_always size_unknown exact_malloc
                        full_avio_read tt (empty_context true true) init_rep)))
           {| frag_url_offset := 0; frag_size := -1; frag_url := "init.mp4" |}).
  - reflexivity.
  - reflexivity.
  - vm_compute. split; discriminate.
  - vm_compute. reflexivity.
Defined.
(** ** Discarded streams are closed *)

Lemma catch_up_lookup_ne pls p : forall (h : store) q,
  q <> pls -> catch_up h pls p !! q = h !! q.
Proof.
  induction p as [|pj p IH]; intros h q Hq; [reflexivity|].
  cbn [catch_up]. rewrite IH by exact Hq.
  destruct (h !! pls) as [r|]; [|reflexivity].
  destruct (h !! pj) as [rj|]; [|reflexivity].
  apply lookup_insert_ne. congruence.
Qed.

Section DiscardProofs.

Variable world : Type.
Variable reopen_demux_for_component : world -> representation -> world * representation * Z.

Local Abbreviation recheck_one :=
  (recheck_discard_flags_one world reopen_demux_for_component).

(** The body of the loop for [p[i]] writes to [p[i]] alone. *)
Lemma recheck_discard_flags_one_lookup_ne p w h pi q :
  q <> pi -> snd (recheck_one p (w, h) pi) !! q = h !! q.
Proof.
  intros Hq. unfold recheck_discard_flags_one.
  destruct (h !! pi) as [pls|]; [|reflexivity].
  destruct (needed pls && negb (ctx pls)).
  - set (h1 := catch_up _ pi p).
    assert (Hh1 : h1 !! q = h !! q).
    { subst h1. rewrite catch_up_lookup_ne by exact Hq. apply lookup_insert_ne. congruence. }
    destruct (h1 !! pi) as [pls1|]; [|exact Hh1].
    destruct (reopen_demux_for_component w pls1) as [[w' pls'] ret]. cbn [snd].
    rewrite lookup_insert_ne by congruence. exact Hh1.
  - destruct (negb (needed pls) && ctx pls); [|reflexivity].
    cbn [snd]. apply lookup_insert_ne. congruence.
Qed.

Lemma recheck_discard_flags_fold_lookup_ne p l q : q ∉ l ->
  forall w h, snd (fold_left (recheck_one p) l (w, h)) !! q = h !! q.
Proof.
  induction l as [|pi l IH]; intros Hq w h; [reflexivity|].
  cbn [fold_left].
  pose proof (recheck_discard_flags_one_lookup_ne p w h pi q
                ltac:(intros ->; apply Hq; apply elem_of_cons; now left)) as Hone.
  destruct (recheck_one p (w, h) pi) as [w1 h1]. cbn [snd] in Hone.
  rewrite IH; [exact Hone|]. intros Hin. apply Hq. apply elem_of_cons. now right.
Qed.

(** X16.  After recheck_discard_flags every representation of the list
    whose stream the consumer discards is closed: if its parser was open,
    parser and fetcher are closed and nothing else of it changes, and if it
    was closed it is left as it was; the reopening of other representations
    of the list does not disturb it. *)
Theorem recheck_discard_flags_closes_discarded
    (p : list rep_ptr) (w : world) (h : store) (q : rep_ptr) (r : representation) :
  NoDup p -> q ∈ p -> h !! q = Some r -> needed r = false ->
  snd (recheck_discard_flags world reopen_demux_for_component w h p) !! q
  = Some (if ctx r then set_input false (set_ctx false r) else r).
Proof.
  intros Hnodup Hin Hq Hneeded. unfold recheck_discard_flags.
  destruct (list_elem_of_split _ _ Hin) as (before & after & Hsplit).
  assert (Hparts : (q ∉ before) /\ (q ∉ after)).
  { rewrite Hsplit in Hnodup. apply NoDup_app in Hnodup.
    destruct Hnodup as (_ & Hdisj & Hafter). apply NoDup_cons in Hafter.
    split; [|apply Hafter]. intros Hb. apply (Hdisj q Hb). apply elem_of_cons. now left. }
  destruct Hparts as [Hbefore Hafter].
  generalize p at 1. intros p0. rewrite Hsplit. rewrite fold_left_app. cbn [fold_left].
  pose proof (recheck_discard_flags_fold_lookup_ne p0 before q Hbefore w h) as H1.
  destruct (fold_left (recheck_one p0) before (w, h)) as [w1 h1]. cbn [snd] in H1.
  rewrite Hq in H1.
  assert (Hone : snd (recheck_one p0 (w1, h1) q) !! q
                 = Some (if ctx r then set_input false (set_ctx false r) else r)).
  { unfold recheck_discard_flags_one. rewrite H1, Hneeded. cbn [andb negb].
    destruct (ctx r); cbn [snd]; [apply lookup_insert_eq|exact H1]. }
  destruct (recheck_one p0 (w1, h1) q) as [w2 h2]. cbn [snd] in Hone.
  rewrite recheck_discard_flags_fold_lookup_ne by exact Hafter. exact Hone.
Qed.

End DiscardProofs.

Lemma recheck_discard_flags_closes_discarded_witness :
  let r := set_assoc_stream (Some AVDISCARD_ALL) (set_ctx true template_rep) in
  let h := <[1%positive := set_cur_seq_no 5 empty_representation]>
             (<[2%positive := r]> ∅) in
  snd (recheck_discard_flags unit instant_reopen tt h [1%positive; 2%positive]) !! 2%positive
  = Some (if ctx r then set_input false (set_ctx false r) else r).
Proof.
  intros r h.
  apply (recheck_discard_flags_closes_discarded unit instant_reopen
           [1%positive; 2%positive] tt h 2%positive r).
  - apply NoDup_cons. split; [|apply NoDup_singleton].
    intros Hin. apply list_elem_of_singleton in Hin. discriminate.
  - apply elem_of_cons. right. apply elem_of_cons. now left.
  - reflexivity.
  - reflexivity.
Defined.
(** ** Small helpers *)

(** X17.  aligned rounds a size up to the next multiple of 64: for a
    non-negative int that leaves room for the rounding, the result is a
    multiple of 64, not below the argument and less than 64 above it, and a
    multiple of 64 is left as it is. *)
Theorem aligned_rounds_up (val : Z) :
  0 <= val <= 2147483647 - 63 ->
  val <= aligned val < val + 64 /\ aligned val mod 64 = 0 /\
  (val mod 64 = 0 -> aligned val = val).
Proof.
  intros Hval. unfold aligned.
  rewrite (to_int32_id (val + 63)) by lia.
  rewrite Z.shiftr_div_pow2 by lia. rewrite Z.shiftl_mul_pow2 by lia.
  change (2 ^ 6) with 64.
  pose proof (Z.div_mod (val + 63) 64 ltac:(lia)) as Hdm.
  pose proof (Z.mod_pos_bound (val + 63) 64 ltac:(lia)) as Hmod.
  rewrite to_int32_id by lia.
  split; [lia|]. split; [apply Z.mod_mul; lia|].
  intros Hz.
  pose proof (Z.div_mod val 64 ltac:(lia)) as Hv. rewrite Hz in Hv.
  assert (Hq : (val + 63) / 64 = val / 64).
  { symmetry. apply (Z.div_unique_pos (val + 63) 64 (val / 64) 63); lia. }
  rewrite Hq. lia.
Qed.

Lemma aligned_rounds_up_witness :
  100 <= aligned 100 < 100 + 64 /\ aligned 100 mod 64 = 0 /\
  (100 mod 64 = 0 -> aligned 100 = 100).
Proof.
  apply (aligned_rounds_up 100). vm_compute. split; discriminate.
Defined.

Lemma starts_with_app s : forall a b,
  starts_with s (a ++ b) = true -> starts_with s a = true.
Proof.
  induction s as [|d s IH]; intros [|c a] b H; try reflexivity.
  - change (String c a ++ b)%string with (String c (a ++ b)) in H. discriminate.
  - change (String c a ++ b)%string with (String c (a ++ b)) in H.
    cbn [starts_with] in *. apply andb_true_iff in H. destruct H as [Hc Ha].
    rewrite Hc. cbn [andb]. now apply (IH a b).
Qed.

Lemma find_substring_app s : forall a b,
  find_substring s (a ++ b) = true -> find_substring s a = true.
Proof.
  induction s as [|d s IH]; intros a b H.
  - cbn [find_substring] in *. rewrite orb_false_r in *. now apply starts_with_app in H.
  - cbn [find_substring] in *. apply orb_true_iff in H. apply orb_true_iff.
    destruct H as [H|H]; [left; now apply starts_with_app in H|right; now apply (IH a b)].
Qed.

Section ProbeProofs.

Variable av_stristr : string -> string -> bool.

Hypothesis av_stristr_prefix :
  forall buf needle rest,
    av_stristr buf (needle ++ rest) = true -> av_stristr buf needle = true.

(** X18.  dash_probe accepts a buffer exactly when it contains "<MPD" and
    either "dash:profile" or "3GPP:PSS:profile:DASH1"; it then returns
    AVPROBE_SCORE_MAX, and 0 otherwise.  The four tests for particular
    DASH profiles add nothing: a search that finds a string finds its
    beginning. *)
Theorem dash_probe_accepts (buf : string) :
  dash_probe av_stristr buf =
  if av_stristr buf "<MPD"
     && (av_stristr buf "dash:profile" || av_stristr buf "3GPP:PSS:profile:DASH1")
  then AVPROBE_SCORE_MAX else 0.
Proof.
  unfold dash_probe.
  destruct (av_stristr buf "<MPD"); cbn [negb andb]; [|reflexivity].
  pose proof (av_stristr_prefix buf "dash:profile" ":isoff-on-demand:2011") as H1.
  pose proof (av_stristr_prefix buf "dash:profile" ":isoff-live:2011") as H2.
  pose proof (av_stristr_prefix buf "dash:profile" ":isoff-live:2012") as H3.
  pose proof (av_stristr_prefix buf "dash:profile" ":isoff-main:2011") as H4.
  change ("dash:profile" ++ ":isoff-on-demand:2011")%string
    with "dash:profile:isoff-on-demand:2011"%string in H1.
  change ("dash:profile" ++ ":isoff-live:2011")%string
    with "dash:profile:isoff-live:2011"%string in H2.
  change ("dash:profile" ++ ":isoff-live:2012")%string
    with "dash:profile:isoff-live:2012"%string in H3.
  change ("dash:profile" ++ ":isoff-main:2011")%string
    with "dash:profile:isoff-main:2011"%string in H4.
  destruct (av_stristr buf "dash:profile:isoff-on-demand:2011");
    [rewrite H1 by reflexivity; reflexivity|].
  destruct (av_stristr buf "dash:profile:isoff-live:2011");
    [rewrite H2 by reflexivity; reflexivity|].
  destruct (av_stristr buf "dash:profile:isoff-live:2012");
    [rewrite H3 by reflexivity; reflexivity|].
  destruct (av_stristr buf "dash:profile:isoff-main:2011");
    [rewrite H4 by reflexivity; reflexivity|].
  cbn [orb].
  destruct (av_stristr buf "3GPP:PSS:profile:DASH1"); [now rewrite orb_true_r|].
  rewrite orb_false_r. reflexivity.
Qed.

End ProbeProofs.

Lemma dash_probe_accepts_witness :
  dash_probe find_substring "<MPD profiles='urn:mpeg:dash:profile:full:2011'>" =
  if find_substring "<MPD profiles='urn:mpeg:dash:profile:full:2011'>" "<MPD"
     && (find_substring "<MPD profiles='urn:mpeg:dash:profile:full:2011'>" "dash:profile"
         || find_substring "<MPD profiles='urn:mpeg:dash:profile:full:2011'>"
              "3GPP:PSS:profile:DASH1")
  then AVPROBE_SCORE_MAX else 0.
Proof.
  apply (dash_probe_accepts find_substring).
  intros buf needle rest. apply find_substring_app.
Defined.
(** ** The live edge of a timeline *)

(** Past the last segment the walk of
    get_segment_start_time_based_on_timeline ends with the time at which
    the timeline ends. *)
Lemma get_segment_start_time_walk_past tls : forall st num target,
  timeline_wf tls st -> INT64_MIN <= st -> INT64_MIN <= num ->
  num + seg_count tls <= INT64_MAX -> num + seg_count tls <= target ->
  get_segment_start_time_walk tls target st num = timeline_end tls st.
Proof.
  induction tls as [|e tls IH]; intros st num target Hwf Hst Hnum Hcnt Htgt; [reflexivity|].
  assert (Hwf0 := Hwf). cbn [timeline_wf] in Hwf. destruct Hwf as (Hd & Hr & Hes & Hwf).
  pose proof (seg_count_nonneg _ _ Hwf) as Hsc.
  pose proof (timeline_wf_bound _ _ Hwf) as Hend.
  assert (Hsum : seg_count (e :: tls) = tl_repeat e + 1 + seg_count tls) by reflexivity.
  rewrite get_segment_start_time_walk_entry by (assumption || lia).
  replace (target <=? num + tl_repeat e) with false by lia.
  cbn [timeline_end]. apply IH; try assumption; try lia.
  unfold entry_end. int_nia.
Qed.

(** X19.  A live timeline stream starts 60 seconds behind the live edge:
    calc_cur_seg_no returns the first segment that starts after the end of
    the timeline minus 60 seconds, that is the segment N whose start time is
    after that point while the start time of N - 1, if there is one, is
    not. *)
Theorem calc_cur_seg_no_live_edge
    (now : Z) (c : DASHContext) (pls : representation) (N : Z) :
  c_is_live c = true -> timeline_rep_ok c pls ->
  0 < fragment_timescale pls -> 60 * fragment_timescale pls <= INT64_MAX ->
  first_seq_no pls + seg_count (timelines pls) <= 4294967295 ->
  let edge := timeline_end (timelines pls) 0 - 60 * fragment_timescale pls in
  first_seq_no pls <= N < first_seq_no pls + seg_count (timelines pls) ->
  N = first_seq_no pls \/ get_segment_start_time_based_on_timeline c pls (N - 1) <= edge ->
  edge < get_segment_start_time_based_on_timeline c pls N ->
  calc_cur_seg_no now c pls = N.
Proof.
  intros Hlive Hok Hts Hts60 Hsmall edge HN Hprev Hnext. assert (Hok' := Hok).
  destruct Hok' as (Hfr & Htl & Hwf & Hfirst & Hmax & Hopt).
  pose proof (seg_count_nonneg _ _ Hwf) as Hsc.
  pose proof (timeline_end_ge _ _ Hwf) as Hend0.
  pose proof (timeline_wf_bound _ _ Hwf) as Hb0.
  assert (Hendmax : timeline_end (timelines pls) 0 <= INT64_MAX).
  { clear -Hwf. revert Hwf. generalize 0. induction (timelines pls) as [|e l IH]; intros z Hwf.
    - exact Hwf.
    - cbn [timeline_wf timeline_end] in *. destruct Hwf as (_ & _ & _ & Hwf). now apply IH. }
  assert (Hall : get_segment_start_time_based_on_timeline c pls 4294967295
                 = timeline_end (timelines pls) 0).
  { rewrite get_segment_start_time_of_walk by (assumption || int_lia).
    apply get_segment_start_time_walk_past; try assumption; int_lia. }
  unfold calc_cur_seg_no, n_fragments, n_timelines. rewrite Hlive, Hfr.
  change (Z.of_nat (length (@nil fragment))) with 0. cbn [Z.eqb negb].
  replace (Z.of_nat (length (timelines pls)) =? 0) with false
    by (destruct (timelines pls); [congruence|cbn [length]; lia]).
  cbn [negb]. rewrite Hall.
  rewrite (mul64_id 60 (fragment_timescale pls)) by int_lia.
  rewrite (sub64_id (timeline_end (timelines pls) 0) (60 * fragment_timescale pls))
    by int_lia.
  fold edge.
  assert (Hcalc : calc_next_seg_no_from_timelines c pls edge = N).
  { rewrite get_segment_start_time_of_walk in Hnext by (assumption || int_lia).
    rewrite (calc_next_seg_no_of_walk c pls edge (N - first_seq_no pls)); try assumption;
      try lia.
    apply calc_next_seg_no_walk_between; try assumption; try int_lia.
    destruct Hprev as [->|Hprev]; [left; lia|].
    destruct (Z.eq_dec N (first_seq_no pls)) as [->|Hne]; [left; lia|]. right.
    rewrite get_segment_start_time_of_walk in Hprev by (assumption || int_lia).
    replace (N - first_seq_no pls - 1) with (N - 1 - first_seq_no pls) by lia.
    exact Hprev. }
  rewrite Hcalc. replace (N =? -1) with false by lia.
  destruct Hopt as [Hon|H0].
  - now rewrite Hon.
  - destruct (c_use_timeline_segment_offset_correction c); cbn [negb]; [reflexivity|].
    rewrite H0. rewrite (add64_id N 0) by int_lia. lia.
Qed.

Lemma calc_cur_seg_no_live_edge_witness :
  calc_cur_seg_no 0 (live_context true true)
    (set_timelines [S_entry 0 40 2] (set_fragment_timescale 1 empty_representation)) = 2.
Proof.
  apply (calc_cur_seg_no_live_edge 0 (live_context true true)
           (set_timelines [S_entry 0 40 2] (set_fragment_timescale 1 empty_representation)) 2).
  - reflexivity.
  - unfold timeline_rep_ok. split; [reflexivity|]. split; [discriminate|].
    split; [vm_compute; repeat split; (reflexivity || discriminate)|].
    split; [vm_compute; discriminate|]. split; [vm_compute; discriminate|].
    left. reflexivity.
  - vm_compute. reflexivity.
  - vm_compute. discriminate.
  - vm_compute. discriminate.
  - vm_compute. split; [discriminate|reflexivity].
  - right. vm_compute. discriminate.
  - vm_compute. reflexivity.
Defined.

(** ** A refresh into a new period *)

Section PeriodChange.

Variable now : Z.

(** X20.  When a refresh finds that the period has advanced, the driven
    timeline representation restarts at the first segment of the new
    period: the splice gives it the new timeline and numbering with
    cur_seq_no at the new first_seq_no, hands it the new init section
    marked as not loaded with the read offset at 0, and binds it to the new
    period; the freshly parsed representation is left without timeline and
    init section, so freeing it does not free what was handed over. *)
Theorem splice_period_change_restarts
    (narrow : Z -> Z) (c : DASHContext) (ccur cur : representation) :
  timelines cur <> [] -> fragments cur = [] -> fragments ccur = [] ->
  timelines ccur <> [] -> timeline_wf (timelines ccur) 0 ->
  0 <= first_seq_no ccur -> first_seq_no ccur + seg_count (timelines ccur) <= INT64_MAX ->
  period_start cur < c_period_start c ->
  let '(ccur', cur') := splice_representation now narrow c ccur cur in
  cur_seq_no cur' = first_seq_no ccur /\ first_seq_no cur' = first_seq_no ccur /\
  timelines cur' = timelines ccur /\
  last_seq_no cur' = first_seq_no ccur + seg_count (timelines ccur) - 1 /\
  init_section cur' = init_section ccur /\ init_loaded cur' = false /\
  init_sec_buf_read_offset cur' = 0 /\
  period_start cur' = c_period_start c /\ period_duration cur' = c_period_duration c /\
  timelines ccur' = [] /\ init_section ccur' = None.
Proof.
  intros Htl Hfr Hfr' Htl' Hwf Hfirst Hmax Hperiod.
  unfold splice_representation.
  replace (n_timelines cur =? 0) with false
    by (unfold n_timelines; destruct (timelines cur); [congruence|cbn [length]; lia]).
  cbn [negb]. replace (period_start cur <? c_period_start c) with true by lia.
  unfold move_timelines, move_init_section.
  set (dest := set_first_seq_no _ (set_timelines _ cur)).
  assert (Hlast : calc_max_seg_no now dest c
                  = first_seq_no ccur + seg_count (timelines ccur) - 1).
  { apply (calc_max_seg_no_of_timeline now c dest); assumption. }
  cbn zeta.
  match goal with
  | |- context [n_fragments ?r =? 0] =>
      replace (n_fragments r =? 0) with true
        by (unfold n_fragments; change (fragments r) with (fragments cur); now rewrite Hfr)
  end.
  cbn [negb]. unfold set_representation_period. cbn. rewrite Hlast. repeat split.
Qed.

End PeriodChange.

Lemma splice_period_change_restarts_witness :
  let c := set_c_period_start 30 (live_context true true) in
  let ccur := set_first_seq_no 7 (set_init_section
                (Some {| frag_url_offset := 0; frag_size := -1; frag_url := "init-2.mp4" |})
                discontinuity_rep) in
  let cur := set_cur_seq_no 2 discontinuity_rep in
  let '(ccur', cur') := splice_representation 0 to_int32 c ccur cur in
  cur_seq_no cur' = first_seq_no ccur /\ first_seq_no cur' = first_seq_no ccur /\
  timelines cur' = timelines ccur /\
  last_seq_no cur' = first_seq_no ccur + seg_count (timelines ccur) - 1 /\
  init_section cur' = init_section ccur /\ init_loaded cur' = false /\
  init_sec_buf_read_offset cur' = 0 /\
  period_start cur' = c_period_start c /\ period_duration cur' = c_period_duration c /\
  timelines ccur' = [] /\ init_section ccur' = None.
Proof.
  intros c ccur cur.
  apply (splice_period_change_restarts 0 to_int32 c ccur cur).
  - discriminate.
  - reflexivity.
  - reflexivity.
  - discriminate.
  - vm_compute. repeat split; (reflexivity || discriminate).
  - vm_compute. discriminate.
  - vm_compute. discriminate.
  - vm_compute. reflexivity.
Defined.
(** ** Seeking leaves discarded streams closed *)

Section SeekDiscarded.

Variable world : Type.
Variable reopen_demux_for_component : world -> representation -> world * representation * Z.
Variable av_seek_frame : world -> representation -> Z -> Z -> world * representation * Z.
Variable av_rescale_rnd : Z -> Z -> Z -> Z -> Z.

Local Abbreviation seek := (dash_seek world reopen_demux_for_component av_seek_frame).
Local Abbreviation seek_list :=
  (dash_read_seek_list world reopen_demux_for_component av_seek_frame).

(** A dry run is silent: it returns 0, calls nothing and leaves the parser
    as it is. *)
Lemma dash_seek_dry_run w pls seek_pos_msec flags :
  exists pls', seek w pls seek_pos_msec flags true = (w, pls', 0) /\ ctx pls' = ctx pls.
Proof.
  unfold dash_seek. destruct (n_fragments pls =? 1).
  - eexists. split; reflexivity.
  - eexists. split; [reflexivity|].
    cbn [ctx set_init_sec_buf_read_offset set_cur_seg_offset set_cur_timestamp].
    repeat match goal with
           | |- context [if ?b then _ else _] => destruct b
           end; reflexivity.
Qed.

Lemma dash_read_seek_list_closed p : forall w h seek_pos_msec flags,
  (forall q r, h !! q = Some r -> ctx r = false) ->
  exists h',
    seek_list w h p seek_pos_msec flags 0 = (w, h', 0) /\
    (forall q r, h' !! q = Some r -> ctx r = false) /\
    (forall q, is_Some (h' !! q) <-> is_Some (h !! q)).
Proof.
  induction p as [|pi p IH]; intros w h seek_pos_msec flags Hclosed.
  - exists h. split; [reflexivity|]. split; [exact Hclosed|]. intros q. reflexivity.
  - cbn [dash_read_seek_list Z.eqb].
    destruct (h !! pi) as [pls|] eqn:Hpi; [|now apply IH].
    rewrite (Hclosed pi pls Hpi). cbn [negb].
    destruct (dash_seek_dry_run w pls seek_pos_msec flags) as (pls' & Hseek & Hctx).
    rewrite Hseek.
    destruct (IH w (<[pi := pls']> h) seek_pos_msec flags) as (h' & Hlist & Hc & Hdom).
    { intros q r Hq. destruct (decide (pi = q)) as [->|Hne].
      - rewrite lookup_insert_eq in Hq. injection Hq as <-.
        rewrite Hctx. now apply (Hclosed q pls).
      - rewrite lookup_insert_ne in Hq by exact Hne. now apply (Hclosed q r). }
    exists h'. split; [exact Hlist|]. split; [exact Hc|].
    intros q. rewrite Hdom. destruct (decide (pi = q)) as [->|Hne].
    + rewrite lookup_insert_eq, Hpi. split; eauto.
    + now rewrite lookup_insert_ne.
Qed.

(** A dry run does not depend on the world. *)
Lemma dash_seek_dry_run_result w0 w pls seek_pos_msec flags :
  seek w0 pls seek_pos_msec flags true
  = (w0, snd (fst (seek w pls seek_pos_msec flags true)), 0).
Proof.
  unfold dash_seek. destruct (n_fragments pls =? 1); reflexivity.
Qed.

(** X21.  Seeking does not wake discarded streams: when no representation
    has an open parser, a seek on a VOD presentation that is not a byte seek
    repositions every representation as a dry run.  It returns 0 and makes
    no call to the inner parser or the network; every representation of the
    three lists (which share none) becomes what dash_seek's dry run makes
    of it for the position in milliseconds that av_rescale_rnd gave, every
    other representation is untouched, and all stay closed. *)
Theorem dash_read_seek_keeps_closed
    (w : world) (c : DASHContext) (h : store) (time_base_den timestamp flags : Z) :
  c_is_live c = false -> Z.land flags AVSEEK_FLAG_BYTE = 0 ->
  NoDup (c_videos c ++ c_audios c ++ c_subtitles c) ->
  (forall q r, h !! q = Some r -> ctx r = false) ->
  let seek_pos_msec :=
    av_rescale_rnd timestamp 1000 time_base_den
      (if negb (Z.land flags AVSEEK_FLAG_BACKWARD =? 0) then AV_ROUND_DOWN else AV_ROUND_UP) in
  exists h',
    dash_read_seek world reopen_demux_for_component av_seek_frame av_rescale_rnd
      w c h time_base_den timestamp flags = (w, h', 0) /\
    (forall q pls, q ∈ c_videos c ++ c_audios c ++ c_subtitles c -> h !! q = Some pls ->
       h' !! q = Some (snd (fst (seek w pls seek_pos_msec flags true)))) /\
    (forall q, q ∉ c_videos c ++ c_audios c ++ c_subtitles c -> h' !! q = h !! q) /\
    (forall q r, h' !! q = Some r -> ctx r = false).
Proof.
  intros Hlive Hbyte Hnodup Hclosed s. unfold dash_read_seek. rewrite Hlive, Hbyte.
  cbn [Z.eqb negb orb]. fold s.
  destruct (dash_read_seek_list_closed (c_videos c) w h s flags Hclosed)
    as (h1 & Hv & Hc1 & Hd1).
  destruct (dash_read_seek_list_closed (c_audios c) w h1 s flags Hc1)
    as (h2 & Ha & Hc2 & Hd2).
  destruct (dash_read_seek_list_closed (c_subtitles c) w h2 s flags Hc2)
    as (h3 & Hs & Hc3 & Hd3).
  assert (Hrun :
    (let '(w1, h1, ret1) := seek_list w h (c_videos c) s flags 0 in
     let '(w2, h2, ret2) := seek_list w1 h1 (c_audios c) s flags ret1 in
     seek_list w2 h2 (c_subtitles c) s flags ret2) = (w, h3, 0)).
  { now rewrite Hv, Ha, Hs. }
  exists h3. split; [exact Hrun|]. split; [|split; [|exact Hc3]].
  - intros q pls Hq Hlook.
    destruct (dash_read_seek_lists_success world reopen_demux_for_component av_seek_frame
                _ _ _ _ _ _ _ _ _ Hnodup Hrun q pls Hq Hlook) as (w0 & w1 & r & Hseek & Hr).
    rewrite (Hclosed q pls Hlook) in Hseek. cbn [negb] in Hseek.
    rewrite (dash_seek_dry_run_result w0 w) in Hseek. congruence.
  - intros q Hq.
    pose proof (dash_read_seek_list_lookup_notin world reopen_demux_for_component
                  av_seek_frame (c_videos c) q
                  ltac:(intros Hin; apply Hq; rewrite !elem_of_app; auto) w h s flags 0) as H1.
    pose proof (dash_read_seek_list_lookup_notin world reopen_demux_for_component
                  av_seek_frame (c_audios c) q
                  ltac:(intros Hin; apply Hq; rewrite !elem_of_app; auto) w h1 s flags 0) as H2.
    pose proof (dash_read_seek_list_lookup_notin world reopen_demux_for_component
                  av_seek_frame (c_subtitles c) q
                  ltac:(intros Hin; apply Hq; rewrite !elem_of_app; auto) w h2 s flags 0) as H3.
    rewrite Hv in H1. rewrite Ha in H2. rewrite Hs in H3. cbn [fst snd] in H1, H2, H3.
    now rewrite H3, H2, H1.
Qed.

End SeekDiscarded.

Lemma dash_read_seek_keeps_closed_witness :
  exists h',
    dash_read_seek unit instant_reopen instant_seek_frame rescale_msec
      tt closed_pair_context closed_pair_store 1000 5000 0 = (tt, h', 0) /\
    (forall q pls,
       q ∈ c_videos closed_pair_context ++ c_audios closed_pair_context
           ++ c_subtitles closed_pair_context ->
       closed_pair_store !! q = Some pls ->
       h' !! q = Some (snd (fst (dash_seek unit instant_reopen instant_seek_frame tt pls
                                   (rescale_msec 5000 1000 1000 AV_ROUND_UP) 0 true)))) /\
    (forall q,
       q ∉ c_videos closed_pair_context ++ c_audios closed_pair_context
           ++ c_subtitles closed_pair_context ->
       h' !! q = closed_pair_store !! q) /\
    (forall q r, h' !! q = Some r -> ctx r = false).
Proof.
  apply (dash_read_seek_keeps_closed unit instant_reopen instant_seek_frame rescale_msec
           tt closed_pair_context closed_pair_store 1000 5000 0).
  - reflexivity.
  - reflexivity.
  - apply NoDup_cons. split; [|apply NoDup_singleton].
    intros Hin. apply list_elem_of_singleton in Hin. discriminate.
  - intros q r Hq. unfold closed_pair_store in Hq.
    destruct (decide (1%positive = q)) as [<-|Hne1].
    + rewrite lookup_insert_eq in Hq. injection Hq as <-. reflexivity.
    + rewrite lookup_insert_ne in Hq by exact Hne1.
      destruct (decide (2%positive = q)) as [<-|Hne2].
      * rewrite lookup_insert_eq in Hq. injection Hq as <-. reflexivity.
      * rewrite lookup_insert_ne in Hq by exact Hne2. rewrite lookup_empty in Hq.
        discriminate.
Defined.
(** ** A VOD stream whose segments cannot be opened *)

Section Unavailable.

Variable world : Type.
Variable ff_check_interrupt : world -> world * bool.
Variable refresh_manifest :
  world -> DASHContext -> representation -> world * DASHContext * representation * Z.
Variable get_current_time_in_sec : world -> Z.
Variable template_url : representation -> Z -> Z -> string.
Variable ffurl_probe_size : world -> DASHContext -> fragment -> world * option Z.
Variable open_url : world -> DASHContext -> representation -> fragment -> world * bool * Z.
Variable avio_size : world -> representation -> world * Z.
Variable av_fast_malloc : Z -> Z -> Z.
Variable avio_read : world -> representation -> Z -> world * Z.

Hypothesis never_interrupted : forall w, snd (ff_check_interrupt w) = false.
Hypothesis open_url_fails :
  forall w c v seg, snd (fst (open_url w c v seg)) = false /\ snd (open_url w c v seg) < 0.

Local Abbreviation restart gfuel :=
  (read_data_restart world
     (get_current_fragment_run world ff_check_interrupt refresh_manifest
        get_current_time_in_sec template_url gfuel)
     (update_init_section world ffurl_probe_size open_url avio_size av_fast_malloc avio_read)
     (open_input_cur_seg world ffurl_probe_size open_url)
     ff_check_interrupt).

Lemma read_data_restart_unavailable gfuel c n : forall w v,
  c_is_live c = false -> input v = false -> fragments v = [] -> init_section v = None ->
  INT64_MIN <= cur_seq_no v <= last_seq_no v + 1 -> last_seq_no v < INT64_MAX ->
  Z.to_nat (last_seq_no v + 1 - cur_seq_no v) = n ->
  exists w' v',
    restart (S gfuel) (S n) w c v = Some (w', c, v', Restart_end AVERROR_EOF) /\
    cur_seq_no v' = last_seq_no v + 1 /\ last_seq_no v' = last_seq_no v /\ input v' = false.
Proof.
  induction n as [|n IH]; intros w v Hlive Hin Hfr Hinit Hcur Hlast Hn.
  - cbn [read_data_restart]. rewrite Hin.
    unfold get_current_fragment_run, get_current_fragment. cbn [get_current_fragment_list].
    destruct (ff_check_interrupt w) as [w1 b].
    assert (Hnf : n_fragments (set_cur_seg None v) = 0).
    { unfold n_fragments. change (fragments (set_cur_seg None v)) with (fragments v).
      now rewrite Hfr. }
    rewrite Hnf. cbn [Z.ltb Z.compare negb]. rewrite orb_true_r. rewrite Hlive.
    change (cur_seq_no (set_cur_seg None v)) with (cur_seq_no v).
    change (last_seq_no (set_cur_seg None v)) with (last_seq_no v).
    replace (cur_seq_no v <=? last_seq_no v) with false by lia.
    cbn [Z.eqb negb].
    exists w1, (set_cur_seg None v). split; [reflexivity|].
    split; [cbn; lia|]. split; [reflexivity|exact Hin].
  - remember (S n) as fuel eqn:Hfuel. cbn [read_data_restart]. rewrite Hin.
    unfold get_current_fragment_run at 1. unfold get_current_fragment.
    cbn [get_current_fragment_list].
    pose proof (never_interrupted w) as Hi1.
    destruct (ff_check_interrupt w) as [w1 b1]. cbn [snd] in Hi1. subst b1.
    assert (Hnf : n_fragments (set_cur_seg None v) = 0).
    { unfold n_fragments. change (fragments (set_cur_seg None v)) with (fragments v).
      now rewrite Hfr. }
    rewrite Hnf. cbn [Z.ltb Z.compare negb orb]. rewrite Hlive.
    change (cur_seq_no (set_cur_seg None v)) with (cur_seq_no v).
    change (last_seq_no (set_cur_seg None v)) with (last_seq_no v).
    replace (cur_seq_no v <=? last_seq_no v) with true by lia.
    cbn [Z.eqb negb].
    set (seg := template_fragment template_url c (set_cur_seg None v)).
    unfold update_init_section at 1.
    change (init_section (set_cur_seg (Some seg) (set_cur_seg None v)))
      with (init_section v).
    rewrite Hinit. cbn [Z.ltb Z.compare].
    unfold open_input_cur_seg at 1. unfold open_input.
    destruct (ffurl_probe_size w1 c seg) as [w2 probed].
    pose proof (open_url_fails w2 c (set_cur_seg (Some seg) (set_cur_seg None v)) seg)
      as [Hopened Hret].
    destruct (open_url w2 c (set_cur_seg (Some seg) (set_cur_seg None v)) seg)
      as [[w3 opened] ret].
    cbn [fst snd] in Hopened, Hret. subst opened.
    replace (ret <? 0) with true by lia.
    pose proof (never_interrupted w3) as Hi3.
    destruct (ff_check_interrupt w3) as [w4 b3]. cbn [snd] in Hi3. subst b3.
    rewrite Hlive. cbn [negb]. subst fuel.
    match goal with
    | |- context [read_data_restart _ _ _ _ _ (S n) w4 c ?v3] =>
        destruct (IH w4 v3) as (w' & v' & Hrun & Hcur' & Hlast' & Hin')
    end; try reflexivity; try assumption.
    + cbn. rewrite (add64_id (cur_seq_no v) 1) by int_lia. lia.
    + cbn. rewrite (add64_id (cur_seq_no v) 1) by int_lia. lia.
    + exists w', v'. split; [exact Hrun|]. split; [exact Hcur'|]. split; [exact Hlast'|].
      exact Hin'.
Qed.

(** X22.  A VOD template stream skips the segments it cannot open and
    then ends: when opening fails for every URL and the caller does not
    interrupt, read_data moves cur_seq_no on by one after each failed open
    and, once it is past last_seq_no, returns AVERROR_EOF; it returns after
    at most one attempt per remaining segment. *)
Theorem read_data_vod_skips_unavailable
    (gfuel : nat) (w : world) (c : DASHContext) (v : representation) (buf_size : Z) :
  c_is_live c = false -> input v = false -> fragments v = [] -> init_section v = None ->
  INT64_MIN <= cur_seq_no v <= last_seq_no v + 1 -> last_seq_no v < INT64_MAX ->
  exists w' v',
    read_data world
      (get_current_fragment_run world ff_check_interrupt refresh_manifest
         get_current_time_in_sec template_url (S gfuel))
      (update_init_section world ffurl_probe_size open_url avio_size av_fast_malloc avio_read)
      (open_input_cur_seg world ffurl_probe_size open_url)
      avio_read ff_check_interrupt
      (S (Z.to_nat (last_seq_no v + 1 - cur_seq_no v))) w c v buf_size
    = Some (w', c, v', AVERROR_EOF) /\
    cur_seq_no v' = last_seq_no v + 1 /\ input v' = false.
Proof.
  intros Hlive Hin Hfr Hinit Hcur Hlast.
  destruct (read_data_restart_unavailable gfuel c _ w v Hlive Hin Hfr Hinit Hcur Hlast
              eq_refl) as (w' & v' & Hrun & Hcur' & _ & Hin').
  exists w', v'. unfold read_data. rewrite Hrun. auto.
Qed.

End Unavailable.

Lemma read_data_vod_skips_unavailable_witness :
  exists w' v',
    read_data unit
      (get_current_fragment_run unit eof_check_interrupt idle_refresh epoch_clock
         constant_url 1)
      (update_init_section unit probe_nothing open_never size_unknown exact_malloc
         full_avio_read)
      (open_input_cur_seg unit probe_nothing open_never)
      full_avio_read eof_check_interrupt
      (S (Z.to_nat (last_seq_no ending_rep + 1 - cur_seq_no ending_rep))) tt
      (empty_context true true) ending_rep 4096
    = Some (w', empty_context true true, v', AVERROR_EOF) /\
    cur_seq_no v' = last_seq_no ending_rep + 1 /\ input v' = false.
Proof.
  apply (read_data_vod_skips_unavailable unit eof_check_interrupt idle_refresh epoch_clock
           constant_url probe_nothing open_never size_unknown exact_malloc full_avio_read
           ltac:(intros w; reflexivity)
           ltac:(intros w c v seg; split; [reflexivity|vm_compute; reflexivity])
           0 tt (empty_context true true) ending_rep 4096).
  - reflexivity.
  - reflexivity.
  - reflexivity.
  - reflexivity.
  - vm_compute. split; discriminate.
  - vm_compute. reflexivity.
Defined.
(** ** What dash_read_packet returns *)

Section ReadPacketProofs.

Variable world : Type.
Variable ff_check_interrupt : world -> world * bool.
Variable av_read_frame : world -> representation -> world * representation * Z * Z.
Variable reopen_demux_for_component : world -> representation -> world * representation * Z.

Local Abbreviation loop :=
  (dash_read_packet_loop world ff_check_interrupt av_read_frame reopen_demux_for_component).

(** The three ways out of the loop, from any entry at which an error code
    comes with no restart pending. *)
Lemma dash_read_packet_loop_result fuel : forall w cur ret w' cur' ret' got,
  (ret <> 0 -> is_restart_needed cur = false) ->
  loop fuel w cur ret = Some (w', cur', ret', got) ->
  (got = true /\ ret' = 0 /\
   exists w0 cur0 r code timestamp,
     av_read_frame w0 cur0 = (w', r, code, timestamp) /\ 0 <= code /\
     cur' = set_cur_timestamp timestamp r) \/
  (got = false /\ ret' = 0 /\ exists w0, ff_check_interrupt w0 = (w', true)) \/
  (got = false /\ ret' <> 0 /\ is_restart_needed cur' = false).
Proof.
  induction fuel as [|fuel IH]; intros w cur ret w' cur' ret' got Hinv; [discriminate|].
  cbn [dash_read_packet_loop].
  destruct (ff_check_interrupt w) as [w1 interrupted] eqn:Echeck.
  destruct (interrupted || negb (ret =? 0)) eqn:Eexit.
  - intros [= <- <- <- <-]. right.
    destruct (Z.eq_dec ret 0) as [Hz|Hnz].
    + left. split; [reflexivity|]. split; [exact Hz|]. exists w. rewrite Echeck.
      destruct interrupted; [reflexivity|]. cbn [orb] in Eexit. lia.
    + right. split; [reflexivity|]. split; [exact Hnz|]. now apply Hinv.
  - destruct (av_read_frame w1 cur) as [[[w2 cur2] ret2] timestamp] eqn:Eread.
    destruct (0 <=? ret2) eqn:Eok.
    + intros [= <- <- <- <-]. left. split; [reflexivity|]. split; [reflexivity|].
      exists w1, cur, cur2, ret2, timestamp. split; [exact Eread|]. split; [lia|reflexivity].
    + destruct (is_restart_needed cur2) eqn:Erestart.
      * destruct (reopen_demux_for_component w2 _) as [[w3 cur3] ret3].
        apply IH. intros _. reflexivity.
      * apply IH. intros _. exact Erestart.
Qed.

(** X23.  The read loop of dash_read_packet has three outcomes.  It hands
    back a packet and returns 0, the representation being as av_read_frame
    left it with cur_timestamp set from the packet.  Or it returns 0 with no
    packet, which happens only straight after an interrupt check that
    fired: the world it returns is the one that check left.  Or it returns
    an error with no packet, and then no restart is pending:
    is_restart_needed is clear.  So without an interrupt a result of 0
    always comes with a packet. *)
Theorem dash_read_packet_loop_outcome
    (fuel : nat) (w w' : world) (cur cur' : representation) (ret : Z) (got : bool) :
  loop fuel w cur 0 = Some (w', cur', ret, got) ->
  (got = true /\ ret = 0 /\
   exists w0 cur0 r code timestamp,
     av_read_frame w0 cur0 = (w', r, code, timestamp) /\ 0 <= code /\
     cur' = set_cur_timestamp timestamp r) \/
  (got = false /\ ret = 0 /\ exists w0, ff_check_interrupt w0 = (w', true)) \/
  (got = false /\ ret <> 0 /\ is_restart_needed cur' = false).
Proof.
  apply dash_read_packet_loop_result. intros H. contradiction.
Qed.

End ReadPacketProofs.

(** A packet is ready; the caller interrupts; the segment is exhausted and
    the stream cannot be reopened. *)
Lemma dash_read_packet_loop_outcome_witness :
  (dash_read_packet_loop unit eof_check_interrupt ready_read_frame instant_reopen 1 tt
     (streaming_rep false) 0
   = Some (tt, set_cur_timestamp 90000 (streaming_rep false), 0, true) /\
   exists w0 cur0 r code timestamp,
     ready_read_frame w0 cur0 = (tt, r, code, timestamp) /\ 0 <= code /\
     set_cur_timestamp 90000 (streaming_rep false) = set_cur_timestamp timestamp r) /\
  (dash_read_packet_loop unit interrupting_check ready_read_frame instant_reopen 1 tt
     (streaming_rep false) 0
   = Some (tt, streaming_rep false, 0, false) /\
   exists w0, interrupting_check w0 = (tt, true)) /\
  (dash_read_packet_loop unit eof_check_interrupt exhausted_read_frame reopen_fails 2 tt
     (streaming_rep false) 0
   = Some (tt,
           set_is_restart_needed false
             (set_input false (set_init_sec_buf_read_offset 0 (set_cur_seg_offset 0
                (set_is_restart_needed true (streaming_rep false))))),
           AVERROR_EOF, false) /\
   is_restart_needed
     (set_is_restart_needed false
        (set_input false (set_init_sec_buf_read_offset 0 (set_cur_seg_offset 0
           (set_is_restart_needed true (streaming_rep false)))))) = false).
Proof.
  split; [|split].
  - split; [reflexivity|].
    destruct (dash_read_packet_loop_outcome unit eof_check_interrupt ready_read_frame
                instant_reopen 1 tt tt (streaming_rep false)
                (set_cur_timestamp 90000 (streaming_rep false)) 0 true eq_refl)
      as [(_ & _ & Hpacket)|[(Hgot & _)|(Hgot & _)]];
      [exact Hpacket|discriminate|discriminate].
  - split; [reflexivity|].
    destruct (dash_read_packet_loop_outcome unit interrupting_check ready_read_frame
                instant_reopen 1 tt tt (streaming_rep false) (streaming_rep false) 0 false
                eq_refl)
      as [(Hgot & _)|[(_ & _ & Hfired)|(_ & Hret & _)]];
      [discriminate|exact Hfired|contradiction].
  - split; [reflexivity|].
    destruct (dash_read_packet_loop_outcome unit eof_check_interrupt exhausted_read_frame
                reopen_fails 2 tt tt (streaming_rep false)
                (set_is_restart_needed false
                   (set_input false (set_init_sec_buf_read_offset 0 (set_cur_seg_offset 0
                      (set_is_restart_needed true (streaming_rep false))))))
                AVERROR_EOF false eq_refl)
      as [(Hgot & _)|[(_ & Hret & _)|(_ & _ & Hclear)]];
      [discriminate|discriminate|exact Hclear].
Defined.
